(** * couch-revision-purge: network scan and CouchDB revision purge

    A shallow embedding of the Go packages [network] (host enumeration and
    concurrent scan) and [couchdb] (the HTTP client that resets a document,
    installs the [rev_filter] design document and deletes conflict
    revisions), together with the loop body of [main].

    Conventions.
    - A Go [byte] is a [Z] in [0, 256); wrap-around is written [mod 256].
    - A Go [error] is represented by its message ([err.Error()]), since the
      code only ever formats or searches that text.
    - A run-time panic is an explicit outcome, a loop without a static
      bound takes fuel and answers [None] when the fuel runs out.
    - The calls of Go's HTTP client are explicit state: every request the
      program hands to [http.Get] or [client.Do] is appended to a log, the
      wire, and the answer to a call may depend on that log. What the
      client does inside one call (connections, redirects it follows) is
      not modelled: a call has one request and one answer.
    - Log lines and [fmt.Printf] output are not part of the state. *)

From Stdlib Require Import ZArith List String Ascii Lia PrimFloat.
From stdpp Require Import base option list gmap strings.

Local Open Scope string_scope.
Local Open Scope list_scope.
Local Open Scope Z_scope.

(** Result of a Go call that can return a value, return an error, or panic. *)
Inductive outcome (A : Type) : Type :=
| Ok (a : A)
| Err (e : string)
| Panic (msg : string).
Arguments Ok {A} a.
Arguments Err {A} e.
Arguments Panic {A} msg.

(** Go slice expression [s[low:high]] on a slice whose capacity is at least
    its length; both uses in the program have [high <= len s], so the
    capacity never decides. *)
Definition go_slice {A : Type} (s : list A) (low high : Z) : outcome (list A) :=
  if (0 <=? low) && (low <=? high) && (high <=? Z.of_nat (length s))
  then Ok (take (Z.to_nat (high - low)) (drop (Z.to_nat low) s))
  else Panic "runtime error: slice bounds out of range".

(** [strings.Contains s substr]. *)
Fixpoint has_prefix (p s : string) : bool :=
  match p, s with
  | EmptyString, _ => true
  | String a p', String b s' => if Ascii.eqb a b then has_prefix p' s' else false
  | String _ _, EmptyString => false
  end.

Fixpoint strings_Contains (s substr : string) : bool :=
  has_prefix substr s ||
  match s with
  | EmptyString => false
  | String _ s' => strings_Contains s' substr
  end.

(** Text before and after the first occurrence of [c], if any. *)
Fixpoint cut (c : ascii) (s : string) : option (string * string) :=
  match s with
  | EmptyString => None
  | String a s' =>
      if Ascii.eqb a c then Some (EmptyString, s')
      else match cut c s' with
           | Some (l, r) => Some (String a l, r)
           | None => None
           end
  end.

(** The fields of [s] separated by [c] ([strings.Split], JavaScript
    [split]); always at least one field. *)
Fixpoint split_on (c : ascii) (s : string) : list string :=
  match s with
  | EmptyString => [EmptyString]
  | String a s' =>
      if Ascii.eqb a c then EmptyString :: split_on c s'
      else match split_on c s' with
           | f :: fs => String a f :: fs
           | [] => [String a EmptyString]
           end
  end.

Definition is_digit (c : ascii) : bool :=
  let n := Z.of_nat (nat_of_ascii c) in (48 <=? n) && (n <=? 57).

Definition digit_val (c : ascii) : Z := Z.of_nat (nat_of_ascii c) - 48.

(** Value of a run of decimal digits, [None] if another character occurs. *)
Fixpoint digits_val (acc : Z) (s : string) : option Z :=
  match s with
  | EmptyString => Some acc
  | String a s' =>
      if is_digit a then digits_val (acc * 10 + digit_val a) s' else None
  end.

(** * Package network *)
Module Network.

(** ** The parts of Go's [net] package that [Hosts] calls

    [net.IP] and [net.IPMask] are byte slices; [nil] is the empty list. *)
Definition IP : Type := list Z.
Definition IPMask : Type := list Z.

Record IPNet : Type := { IPNet_IP : IP; IPNet_Mask : IPMask }.

Definition IPv4len : nat := 4.
Definition IPv6len : nat := 16.

Definition v4InV6Prefix : list Z := [0; 0; 0; 0; 0; 0; 0; 0; 0; 0; 255; 255].

Definition bytes_eqb (a b : list Z) : bool := bool_decide (a = b).

Definition allFF (b : list Z) : bool := forallb (fun c => c =? 255) b.

(** [net.CIDRMask ones bits]: the loop over the [bits/8] bytes. *)
Fixpoint CIDRMask_loop (l : nat) (n : Z) : IPMask :=
  match l with
  | O => []
  | S l' =>
      if 8 <=? n then 255 :: CIDRMask_loop l' (n - 8)
      else Z.lxor 255 (Z.shiftr 255 n) :: CIDRMask_loop l' 0
  end.

Definition CIDRMask (ones bits : Z) : IPMask :=
  if negb ((bits =? 32) || (bits =? 128)) then []
  else if (ones <? 0) || (bits <? ones) then []
  else CIDRMask_loop (Z.to_nat (bits / 8)) ones.

(** [ip.To4()]. *)
Definition To4 (ip : IP) : IP :=
  if bool_decide (length ip = IPv4len) then ip
  else if bool_decide (length ip = IPv6len) && bytes_eqb (take 12 ip) v4InV6Prefix
       then drop 12 ip
       else [].

(** [ip.Mask(mask)]. *)
Definition Mask (ip : IP) (mask : IPMask) : IP :=
  let mask :=
    if bool_decide (length mask = IPv6len) && bool_decide (length ip = IPv4len)
       && allFF (take 12 mask)
    then drop 12 mask else mask in
  let ip :=
    if bool_decide (length mask = IPv4len) && bool_decide (length ip = IPv6len)
       && bytes_eqb (take 12 ip) v4InV6Prefix
    then drop 12 ip else ip in
  if bool_decide (length ip = length mask)
  then zip_with Z.land ip mask
  else [].

(** [networkNumberAndMask n]; [None] stands for the pair of nils. *)
Definition networkNumberAndMask (n : IPNet) : option (IP * IPMask) :=
  let ip4 := To4 (IPNet_IP n) in
  let ip := if bool_decide (ip4 = []) then IPNet_IP n else ip4 in
  if bool_decide (ip4 = []) && negb (bool_decide (length ip = IPv6len)) then None
  else if bool_decide (length (IPNet_Mask n) = IPv4len) then
         if bool_decide (length ip = IPv4len) then Some (ip, IPNet_Mask n) else None
       else if bool_decide (length (IPNet_Mask n) = IPv6len) then
         if bool_decide (length ip = IPv4len)
         then Some (ip, drop 12 (IPNet_Mask n))
         else Some (ip, IPNet_Mask n)
       else None.

(** [n.Contains(ip)]. *)
Definition Contains (n : IPNet) (ip : IP) : bool :=
  match networkNumberAndMask n with
  | None => false
  | Some (nn, m) =>
      let x := To4 ip in
      let ip := if bool_decide (x = []) then ip else x in
      if bool_decide (length ip = length nn)
      then bool_decide (zip_with Z.land nn m = zip_with Z.land ip m)
      else false
  end.

(** Decimal text of one byte, as [ip.String()] prints it. *)
Definition digit_char (d : Z) : ascii := ascii_of_nat (Z.to_nat (48 + d)).

Definition ubtoa (b : Z) : string :=
  if b <? 10 then String (digit_char b) EmptyString
  else if b <? 100 then
    String (digit_char (b / 10)) (String (digit_char (b mod 10)) EmptyString)
  else
    String (digit_char (b / 100))
      (String (digit_char (b / 10 mod 10))
         (String (digit_char (b mod 10)) EmptyString)).

(** ** IPv6 text

    [net.ParseCIDR] reads IPv4 and IPv6 text and [ip.String()] prints
    both. The IPv4 side is written out below. How Go reads the text of an
    IPv6 address, and how it prints a sixteen-byte address that is not an
    IPv4 address (shortest form, [::] for a run of zero groups), is taken
    as given: the program never looks inside that text. What is known of a
    text Go accepts as an IPv6 address is that it yields sixteen bytes. *)
Class IPv6Text : Type := {
  parseIPv6 : string -> option IP;
  String6 : IP -> string;
  parseIPv6_bytes : forall s ip,
    parseIPv6 s = Some ip ->
    length ip = IPv6len /\ Forall (fun b => 0 <= b < 256) ip
}.

(** [hexString b]: two lower-case hexadecimal digits per byte. *)
Definition hex_digit (d : Z) : ascii :=
  if d <? 10 then digit_char d else ascii_of_nat (Z.to_nat (87 + d)).

Fixpoint hexString (b : list Z) : string :=
  match b with
  | [] => EmptyString
  | x :: b' => String (hex_digit (x / 16)) (String (hex_digit (x mod 16)) (hexString b'))
  end.

(** [ip.String()]: dotted decimal for a four-byte address and for the
    sixteen-byte form of an IPv4 address, the IPv6 text for any other
    sixteen-byte address, ["<nil>"] for the empty slice and ["?"] followed
    by the bytes in hexadecimal for any other length. *)
Definition IP_String `{IPv6Text} (ip : IP) : string :=
  match To4 ip with
  | [a; b; c; d] => ubtoa a +:+ "." +:+ ubtoa b +:+ "." +:+ ubtoa c +:+ "." +:+ ubtoa d
  | _ => if bool_decide (ip = []) then "<nil>"
         else if bool_decide (length ip = IPv6len) then String6 ip
         else "?" +:+ hexString ip
  end.

(** One dotted field of an IPv4 address: digits only, no leading zero,
    at most 255. *)
Definition parse_octet (f : string) : option Z :=
  match f with
  | EmptyString => None
  | String "0" (String _ _) => None
  | _ =>
      match digits_val 0 f with
      | Some v => if v <=? 255 then Some v else None
      | None => None
      end
  end.

Definition parseIPv4 (s : string) : option (list Z) :=
  match split_on "." s with
  | [f0; f1; f2; f3] =>
      match parse_octet f0, parse_octet f1, parse_octet f2, parse_octet f3 with
      | Some a, Some b, Some c, Some d => Some [a; b; c; d]
      | _, _, _, _ => None
      end
  | _ => None
  end.

(** The prefix length after the slash: [dtoi] must consume all of it and
    the value must not exceed the number of bits of the address, 32 for an
    IPv4 address and 128 for an IPv6 address. *)
Definition parse_prefix_len (bits : Z) (m : string) : option Z :=
  match m with
  | EmptyString => None
  | _ =>
      match digits_val 0 m with
      | Some n => if n <=? bits then Some n else None
      | None => None
      end
  end.

(** [net.ParseCIDR]. The text before the first slash is read as an IPv4
    address and, failing that, as an IPv6 address. An IPv4 address comes
    back in its sixteen-byte form with a four-byte mask, so that the
    network is masked to four bytes; an IPv6 address comes back with a
    sixteen-byte mask and a sixteen-byte network. *)
Definition ParseCIDR `{IPv6Text} (s : string) : string + (IP * IPNet) :=
  match cut "/" s with
  | None => inl ("invalid CIDR address: " +:+ s)
  | Some (addr, mask) =>
      match parseIPv4 addr with
      | Some a4 =>
          match parse_prefix_len 32 mask with
          | Some n =>
              let m := CIDRMask n 32 in
              let addr16 := v4InV6Prefix ++ a4 in
              inr (addr16, {| IPNet_IP := Mask addr16 m; IPNet_Mask := m |})
          | None => inl ("invalid CIDR address: " +:+ s)
          end
      | None =>
          match parseIPv6 addr with
          | Some a16 =>
              match parse_prefix_len 128 mask with
              | Some n =>
                  let m := CIDRMask n 128 in
                  inr (a16, {| IPNet_IP := Mask a16 m; IPNet_Mask := m |})
              | None => inl ("invalid CIDR address: " +:+ s)
              end
          | None => inl ("invalid CIDR address: " +:+ s)
          end
      end
  end.

(** ** inc *)

(** The loop of [inc] from index [j] down to 0, on the reversed slice:
    add one to the byte, stop as soon as the byte did not wrap to zero. *)
Fixpoint inc_loop (r : list Z) : list Z :=
  match r with
  | [] => []
  | b :: r' =>
      let b' := (b + 1) mod 256 in
      if 0 <? b' then b' :: r' else b' :: inc_loop r'
  end.

Definition inc (ip : IP) : IP := rev (inc_loop (rev ip)).

(** ** Hosts *)

(** The [for] loop of [Hosts]: [ip] is the loop variable, [ips] the slice
    built so far. [None] when the fuel is used up before the loop exits. *)
Fixpoint Hosts_loop `{IPv6Text} (fuel : nat) (ipnet : IPNet) (ip : IP)
    (ips : list string) {struct fuel} : option (list string) :=
  match fuel with
  | O => None
  | S fuel' =>
      if Contains ipnet ip
      then Hosts_loop fuel' ipnet (inc ip) (ips ++ [IP_String ip])
      else Some ips
  end.

Definition Hosts `{IPv6Text} (fuel : nat) (cidr : string)
  : option (outcome (list string)) :=
  match ParseCIDR cidr with
  | inl e => Some (Err e)
  | inr (ip, ipnet) =>
      match Hosts_loop fuel ipnet (Mask ip (IPNet_Mask ipnet)) [] with
      | None => None
      | Some ips => Some (go_slice ips 1 (Z.of_nat (length ips) - 1))
      end
  end.

(** The block as a number: the four bytes of an address, most significant
    first, and back. Used to state which addresses [Hosts] returns. *)
Definition addr_of_Z (n : Z) : IP :=
  [n / 2 ^ 24 mod 256; n / 2 ^ 16 mod 256; n / 2 ^ 8 mod 256; n mod 256].

Definition Z_of_addr (ip : IP) : Z :=
  fold_left (fun acc b => acc * 256 + b) ip 0.

(** Table check behind the byte masks: and-ing a byte with [256 - 2^i]
    clears its low [i] bits. *)
Definition land_mask_table : bool :=
  forallb (fun i => forallb (fun x => Z.land x (256 - 2 ^ i) =? x / 2 ^ i * 2 ^ i)
                      (seqZ 0 256)) (seqZ 0 9).

(** What the text of an IPv4 block denotes: the number of its address and
    its prefix length, exactly when [ParseCIDR] reads the text as an IPv4
    block. *)
Definition cidr_fields (s : string) : option (Z * Z) :=
  match cut "/" s with
  | None => None
  | Some (addr, mask) =>
      match parseIPv4 addr, parse_prefix_len 32 mask with
      | Some a4, Some n => Some (Z_of_addr a4, n)
      | _, _ => None
      end
  end.

(** The block [ParseCIDR] builds for an address number [A] and prefix
    length [p], and the number of its network address. *)
Definition network_of (A p : Z) : Z := A / 2 ^ (32 - p) * 2 ^ (32 - p).

Definition block_of (A p : Z) : IPNet :=
  {| IPNet_IP := addr_of_Z (network_of A p); IPNet_Mask := CIDRMask p 32 |}.

(** ** ScanNetwork

    One goroutine per host. A goroutine is at one of these points of its
    body; the append under the mutex is split into the read of [foundIPs]
    and the store of the extended slice, so that the proof has to use the
    mutex. *)
Inductive pc : Type :=
| Spawned                      (* created, [isCouchDBRunning] not yet called *)
| WantLock                     (* the probe answered true; at [mu.Lock()] *)
| Reading                      (* holds [mu]; about to read [foundIPs] *)
| Writing (seen : list string) (* holds [mu]; read [seen]; about to store *)
| Unlocking                    (* holds [mu]; at [mu.Unlock()] *)
| Done.                        (* [wg.Done()] has run *)

Record scan_state : Type := {
  to_spawn : list string;            (* hosts the [for] loop has not reached *)
  goroutines : list (string * pc);
  foundIPs : list string;
  mu : bool                          (* true when the mutex is held *)
}.

Section Scan.
Context `{IPv6Text}.
Variable isCouchDBRunning : string -> string -> bool.
Variable couchDBPort : string.

Inductive scan_step : scan_state -> scan_state -> Prop :=
| step_spawn ip rest gs found m :
    scan_step
      {| to_spawn := ip :: rest; goroutines := gs; foundIPs := found; mu := m |}
      {| to_spawn := rest; goroutines := gs ++ [(ip, Spawned)];
         foundIPs := found; mu := m |}
| step_probe ip todo l1 l2 found m :
    scan_step
      {| to_spawn := todo; goroutines := l1 ++ (ip, Spawned) :: l2;
         foundIPs := found; mu := m |}
      {| to_spawn := todo;
         goroutines :=
           l1 ++ (ip, if isCouchDBRunning ip couchDBPort then WantLock else Done) :: l2;
         foundIPs := found; mu := m |}
| step_lock ip todo l1 l2 found :
    scan_step
      {| to_spawn := todo; goroutines := l1 ++ (ip, WantLock) :: l2;
         foundIPs := found; mu := false |}
      {| to_spawn := todo; goroutines := l1 ++ (ip, Reading) :: l2;
         foundIPs := found; mu := true |}
| step_read ip todo l1 l2 found m :
    scan_step
      {| to_spawn := todo; goroutines := l1 ++ (ip, Reading) :: l2;
         foundIPs := found; mu := m |}
      {| to_spawn := todo; goroutines := l1 ++ (ip, Writing found) :: l2;
         foundIPs := found; mu := m |}
| step_write ip seen todo l1 l2 found m :
    scan_step
      {| to_spawn := todo; goroutines := l1 ++ (ip, Writing seen) :: l2;
         foundIPs := found; mu := m |}
      {| to_spawn := todo; goroutines := l1 ++ (ip, Unlocking) :: l2;
         foundIPs := seen ++ [ip]; mu := m |}
| step_unlock ip todo l1 l2 found m :
    scan_step
      {| to_spawn := todo; goroutines := l1 ++ (ip, Unlocking) :: l2;
         foundIPs := found; mu := m |}
      {| to_spawn := todo; goroutines := l1 ++ (ip, Done) :: l2;
         foundIPs := found; mu := false |}.

(** [wg.Wait()] returns: every host was handed to a goroutine and every
    goroutine has run [wg.Done()]. *)
Definition scan_finished (st : scan_state) : Prop :=
  to_spawn st = [] /\ Forall (fun g => g.2 = Done) (goroutines st).

Definition scan_init (ips : list string) : scan_state :=
  {| to_spawn := ips; goroutines := []; foundIPs := []; mu := false |}.

(** [ScanNetwork fuel cidr r]: some schedule of the goroutines makes the
    call return the slice [r]. A block that does not parse ends the
    process in [logger.Fatalf] and returns nothing; a block on which
    [Hosts] panics or does not come back returns nothing either. *)
Inductive ScanNetwork (fuel : nat) (cidr : string) : list string -> Prop :=
| ScanNetwork_returns ips st :
    Hosts fuel cidr = Some (Ok ips) ->
    rtc scan_step (scan_init ips) st ->
    scan_finished st ->
    ScanNetwork fuel cidr (foundIPs st).

(** What a goroutine will still append, and whether it holds the mutex. *)
Definition pending (g : string * pc) : list string :=
  match g.2 with
  | Spawned => if isCouchDBRunning g.1 couchDBPort then [g.1] else []
  | WantLock | Reading | Writing _ => [g.1]
  | Unlocking | Done => []
  end.

Definition reachable_hosts (ips : list string) : list string :=
  List.filter (fun ip => isCouchDBRunning ip couchDBPort) ips.
End Scan.

Definition holds_mu (g : string * pc) : bool :=
  match g.2 with
  | Reading | Writing _ | Unlocking => true
  | Spawned | WantLock | Done => false
  end.

(** Steps a goroutine has left, and the steps the whole scan has left. *)
Definition pc_rank (p : pc) : nat :=
  match p with
  | Spawned => 5 | WantLock => 4 | Reading => 3 | Writing _ => 2
  | Unlocking => 1 | Done => 0
  end%nat.

Definition scan_rank (st : scan_state) : nat :=
  (6 * length (to_spawn st)
   + list_sum (map (fun g => pc_rank g.2) (goroutines st)))%nat.

(** The IPv6 text of the examples: the four addresses of the block
    2001:db8::/126, read and printed as Go does. It knows no other IPv6
    text, and prints any other address as its bytes. *)
Definition doc_addr (last : Z) : IP :=
  [32; 1; 13; 184; 0; 0; 0; 0; 0; 0; 0; 0; 0; 0; 0; last].

Definition example_parseIPv6 (s : string) : option IP :=
  if String.eqb s "2001:db8::" then Some (doc_addr 0) else None.

Definition example_String6 (ip : IP) : string :=
  if bytes_eqb ip (doc_addr 0) then "2001:db8::"
  else if bytes_eqb ip (doc_addr 1) then "2001:db8::1"
  else if bytes_eqb ip (doc_addr 2) then "2001:db8::2"
  else if bytes_eqb ip (doc_addr 3) then "2001:db8::3"
  else "?" +:+ hexString ip.

Definition example_text : IPv6Text.
Proof.
  refine {| parseIPv6 := example_parseIPv6; String6 := example_String6 |}.
  intros s ip. unfold example_parseIPv6.
  destruct (String.eqb s "2001:db8::"); [|discriminate].
  intros [= <-]. split; [reflexivity|]. unfold doc_addr.
  repeat (constructor; [lia|]). constructor.
Defined.

(** The probe of the repository's test: only 192.168.1.1 answers. *)
Definition example_probe (ip port : string) : bool := String.eqb ip "192.168.1.1".

(** Number of goroutines inside the critical section. *)
Definition holders (gs : list (string * pc)) : nat :=
  length (List.filter holds_mu gs).

(** The invariant of a scan over the hosts [ips]: what is stored, what the
    goroutines will still store and what the unspawned hosts will
    contribute make up the reachable hosts; the mutex is held exactly when
    one goroutine is in the critical section; and a goroutine about to
    store has read the current slice. *)
Definition scan_inv (isCouchDBRunning : string -> string -> bool)
    (couchDBPort : string) (ips : list string) (st : scan_state) : Prop :=
  foundIPs st
    ++ flat_map (pending isCouchDBRunning couchDBPort) (goroutines st)
    ++ reachable_hosts isCouchDBRunning couchDBPort (to_spawn st)
  ≡ₚ reachable_hosts isCouchDBRunning couchDBPort ips
  /\ holders (goroutines st) = (if mu st then 1 else 0)%nat
  /\ forall ip seen, (ip, Writing seen) ∈ goroutines st -> seen = foundIPs st.

End Network.

(** * Package couchdb *)
Module CouchDB.

(** A decoded JSON value, the dynamic content of Go's [interface{}] after
    [json.Unmarshal]: nil, bool, float64, string, slice, map. *)
Inductive JSON : Type :=
| JNull
| JBool (b : bool)
| JNumber (x : float)
| JString (s : string)
| JArray (l : list JSON)
| JObject (m : gmap string JSON).

(** The dynamic type Go names in the message of a failed type assertion. *)
Definition go_type_name (v : option JSON) : string :=
  match v with
  | None | Some JNull => "nil"
  | Some (JBool _) => "bool"
  | Some (JNumber _) => "float64"
  | Some (JString _) => "string"
  | Some (JArray _) => "[]interface {}"
  | Some (JObject _) => "map[string]interface {}"
  end.

Record Request : Type := {
  Method : string;
  URL : string;
  Header : list (string * string);
  ReqBody : option string
}.

(** An HTTP response: the status, the bytes of the body that can be read,
    and the error that ends the read, if any. *)
Record Response : Type := {
  StatusCode : Z;
  Body : string;
  BodyErr : option string
}.

Definition StatusOK : Z := 200.
Definition StatusCreated : Z := 201.
Definition StatusAccepted : Z := 202.
Definition StatusNotFound : Z := 404.

(** [Document], the rows of [QueryResponse] and [QueryResponse]. *)
Record Document : Type := {
  ID : string;
  Rev : string;
  DeletedConflicts : list string
}.

Record Row : Type := {
  Row_ID : string;
  Row_Key : string;
  Row_Value : Document
}.

Record QueryResponse : Type := {
  TotalRows : Z;
  Offset : Z;
  Rows : list Row
}.

Record CouchDBClient : Type := { BaseURL : string; DBName : string }.

Definition NewCouchDBClient (baseURL dbName : string) : CouchDBClient :=
  {| BaseURL := baseURL; DBName := dbName |}.

(** What the program takes from outside the repository: URL parsing and
    the HTTP client with the network and the server behind it
    ([net/http]), and the JSON codec ([encoding/json]) at the four types
    the client decodes into. Errors are on the left.

    [RoundTrip sent req] is what one call of the HTTP client on [req]
    returns ([http.Get], [client.Do]) after the calls [sent]: the error, or
    the response the call ends with. Go's client follows a redirect inside
    the call; the response is then the last one, and the requests the
    client sends by itself on the way are not recorded. *)
Class World : Type := {
  url_Parse_error : string -> option string;
  RoundTrip : list Request -> Request -> string + Response;
  json_Marshal : gmap string JSON -> string + string;
  Unmarshal_doc : string -> string + gmap string JSON;
  Unmarshal_revs_info : string -> string + list string;
  Unmarshal_QueryResponse : string -> string + QueryResponse;
  Decode_rev : Response -> string + string
}.

(** The client's state: the Go maps it holds, by address, and the requests
    handed to the HTTP client so far, one for each call. A nil map and an
    empty map behave alike in every operation the client performs, and
    both are the empty map. *)
Record State : Type := {
  heap : gmap positive (gmap string JSON);
  wire : list Request
}.

Definition M (A : Type) : Type := State -> outcome A * State.

Definition deref (s : State) (l : positive) : gmap string JSON :=
  default ∅ (heap s !! l).

(** [make] of a new map holding [m]. *)
Definition alloc (m : gmap string JSON) (s : State) : positive * State :=
  let l := fresh (dom (heap s)) in
  (l, {| heap := <[l := m]> (heap s); wire := wire s |}).

(** [delete(doc, key)] on the map at [l]. *)
Definition map_delete (l : positive) (key : string) (s : State) : State :=
  {| heap := alter (delete key) l (heap s); wire := wire s |}.

(** The state after the HTTP client was called on each of [reqs]. *)
Definition sent (s : State) (reqs : list Request) : State :=
  {| heap := heap s; wire := wire s ++ reqs |}.

Section Client.
Context `{World}.

(** [ioutil.ReadAll(resp.Body)]. *)
Definition ReadAll (resp : Response) : string + string :=
  match BodyErr resp with
  | Some e => inl e
  | None => inr (Body resp)
  end.

(** [http.NewRequest], with the methods the client uses. *)
Definition NewRequest (method url : string) (body : option string)
  : string + Request :=
  match url_Parse_error url with
  | Some e => inl e
  | None => inr {| Method := method; URL := url; Header := []; ReqBody := body |}
  end.

(** [req.Header.Set(k, v)]. *)
Definition Header_Set (k v : string) (req : Request) : Request :=
  {| Method := Method req; URL := URL req;
     Header := (k, v) :: List.filter (fun kv => negb (String.eqb kv.1 k)) (Header req);
     ReqBody := ReqBody req |}.

(** [client.Do(req)]: one call of the HTTP client. The request is logged
    and the answer is the one the call returns. *)
Definition Do (req : Request) (s : State) : (string + Response) * State :=
  (RoundTrip (wire s) req, sent s [req]).

(** [http.Get(url)]. *)
Definition http_Get (url : string) (s : State) : (string + Response) * State :=
  match NewRequest "GET" url None with
  | inl e => (inl e, s)
  | inr req => Do req s
  end.

Definition doc_url (c : CouchDBClient) (docID : string) : string :=
  BaseURL c +:+ "/" +:+ DBName c +:+ "/" +:+ docID.

Definition GetDocument (c : CouchDBClient) (docID : string) : M positive :=
  fun s =>
  let url := doc_url c docID in
  match http_Get url s with
  | (inl err, s) => (Err err, s)
  | (inr resp, s) =>
      match ReadAll resp with
      | inl err => (Err err, s)
      | inr body =>
          if negb (StatusCode resp =? StatusOK)
          then (Err ("failed to fetch document: " +:+ body), s)
          else match Unmarshal_doc body with
               | inl err => (Err err, s)
               | inr doc => let (l, s) := alloc doc s in (Ok l, s)
               end
      end
  end.

Definition GetAllRevisions (c : CouchDBClient) (docID : string) : M (list string) :=
  fun s =>
  let url := doc_url c docID +:+ "?revs_info=true" in
  match http_Get url s with
  | (inl err, s) => (Err err, s)
  | (inr resp, s) =>
      match ReadAll resp with
      | inl err => (Err err, s)
      | inr body =>
          if negb (StatusCode resp =? StatusOK)
          then (Err ("failed to fetch document revisions: " +:+ body), s)
          else match Unmarshal_revs_info body with
               | inl err => (Err err, s)
               | inr revisions => (Ok revisions, s)
               end
      end
  end.

Definition DeleteDocumentRevision (c : CouchDBClient) (docID rev : string)
  : M string :=
  fun s =>
  let url := doc_url c docID +:+ "?rev=" +:+ rev in
  match NewRequest "DELETE" url None with
  | inl err => (Err err, s)
  | inr req =>
      match Do req s with
      | (inl err, s) => (Err err, s)
      | (inr resp, s) =>
          match ReadAll resp with
          | inl err => (Err err, s)
          | inr body =>
              if negb (StatusCode resp =? StatusOK)
              then (Err ("failed to delete document revision: " +:+ body), s)
              else (Ok "Revision deleted successfully", s)
          end
      end
  end.

(** The [for ... range revisions] loop of [DeleteAllRevisions]. *)
Fixpoint DeleteAllRevisions (c : CouchDBClient) (docID : string)
    (revisions : list string) : M unit :=
  fun s =>
  match revisions with
  | [] => (Ok tt, s)
  | rev :: rest =>
      match DeleteDocumentRevision c docID rev s with
      | (Err err, s) =>
          if strings_Contains err "not_found"
          then DeleteAllRevisions c docID rest s
          else (Err ("failed to delete revision " +:+ rev +:+ ": " +:+ err), s)
      | (Panic msg, s) => (Panic msg, s)
      | (Ok _, s) => DeleteAllRevisions c docID rest s
      end
  end.

Definition DeleteDocument (c : CouchDBClient) (docID : string) : M unit :=
  fun s =>
  let url := doc_url c docID in
  match NewRequest "DELETE" url None with
  | inl err => (Err err, s)
  | inr req =>
      match Do req s with
      | (inl err, s) => (Err err, s)
      | (inr resp, s) =>
          match ReadAll resp with
          | inl err => (Err err, s)
          | inr body =>
              if negb (StatusCode resp =? StatusOK)
                 && negb (StatusCode resp =? StatusNotFound)
              then (Err ("failed to delete document: " +:+ body), s)
              else (Ok tt, s)
          end
      end
  end.

(** [CreateDocument(doc)]: [doc] is the address of the caller's map. The
    type assertion [doc["_id"].(string)] has no [ok] result, so it panics
    unless the map holds a string under ["_id"]. *)
Definition CreateDocument (c : CouchDBClient) (doc : positive) : M unit :=
  fun s =>
  match deref s doc !! "_id" with
  | Some (JString id) =>
      let url := doc_url c id in
      let s := map_delete doc "_rev" s in
      match json_Marshal (deref s doc) with
      | inl err => (Err err, s)
      | inr jsonDoc =>
          match NewRequest "PUT" url (Some jsonDoc) with
          | inl err => (Err err, s)
          | inr req =>
              let req := Header_Set "Content-Type" "application/json" req in
              match Do req s with
              | (inl err, s) => (Err err, s)
              | (inr resp, s) =>
                  match ReadAll resp with
                  | inl err => (Err err, s)
                  | inr body =>
                      if negb (StatusCode resp =? StatusCreated)
                      then (Err ("failed to create document: " +:+ body), s)
                      else (Ok tt, s)
                  end
              end
          end
      end
  | v =>
      (Panic ("interface conversion: interface {} is " +:+ go_type_name v
              +:+ ", not string"), s)
  end.

Definition ResetDocument (c : CouchDBClient) (docID : string) : M unit :=
  fun s =>
  match GetDocument c docID s with
  | (Panic msg, s) => (Panic msg, s)
  | (Err err, s) => (Err ("failed to fetch document: " +:+ err), s)
  | (Ok doc, s) =>
  match GetAllRevisions c docID s with
  | (Panic msg, s) => (Panic msg, s)
  | (Err err, s) => (Err ("failed to get revisions: " +:+ err), s)
  | (Ok revisions, s) =>
  match DeleteAllRevisions c docID revisions s with
  | (Panic msg, s) => (Panic msg, s)
  | (Err err, s) => (Err ("failed to delete all revisions: " +:+ err), s)
  | (Ok _, s) =>
  match DeleteDocument c docID s with
  | (Panic msg, s) => (Panic msg, s)
  | (Err err, s) => (Err ("failed to delete document: " +:+ err), s)
  | (Ok _, s) =>
  match CreateDocument c doc s with
  | (Panic msg, s) => (Panic msg, s)
  | (Err err, s) => (Err ("failed to recreate document: " +:+ err), s)
  | (Ok _, s) => (Ok tt, s)
  end end end end end.

Definition CompactDatabase (c : CouchDBClient) : M string :=
  fun s =>
  let url := BaseURL c +:+ "/" +:+ DBName c +:+ "/_compact" in
  match NewRequest "POST" url (Some "{}") with
  | inl err => (Err err, s)
  | inr req =>
      let req := Header_Set "Content-Type" "application/json" req in
      match Do req s with
      | (inl err, s) => (Err err, s)
      | (inr resp, s) =>
          match ReadAll resp with
          | inl err => (Err err, s)
          | inr body =>
              if negb (StatusCode resp =? StatusAccepted)
              then (Err ("failed to trigger compaction: " +:+ body), s)
              else (Ok body, s)
          end
      end
  end.

Definition design_url (c : CouchDBClient) (designDocName : string) : string :=
  BaseURL c +:+ "/" +:+ DBName c +:+ "/_design/" +:+ designDocName.

Definition CheckAndDeleteDesignDocument (c : CouchDBClient)
    (designDocName : string) : M string :=
  fun s =>
  let url := design_url c designDocName in
  match http_Get url s with
  | (inl err, s) => (Err err, s)
  | (inr resp, s) =>
      if StatusCode resp =? StatusNotFound
      then (Ok "Design document does not exist, no deletion needed", s)
      else if negb (StatusCode resp =? StatusOK)
      then (Err ("failed to fetch design document: " +:+ Body resp), s)
      else
        match Decode_rev resp with
        | inl err => (Err err, s)
        | inr rev =>
            let deleteURL := url +:+ "?rev=" +:+ rev in
            match NewRequest "DELETE" deleteURL None with
            | inl err => (Err err, s)
            | inr req =>
                match Do req s with
                | (inl err, s) => (Err err, s)
                | (inr deleteResp, s) =>
                    if negb (StatusCode deleteResp =? StatusOK)
                    then (Err ("failed to delete design document: "
                               +:+ Body deleteResp), s)
                    else (Ok "Existing design document deleted", s)
                end
            end
        end
  end.

(** The inner loop of [HandleQueryResponse], over the conflict revisions
    of one row's document. *)
Fixpoint delete_conflicts (c : CouchDBClient) (docID : string)
    (conflicts : list string) : M unit :=
  fun s =>
  match conflicts with
  | [] => (Ok tt, s)
  | conflictRev :: rest =>
      match DeleteDocumentRevision c docID conflictRev s with
      | (Err err, s) =>
          (Err ("failed to delete conflict for document " +:+ docID
                +:+ ": " +:+ err), s)
      | (Panic msg, s) => (Panic msg, s)
      | (Ok _, s) => delete_conflicts c docID rest s
      end
  end.

(** The outer loop, over the rows. *)
Fixpoint handle_rows (c : CouchDBClient) (rows : list Row) : M unit :=
  fun s =>
  match rows with
  | [] => (Ok tt, s)
  | row :: rest =>
      let doc := Row_Value row in
      if (0 <? length (DeletedConflicts doc))%nat
      then match delete_conflicts c (ID doc) (DeletedConflicts doc) s with
           | (Ok _, s) => handle_rows c rest s
           | r => r
           end
      else handle_rows c rest s
  end.

Definition HandleQueryResponse (c : CouchDBClient) (queryResponse : string)
  : M unit :=
  fun s =>
  match Unmarshal_QueryResponse queryResponse with
  | inl err => (Err err, s)
  | inr response => handle_rows c (Rows response) s
  end.

Definition CreateDesignDocument (c : CouchDBClient) (designDocName : string)
    (designDoc : gmap string JSON) : M string :=
  fun s =>
  let url := design_url c designDocName in
  match json_Marshal designDoc with
  | inl err => (Err ("failed to marshal design document: " +:+ err), s)
  | inr jsonDoc =>
      match NewRequest "PUT" url (Some jsonDoc) with
      | inl err => (Err err, s)
      | inr req =>
          let req := Header_Set "Content-Type" "application/json" req in
          match Do req s with
          | (inl err, s) => (Err err, s)
          | (inr resp, s) =>
              match ReadAll resp with
              | inl err => (Err err, s)
              | inr body => (Ok body, s)
              end
          end
      end
  end.

Definition QueryDesignDocument (c : CouchDBClient) (designDocName : string)
  : M string :=
  fun s =>
  let url := design_url c designDocName +:+ "/_view/high_rev_gen" in
  match http_Get url s with
  | (inl err, s) => (Err err, s)
  | (inr resp, s) =>
      match ReadAll resp with
      | inl err => (Err err, s)
      | inr body => (Ok body, s)
      end
  end.
End Client.

(** ** Vocabulary for the statements about the client *)
Section Vocabulary.
Context `{World}.

(** The requests the client builds. *)
Definition get_document (c : CouchDBClient) (docID : string) : Request :=
  {| Method := "GET"; URL := doc_url c docID; Header := []; ReqBody := None |}.

Definition get_revisions (c : CouchDBClient) (docID : string) : Request :=
  {| Method := "GET"; URL := doc_url c docID +:+ "?revs_info=true";
     Header := []; ReqBody := None |}.

Definition revision_delete (c : CouchDBClient) (docID rev : string) : Request :=
  {| Method := "DELETE"; URL := doc_url c docID +:+ "?rev=" +:+ rev;
     Header := []; ReqBody := None |}.

Definition document_delete (c : CouchDBClient) (docID : string) : Request :=
  {| Method := "DELETE"; URL := doc_url c docID; Header := []; ReqBody := None |}.

Definition document_put (c : CouchDBClient) (docID jsonDoc : string) : Request :=
  {| Method := "PUT"; URL := doc_url c docID;
     Header := [("Content-Type", "application/json")];
     ReqBody := Some jsonDoc |}.

Definition design_put (c : CouchDBClient) (name jsonDoc : string) : Request :=
  {| Method := "PUT"; URL := design_url c name;
     Header := [("Content-Type", "application/json")];
     ReqBody := Some jsonDoc |}.

Definition view_query (c : CouchDBClient) (name : string) : Request :=
  {| Method := "GET"; URL := design_url c name +:+ "/_view/high_rev_gen";
     Header := []; ReqBody := None |}.

(** A request reaches the HTTP client only if its URL parses. *)
Definition if_url_ok (req : Request) : list Request :=
  match url_Parse_error (URL req) with
  | None => [req]
  | Some _ => []
  end.

(** The requests a run of revision deletes puts on the wire, one call
    for each pair of a document id and a revision. *)
Definition delete_calls (c : CouchDBClient) (calls : list (string * string))
  : list Request :=
  flat_map (fun call => if_url_ok (revision_delete c call.1 call.2)) calls.

(** The outcome of one revision delete is one [DeleteAllRevisions] goes
    past: success, or an error whose text contains [not_found]. *)
Definition tolerated (r : outcome string) : Prop :=
  match r with
  | Ok _ => True
  | Err err => strings_Contains err "not_found" = true
  | Panic _ => False
  end.

Definition succeeded (r : outcome string) : Prop :=
  match r with
  | Ok _ => True
  | _ => False
  end.

(** Every call of [calls], made in order from state [s], ends in a way
    that satisfies [good]. *)
Definition each_call (good : outcome string -> Prop) (c : CouchDBClient)
    (calls : list (string * string)) (s : State) : Prop :=
  forall pre docID rev post,
    calls = pre ++ (docID, rev) :: post ->
    good (DeleteDocumentRevision c docID rev (sent s (delete_calls c pre))).1.

(** Revision deletes made one after the other until one fails, the
    common shape of the two loops of [HandleQueryResponse]. *)
Fixpoint delete_each (c : CouchDBClient) (calls : list (string * string))
  : M unit :=
  fun s =>
  match calls with
  | [] => (Ok tt, s)
  | (docID, rev) :: rest =>
      match DeleteDocumentRevision c docID rev s with
      | (Err err, s) =>
          (Err ("failed to delete conflict for document " +:+ docID
                +:+ ": " +:+ err), s)
      | (Panic msg, s) => (Panic msg, s)
      | (Ok _, s) => delete_each c rest s
      end
  end.

(** The deletes [HandleQueryResponse] has to make for a response: for
    each row, in order, the id of the row's document with each of its
    deleted-conflict revisions. *)
Definition conflict_calls (response : QueryResponse) : list (string * string) :=
  flat_map (fun row => map (fun rev => (ID (Row_Value row), rev))
                         (DeletedConflicts (Row_Value row)))
           (Rows response).
End Vocabulary.

(** ** A scripted server for the examples

    Every URL parses. A request whose URL mentions [unreachable] fails in
    the transport. A delete of revision [2-gone] or of the document
    [missing] is answered 404 with CouchDB's [not_found] error, a delete
    of revision [3-locked] and the delete of the document [pinned] are
    answered 500, as is the revision history of [nohistory]. A PUT under
    [_design] is answered 400, a PUT of [readonly] 403, any other PUT 201,
    a POST 202 and everything else 200. The codec answers with the values
    the world is built from. *)
Definition example_doc : gmap string JSON :=
  {[ "_id" := JString "doc1"; "_rev" := JString "7-abc"; "name" := JString "n" ]}.

Definition example_doc_readonly : gmap string JSON :=
  {[ "_id" := JString "readonly"; "_rev" := JString "7-abc" ]}.

Definition example_revs : list string := ["1-a"; "2-gone"; "3-b"].

Definition example_rows : QueryResponse :=
  {| TotalRows := 1; Offset := 0;
     Rows := [ {| Row_ID := "doc1"; Row_Key := "doc1";
                  Row_Value := {| ID := "doc1"; Rev := "100001-abc";
                                  DeletedConflicts := ["2-aaa"; "3-bbb"] |} |} ] |}.

(** A response whose first conflict revision the server no longer has. *)
Definition example_rows_gone : QueryResponse :=
  {| TotalRows := 1; Offset := 0;
     Rows := [ {| Row_ID := "doc1"; Row_Key := "doc1";
                  Row_Value := {| ID := "doc1"; Rev := "100001-abc";
                                  DeletedConflicts := ["2-gone"; "3-bbb"] |} |} ] |}.

Definition answer (status : Z) (body : string) : string + Response :=
  inr {| StatusCode := status; Body := body; BodyErr := None |}.

Definition example_RoundTrip (sent_before : list Request) (req : Request)
  : string + Response :=
  let verb m := String.eqb (Method req) m in
  let mentions t := strings_Contains (URL req) t in
  if mentions "unreachable" then inl "connection refused"
  else if verb "DELETE" && (mentions "rev=2-gone" || mentions "/missing")
  then answer 404 "{error:not_found,reason:missing}"
  else if verb "DELETE" && mentions "rev=3-locked"
  then answer 500 "{error:internal}"
  else if verb "DELETE" && mentions "/pinned" && negb (mentions "rev=")
  then answer 500 "{error:internal}"
  else if verb "GET" && mentions "/nohistory" && mentions "revs_info"
  then answer 500 "{error:internal}"
  else if verb "PUT" && mentions "/_design/"
  then answer 400 "{error:bad_request}"
  else if verb "PUT" && mentions "/readonly"
  then answer 403 "{error:forbidden}"
  else if verb "PUT" then answer 201 "{ok:true}"
  else if verb "POST" then answer 202 "{ok:true}"
  else answer 200 "{ok:true}".

Definition scripted_world (doc : gmap string JSON) (revs : list string)
    (rows : QueryResponse) : World :=
  {| url_Parse_error := fun _ => None;
     RoundTrip := example_RoundTrip;
     json_Marshal := fun _ => inr "{}";
     Unmarshal_doc := fun _ => inr doc;
     Unmarshal_revs_info := fun _ => inr revs;
     Unmarshal_QueryResponse := fun _ => inr rows;
     Decode_rev := fun _ => inr "1-x" |}.

Definition example_world_with (rows : QueryResponse) : World :=
  scripted_world example_doc example_revs rows.

Definition example_world : World := example_world_with example_rows.

Definition example_client : CouchDBClient :=
  NewCouchDBClient "http://10.0.0.5:5984" "db".

Definition empty_state : State := {| heap := ∅; wire := [] |}.

(** A state in which the caller holds [example_doc] at address 1, and one
    in which the map it holds has no ["_id"]. *)
Definition example_state : State :=
  {| heap := {[ 1%positive := example_doc ]}; wire := [] |}.

Definition example_state_no_id : State :=
  {| heap := {[ 1%positive := {[ "_rev" := JString "7-abc"; "name" := JString "n" ]} ]};
     wire := [] |}.

End CouchDB.

(** * Package main *)
Module Main.
Import CouchDB.

(** ** The design document installed by [main]

    The view's [map] function is JavaScript source held in a Go string. *)
Definition dquote : string := String "034"%char EmptyString.

Definition high_rev_gen_src : string :=
  "function(doc) { var revGen = parseInt(doc._rev.split(" +:+ dquote +:+ "-"
  +:+ dquote +:+ ")[0]); if(revGen > 100000) { emit(doc._id, doc); } }".

Definition designDoc : gmap string JSON :=
  {[ "views" := JObject
       {[ "high_rev_gen" := JObject {[ "map" := JString high_rev_gen_src ]} ]} ]}.

(** JavaScript's [parseInt] with no radix argument, on ASCII text: leading
    white space, an optional sign, an optional [0x] prefix, then the
    longest run of digits; [None] is NaN. The value is kept exact; the
    only use made of it is the comparison with 100000, which rounding to a
    double cannot change. *)
Definition is_js_space (c : ascii) : bool :=
  let n := Z.of_nat (nat_of_ascii c) in
  ((9 <=? n) && (n <=? 13)) || (n =? 32).

Fixpoint skip_space (s : string) : string :=
  match s with
  | String c r => if is_js_space c then skip_space r else s
  | EmptyString => EmptyString
  end.

Definition dec_digit (c : ascii) : option Z :=
  if is_digit c then Some (digit_val c) else None.

Definition hex_digit (c : ascii) : option Z :=
  let n := Z.of_nat (nat_of_ascii c) in
  if is_digit c then Some (digit_val c)
  else if (97 <=? n) && (n <=? 102) then Some (n - 87)
  else if (65 <=? n) && (n <=? 70) then Some (n - 55)
  else None.

Fixpoint leading_digits (digit : ascii -> option Z) (radix acc : Z)
    (seen : bool) (s : string) : option Z :=
  match s with
  | String c r =>
      match digit c with
      | Some d => leading_digits digit radix (acc * radix + d) true r
      | None => if seen then Some acc else None
      end
  | EmptyString => if seen then Some acc else None
  end.

Definition parseInt (s : string) : option Z :=
  let s := skip_space s in
  let '(sign, s) :=
    match s with
    | String "-" r => (-1, r)
    | String "+" r => (1, r)
    | _ => (1, s)
    end in
  match s with
  | String "0" (String "x" r) | String "0" (String "X" r) =>
      Z.mul sign <$> leading_digits hex_digit 16 0 false r
  | _ => Z.mul sign <$> leading_digits dec_digit 10 0 false s
  end.

(** [revGen > 100000]; a comparison with NaN is false. *)
Definition js_gt (x : option Z) (y : Z) : bool :=
  match x with
  | Some n => y <? n
  | None => false
  end.

(** [doc._rev.split("-")[0]] when [doc._rev] is a string. *)
Definition generation_text (rev : string) : string :=
  match split_on "-" rev with
  | f :: _ => f
  | [] => EmptyString
  end.

(** The map function of the view [high_rev_gen], applied to one document:
    the rows it emits, each a key and a value; the key is [None] when
    [doc._id] is undefined. The function throws, and [None] is the answer,
    when [doc._rev] is not a string. *)
Definition high_rev_gen_map (doc : gmap string JSON)
  : option (list (option JSON * JSON)) :=
  match doc !! "_rev" with
  | Some (JString rev) =>
      let revGen := parseInt (generation_text rev) in
      if js_gt revGen 100000
      then Some [(doc !! "_id", JObject doc)]
      else Some []
  | _ => None
  end.

(** The integer generation prefix of a document's current revision id. *)
Definition generation (doc : gmap string JSON) : option Z :=
  match doc !! "_rev" with
  | Some (JString rev) => parseInt (generation_text rev)
  | _ => None
  end.

(** The two documents at the threshold. *)
Definition doc_100001 : gmap string JSON :=
  {[ "_id" := JString "a"; "_rev" := JString "100001-abc" ]}.

Definition doc_100000 : gmap string JSON :=
  {[ "_id" := JString "b"; "_rev" := JString "100000-xyz" ]}.

(** A document is in the view when the map function emits a row for it. *)
Definition in_high_rev_gen (doc : gmap string JSON) : Prop :=
  exists row rows, high_rev_gen_map doc = Some (row :: rows).

(** The wording of the specification: the row emitted for a document
    carries a number, the generation, as its value. *)
Definition emits_generation (doc : gmap string JSON) : Prop :=
  exists key x, high_rev_gen_map doc = Some [(key, JNumber x)].

(** ** The body of the loop over the found instances

    [logger.Fatalf] ends the process: it is the [Err] outcome here. *)
Section Workflow.
Context `{World}.

Definition main_instance (couchDBPort dbName ip : string) : M unit :=
  fun s =>
  let couchdbURL := "http://" +:+ ip +:+ ":" +:+ couchDBPort in
  let client := NewCouchDBClient couchdbURL dbName in
  match ResetDocument client dbName s with
  | (Panic msg, s) => (Panic msg, s)
  | (Err err, s) => (Err ("Failed to reset document: " +:+ err), s)
  | (Ok _, s) =>
  match CheckAndDeleteDesignDocument client "rev_filter" s with
  | (Panic msg, s) => (Panic msg, s)
  | (Err err, s) =>
      (Err ("Failed to check and delete existing design document: " +:+ err), s)
  | (Ok deleteMsg, s) =>
  match CreateDesignDocument client "rev_filter" designDoc s with
  | (Panic msg, s) => (Panic msg, s)
  | (Err err, s) => (Err ("Failed to create design document: " +:+ err), s)
  | (Ok response, s) =>
  match QueryDesignDocument client "rev_filter" s with
  | (Panic msg, s) => (Panic msg, s)
  | (Err err, s) => (Err ("Failed to query design document: " +:+ err), s)
  | (Ok queryResp, s) =>
  match HandleQueryResponse client queryResp s with
  | (Panic msg, s) => (Panic msg, s)
  | (Err err, s) => (Err ("Failed to handle query response: " +:+ err), s)
  | (Ok _, s) =>
  match CompactDatabase client s with
  | (Panic msg, s) => (Panic msg, s)
  | (Err err, s) => (Err ("Failed to compact database: " +:+ err), s)
  | (Ok compactResp, s) => (Ok tt, s)
  end end end end end end.

(** [for _, ip := range foundIPs]. *)
Fixpoint main_loop (couchDBPort dbName : string) (foundIPs : list string)
  : M unit :=
  fun s =>
  match foundIPs with
  | [] => (Ok tt, s)
  | ip :: rest =>
      match main_instance couchDBPort dbName ip s with
      | (Ok _, s) => main_loop couchDBPort dbName rest s
      | r => r
      end
  end.
End Workflow.

End Main.

(** * Further vocabulary for the network package *)
Module NetworkMore.
Import Network.

(** Every element is a byte. *)
Definition bytes_ok (ip : list Z) : Prop := Forall (fun b => 0 <= b < 256) ip.

Fixpoint no_dot (s : string) : bool :=
  match s with
  | EmptyString => true
  | String c s' => negb (Ascii.eqb c ".") && no_dot s'
  end.

(** Table check: the decimal text of every byte has no dot and reads back
    as the byte. *)
Definition ubtoa_table : bool :=
  forallb (fun b => no_dot (ubtoa b)
                    && bool_decide (parse_octet (ubtoa b) = Some b))
          (seqZ 0 256).

(** The hosts of the block of address number [A] and prefix length [p], as
    numbers: everything strictly between the network address and the
    broadcast address. *)
Definition host_numbers (A p : Z) : list Z :=
  seqZ (network_of A p + 1) (2 ^ (32 - p) - 2).

Definition broadcast_of (A p : Z) : Z := network_of A p + 2 ^ (32 - p) - 1.

(** Two states of a scan of 192.168.1.1 and 192.168.1.2 in which both
    answer the probe: the first goroutine has stored its host and is done,
    the second holds the mutex and has read the slice; and the state after
    the second has stored its host. *)
Definition scan_second_store : scan_state :=
  {| to_spawn := [];
     goroutines := [("192.168.1.1", Done); ("192.168.1.2", Writing ["192.168.1.1"])];
     foundIPs := ["192.168.1.1"]; mu := true |}.

Definition scan_second_stored : scan_state :=
  {| to_spawn := [];
     goroutines := [("192.168.1.1", Done); ("192.168.1.2", Unlocking)];
     foundIPs := ["192.168.1.1"; "192.168.1.2"]; mu := true |}.

End NetworkMore.

(** * Further vocabulary for the couchdb package and for main *)
Module CouchDBMore.
Import CouchDB.

Definition compact_post (c : CouchDBClient) : Request :=
  {| Method := "POST"; URL := BaseURL c +:+ "/" +:+ DBName c +:+ "/_compact";
     Header := [("Content-Type", "application/json")]; ReqBody := Some "{}" |}.

Definition design_get (c : CouchDBClient) (name : string) : Request :=
  {| Method := "GET"; URL := design_url c name; Header := []; ReqBody := None |}.

Definition design_delete (c : CouchDBClient) (name rev : string) : Request :=
  {| Method := "DELETE"; URL := design_url c name +:+ "?rev=" +:+ rev;
     Header := []; ReqBody := None |}.

(** The URL of a request lies under the client's database: it is the base
    URL, a slash, the database name, a slash, and more text. *)
Definition in_database (c : CouchDBClient) (req : Request) : Prop :=
  has_prefix (BaseURL c +:+ "/" +:+ DBName c +:+ "/") (URL req) = true.

(** From [s] to [s'] requests were only added to the wire, each under the
    client's database. *)
Definition only_sends (c : CouchDBClient) (s s' : State) : Prop :=
  exists reqs, wire s' = wire s ++ reqs /\ Forall (in_database c) reqs.

(** A fetched body with no identifier, and a world that serves it. *)
Definition example_doc_no_id : gmap string JSON :=
  {[ "_rev" := JString "7-abc"; "name" := JString "n" ]}.

Definition example_world_no_id : World :=
  scripted_world example_doc_no_id example_revs example_rows.

(** A fetched body whose identifier is not the id that was asked for. *)
Definition example_doc_other : gmap string JSON :=
  {[ "_id" := JString "other"; "_rev" := JString "7-abc" ]}.

Definition example_world_other : World :=
  scripted_world example_doc_other example_revs example_rows.

(** A response in which no row has a conflict. *)
Definition example_rows_quiet : QueryResponse :=
  {| TotalRows := 2; Offset := 0;
     Rows := [ {| Row_ID := "a"; Row_Key := "a";
                  Row_Value := {| ID := "a"; Rev := "100001-abc";
                                  DeletedConflicts := [] |} |};
               {| Row_ID := "b"; Row_Key := "b";
                  Row_Value := {| ID := "b"; Rev := "100002-abc";
                                  DeletedConflicts := [] |} |} ] |}.

(** A client whose database name contains the text [not_found], and a
    world in which no connection can be made: every call of the HTTP
    client fails with Go's error text, which quotes the method and the
    URL of the request. *)
Definition not_found_client : CouchDBClient :=
  NewCouchDBClient "http://10.0.0.5:5984" "not_found_db".

Definition go_method (m : string) : string :=
  if String.eqb m "DELETE" then "Delete"
  else if String.eqb m "GET" then "Get"
  else if String.eqb m "PUT" then "Put"
  else if String.eqb m "POST" then "Post"
  else m.

Definition refused (sent_before : list Request) (req : Request)
  : string + Response :=
  inl (go_method (Method req) +:+ " " +:+ Main.dquote +:+ URL req +:+ Main.dquote
       +:+ ": dial tcp 10.0.0.5:5984: connect: connection refused").

Definition refusing_world : World :=
  {| url_Parse_error := fun _ => None;
     RoundTrip := refused;
     json_Marshal := fun _ => inr "{}";
     Unmarshal_doc := fun _ => inr example_doc;
     Unmarshal_revs_info := fun _ => inr example_revs;
     Unmarshal_QueryResponse := fun _ => inr example_rows;
     Decode_rev := fun _ => inr "1-x" |}.

(** A world whose server is not CouchDB: whatever is asked, it answers 404
    with the plain page of Go's [http.NotFound]. *)
Definition plain_404_world : World :=
  {| url_Parse_error := fun _ => None;
     RoundTrip := fun _ _ => answer 404 "404 page not found";
     json_Marshal := fun _ => inr "{}";
     Unmarshal_doc := fun _ => inr example_doc;
     Unmarshal_revs_info := fun _ => inr example_revs;
     Unmarshal_QueryResponse := fun _ => inr example_rows;
     Decode_rev := fun _ => inr "1-x" |}.

(** The requests of a reset that succeeds, and of the whole workflow on
    one instance: [check] stands for the requests of
    [CheckAndDeleteDesignDocument]. *)
Definition reset_requests `{World} (c : CouchDBClient) (docID : string)
    (revisions : list string) (id jsonDoc : string) : list Request :=
  [get_document c docID; get_revisions c docID]
    ++ delete_calls c (map (pair docID) revisions)
    ++ [document_delete c docID; document_put c id jsonDoc].

End CouchDBMore.

Import Network.

(** * Facts about the network package *)

Lemma list4_eq {A} (a b c d a' b' c' d' : A) :
  a = a' -> b = b' -> c = c' -> d = d' -> [a; b; c; d] = [a'; b'; c'; d'].
Proof. congruence. Qed.

(** Closed powers of two are replaced by their values, so that linear
    arithmetic sees the constants. *)
Ltac pow2_consts :=
  repeat match goal with
  | |- context [2 ^ ?k] =>
      let v := eval vm_compute in (2 ^ k) in
      lazymatch v with Zpos _ => change (2 ^ k) with v end
  | H : context [2 ^ ?k] |- _ =>
      let v := eval vm_compute in (2 ^ k) in
      lazymatch v with Zpos _ => change (2 ^ k) with v in H end
  end.

Ltac divmod_lia := Z.div_mod_to_equations; lia.

(** ** Addresses as numbers *)

Lemma addr_of_Z_length n : length (addr_of_Z n) = 4%nat.
Proof. reflexivity. Qed.

Lemma Z_of_addr_of_Z n : 0 <= n < 2 ^ 32 -> Z_of_addr (addr_of_Z n) = n.
Proof.
  intros Hn. unfold Z_of_addr, addr_of_Z. cbn [fold_left]. pow2_consts. divmod_lia.
Qed.

Lemma addr_of_Z_of_addr a b c d :
  0 <= a <= 255 -> 0 <= b <= 255 -> 0 <= c <= 255 -> 0 <= d <= 255 ->
  addr_of_Z (Z_of_addr [a; b; c; d]) = [a; b; c; d]
  /\ 0 <= Z_of_addr [a; b; c; d] < 2 ^ 32.
Proof.
  intros Ha Hb Hc Hd. unfold Z_of_addr, addr_of_Z. cbn [fold_left]. pow2_consts.
  split; [apply list4_eq|]; divmod_lia.
Qed.

Lemma addr_of_Z_inj n m :
  0 <= n < 2 ^ 32 -> 0 <= m < 2 ^ 32 -> addr_of_Z n = addr_of_Z m -> n = m.
Proof.
  intros Hn Hm E. rewrite <- (Z_of_addr_of_Z n), <- (Z_of_addr_of_Z m) by done.
  by rewrite E.
Qed.

(** ** inc is the successor modulo 2^32 *)

Lemma inc_addr_of_Z n :
  0 <= n < 2 ^ 32 -> inc (addr_of_Z n) = addr_of_Z ((n + 1) mod 2 ^ 32).
Proof.
  intros Hn. unfold inc, addr_of_Z. pow2_consts. cbn [rev app inc_loop].
  repeat (case_match; cbn [rev app inc_loop]);
    repeat match goal with
      | H : (_ <? _) = _ |- _ => first [apply Z.ltb_lt in H | apply Z.ltb_ge in H]
      end;
    apply list4_eq; divmod_lia.
Qed.

Lemma inc_length ip : length (inc ip) = length ip.
Proof.
  unfold inc. rewrite length_rev, <- (length_rev ip).
  induction (rev ip) as [|b r IH]; [done|]. cbn [inc_loop].
  case_match; cbn [length]; by rewrite ?IH.
Qed.

(** ** Masks *)

Lemma land_mask_table_ok : land_mask_table = true.
Proof. vm_compute. reflexivity. Qed.

Lemma land_mask_byte x i :
  0 <= x < 256 -> 0 <= i <= 8 -> Z.land x (256 - 2 ^ i) = x / 2 ^ i * 2 ^ i.
Proof.
  intros Hx Hi. pose proof land_mask_table_ok as H. unfold land_mask_table in H.
  rewrite forallb_forall in H. specialize (H i).
  rewrite forallb_forall in H.
  apply Z.eqb_eq, H; apply list_elem_of_In, elem_of_seqZ; lia.
Qed.

Lemma land_mask_consts x :
  0 <= x < 256 ->
  Z.land x 0 = 0 /\ Z.land x 128 = x / 128 * 128 /\ Z.land x 192 = x / 64 * 64 /\
  Z.land x 224 = x / 32 * 32 /\ Z.land x 240 = x / 16 * 16 /\
  Z.land x 248 = x / 8 * 8 /\ Z.land x 252 = x / 4 * 4 /\
  Z.land x 254 = x / 2 * 2 /\ Z.land x 255 = x.
Proof.
  intros Hx.
  pose proof (land_mask_byte x 7 Hx ltac:(lia)) as H7.
  pose proof (land_mask_byte x 6 Hx ltac:(lia)) as H6.
  pose proof (land_mask_byte x 5 Hx ltac:(lia)) as H5.
  pose proof (land_mask_byte x 4 Hx ltac:(lia)) as H4.
  pose proof (land_mask_byte x 3 Hx ltac:(lia)) as H3.
  pose proof (land_mask_byte x 2 Hx ltac:(lia)) as H2.
  pose proof (land_mask_byte x 1 Hx ltac:(lia)) as H1.
  pose proof (land_mask_byte x 0 Hx ltac:(lia)) as H0.
  change (256 - 2 ^ 7) with 128 in H7. change (256 - 2 ^ 6) with 192 in H6.
  change (256 - 2 ^ 5) with 224 in H5. change (256 - 2 ^ 4) with 240 in H4.
  change (256 - 2 ^ 3) with 248 in H3. change (256 - 2 ^ 2) with 252 in H2.
  change (256 - 2 ^ 1) with 254 in H1. change (256 - 2 ^ 0) with 255 in H0.
  pow2_consts. rewrite Z.div_1_r, Z.mul_1_r in H0.
  split; [apply Z.land_0_r|]. by repeat split.
Qed.

Lemma CIDRMask_loop_length l n : length (CIDRMask_loop l n) = l.
Proof.
  revert n. induction l as [|l IH]; intros n; [done|].
  cbn [CIDRMask_loop]. case_match; cbn [length]; by rewrite IH.
Qed.

Lemma CIDRMask_length p : 0 <= p <= 32 -> length (CIDRMask p 32) = 4%nat.
Proof.
  intros Hp. unfold CIDRMask. cbn [Z.eqb negb orb].
  replace (p <? 0) with false by (symmetry; apply Z.ltb_ge; lia).
  replace (32 <? p) with false by (symmetry; apply Z.ltb_ge; lia).
  cbn [orb]. apply CIDRMask_loop_length.
Qed.

(** Masking the bytes of an address clears the low [32 - p] bits of the
    number. *)
Lemma mask_addr_of_Z n p :
  0 <= p <= 32 ->
  zip_with Z.land (addr_of_Z n) (CIDRMask p 32)
  = addr_of_Z (n / 2 ^ (32 - p) * 2 ^ (32 - p)).
Proof.
  intros Hp.
  assert (Hc : In p (seqZ 0 33)) by (apply list_elem_of_In, elem_of_seqZ; lia).
  unfold addr_of_Z. pow2_consts.
  destruct (land_mask_consts (n / 16777216 mod 256))
    as (A0&A1&A2&A3&A4&A5&A6&A7&A8); [by apply Z.mod_pos_bound|].
  destruct (land_mask_consts (n / 65536 mod 256))
    as (B0&B1&B2&B3&B4&B5&B6&B7&B8); [by apply Z.mod_pos_bound|].
  destruct (land_mask_consts (n / 256 mod 256))
    as (C0&C1&C2&C3&C4&C5&C6&C7&C8); [by apply Z.mod_pos_bound|].
  destruct (land_mask_consts (n mod 256))
    as (D0&D1&D2&D3&D4&D5&D6&D7&D8); [by apply Z.mod_pos_bound|].
  vm_compute in Hc.
  repeat (destruct Hc as [<- | Hc]; [| try contradiction]).
  all: match goal with |- context [CIDRMask ?p 32] =>
    let m := eval vm_compute in (CIDRMask p 32) in change (CIDRMask p 32) with m end.
  all: cbn [zip_with]; pow2_consts.
  all: rewrite ?A0, ?A1, ?A2, ?A3, ?A4, ?A5, ?A6, ?A7, ?A8, ?B0, ?B1, ?B2, ?B3,
         ?B4, ?B5, ?B6, ?B7, ?B8, ?C0, ?C1, ?C2, ?C3, ?C4, ?C5, ?C6, ?C7, ?C8,
         ?D0, ?D1, ?D2, ?D3, ?D4, ?D5, ?D6, ?D7, ?D8.
  all: clear; apply list4_eq; divmod_lia.
Qed.

(** ** Parsing *)

Lemma digits_val_nonneg s : forall acc v,
  0 <= acc -> digits_val acc s = Some v -> 0 <= v.
Proof.
  induction s as [|a s IH]; intros acc v Hacc; cbn [digits_val].
  - intros [= <-]. done.
  - destruct (is_digit a) eqn:Hd; [|done]. apply IH.
    unfold is_digit in Hd. unfold digit_val. lia.
Qed.

Lemma parse_octet_range f v : parse_octet f = Some v -> 0 <= v <= 255.
Proof.
  unfold parse_octet. intros Hf.
  assert (exists w, digits_val 0 f = Some w /\ (w <=? 255) = true /\ v = w)
    as (w & Hw & Hle & ->).
  { destruct f as [|a f]; [done|].
    destruct (digits_val 0 (String a f)) as [w|] eqn:E;
      [|repeat case_match; done].
    destruct (w <=? 255) eqn:Hle; [|repeat case_match; done].
    exists w. repeat case_match; naive_solver. }
  split; [by eapply digits_val_nonneg|lia].
Qed.

Lemma parseIPv4_inv s a4 :
  parseIPv4 s = Some a4 ->
  exists a b c d, a4 = [a; b; c; d] /\
    0 <= a <= 255 /\ 0 <= b <= 255 /\ 0 <= c <= 255 /\ 0 <= d <= 255.
Proof.
  unfold parseIPv4.
  destruct (split_on "." s) as [|f0 [|f1 [|f2 [|f3 [|]]]]]; try done.
  destruct (parse_octet f0) as [a|] eqn:Ea; [|done].
  destruct (parse_octet f1) as [b|] eqn:Eb; [|done].
  destruct (parse_octet f2) as [c|] eqn:Ec; [|done].
  destruct (parse_octet f3) as [d|] eqn:Ed; [|done].
  intros [= <-]. exists a, b, c, d.
  eauto 10 using parse_octet_range.
Qed.

Lemma parse_prefix_len_range bits m n :
  parse_prefix_len bits m = Some n -> 0 <= n <= bits.
Proof.
  unfold parse_prefix_len. intros Hm.
  repeat case_match; try done; simplify_eq;
    (split; [by eapply digits_val_nonneg|lia]).
Qed.

Lemma To4_len4 ip : length ip = 4%nat -> To4 ip = ip.
Proof. intros Hl. unfold To4, IPv4len. by rewrite bool_decide_eq_true_2. Qed.

Lemma Mask_16_4 a b c d m :
  length m = 4%nat ->
  Mask (v4InV6Prefix ++ [a; b; c; d]) m = zip_with Z.land [a; b; c; d] m.
Proof.
  intros Hm. unfold Mask, IPv4len, IPv6len, bytes_eqb.
  change (length (v4InV6Prefix ++ [a; b; c; d])) with 16%nat.
  change (take 12 (v4InV6Prefix ++ [a; b; c; d])) with v4InV6Prefix.
  change (drop 12 (v4InV6Prefix ++ [a; b; c; d])) with [a; b; c; d].
  rewrite Hm.
  rewrite (bool_decide_eq_false_2 (4 = 16)%nat) by done. cbn [andb]. rewrite Hm.
  rewrite (bool_decide_eq_true_2 (4 = 4)%nat) by done.
  rewrite (bool_decide_eq_true_2 (16 = 16)%nat) by done.
  rewrite (bool_decide_eq_true_2 (v4InV6Prefix = v4InV6Prefix)) by done.
  cbn [andb length].
  by rewrite bool_decide_eq_true_2.
Qed.

Lemma cidr_fields_range s A p :
  cidr_fields s = Some (A, p) -> 0 <= A < 2 ^ 32 /\ 0 <= p <= 32.
Proof.
  unfold cidr_fields. intros Hs. repeat case_match; try done. simplify_eq.
  match goal with H : parseIPv4 _ = Some _ |- _ =>
    apply parseIPv4_inv in H as (a & b & c & d & -> & ? & ? & ? & ?) end.
  split; [by apply addr_of_Z_of_addr|by eapply (parse_prefix_len_range 32)].
Qed.

Lemma cidr_fields_ParseCIDR `{IPv6Text} s A p :
  cidr_fields s = Some (A, p) ->
  ParseCIDR s = inr (v4InV6Prefix ++ addr_of_Z A, block_of A p).
Proof.
  intros Hs. pose proof (cidr_fields_range _ _ _ Hs) as [HA Hp].
  revert Hs. unfold cidr_fields, ParseCIDR.
  destruct (cut "/" s) as [[addr mask]|]; [|done].
  destruct (parseIPv4 addr) as [a4|] eqn:Ha; [|done].
  destruct (parse_prefix_len 32 mask) as [n|] eqn:Hn; [|done].
  intros [= <- <-].
  apply parseIPv4_inv in Ha as (a & b & c & d & -> & ? & ? & ? & ?).
  destruct (addr_of_Z_of_addr a b c d) as [E _]; [done..|].
  rewrite E, Mask_16_4 by by apply CIDRMask_length.
  by rewrite <- E at 2; rewrite mask_addr_of_Z.
Qed.

(** Text that [ParseCIDR] accepts and that is not IPv4 text is IPv6
    text: an address of sixteen bytes with a prefix length of at most 128. *)
Lemma ParseCIDR_not_IPv4 `{IPv6Text} s ip ipnet :
  ParseCIDR s = inr (ip, ipnet) -> cidr_fields s = None ->
  exists addr mask n,
    cut "/" s = Some (addr, mask) /\ parseIPv4 addr = None
    /\ parseIPv6 addr = Some ip /\ length ip = 16%nat
    /\ parse_prefix_len 128 mask = Some n
    /\ ipnet = {| IPNet_IP := Mask ip (CIDRMask n 128); IPNet_Mask := CIDRMask n 128 |}.
Proof.
  unfold ParseCIDR, cidr_fields.
  destruct (cut "/" s) as [[addr mask]|]; [|done].
  destruct (parseIPv4 addr) as [a4|] eqn:E4.
  { by destruct (parse_prefix_len 32 mask). }
  destruct (parseIPv6 addr) as [a16|] eqn:E6; [|done].
  destruct (parse_prefix_len 128 mask) as [n|] eqn:En; [|done].
  intros [= <- <-] _. exists addr, mask, n.
  destruct (parseIPv6_bytes _ _ E6) as [Hlen _].
  done.
Qed.

(** ** Contains on a block *)

Lemma network_of_range A p :
  0 <= A < 2 ^ 32 -> 0 <= p <= 32 ->
  0 <= network_of A p <= A /\ network_of A p mod 2 ^ (32 - p) = 0.
Proof.
  intros HA Hp. unfold network_of.
  assert (0 < 2 ^ (32 - p)) by (apply Z.pow_pos_nonneg; lia).
  split; [|by apply Z_mod_mult].
  pose proof (Z.mul_div_le A (2 ^ (32 - p)) ltac:(lia)).
  pose proof (Z.div_pos A (2 ^ (32 - p)) ltac:(lia) ltac:(lia)). nia.
Qed.

Lemma Contains_block A p x :
  0 <= A < 2 ^ 32 -> 0 <= p <= 32 -> 0 <= x < 2 ^ 32 ->
  Contains (block_of A p) (addr_of_Z x)
  = bool_decide (network_of x p = network_of A p).
Proof.
  intros HA Hp Hx. unfold Contains, networkNumberAndMask, block_of.
  cbn [IPNet_IP IPNet_Mask]. rewrite !To4_len4 by done.
  rewrite (bool_decide_eq_false_2 (addr_of_Z _ = [])) by done. cbn [andb].
  unfold IPv4len. rewrite CIDRMask_length by done.
  rewrite !(bool_decide_eq_true_2 (4 = 4)%nat) by done.
  rewrite (bool_decide_eq_false_2 (addr_of_Z x = [])) by done.
  rewrite !mask_addr_of_Z by done.
  fold (network_of (network_of A p) p). fold (network_of x p).
  assert (network_of (network_of A p) p = network_of A p) as ->.
  { unfold network_of. rewrite Z.div_mul; [done|].
    apply Z.pow_nonzero; lia. }
  destruct (network_of_range A p HA Hp) as [? _].
  destruct (network_of_range x p Hx Hp) as [? _].
  apply bool_decide_ext. split; [|by intros ->].
  intros E. symmetry. apply addr_of_Z_inj; [lia..|done].
Qed.

(** ** The loop of Hosts on a block *)

Section Block.
Variables A p : Z.
Hypothesis HA : 0 <= A < 2 ^ 32.
Hypothesis Hp : 0 <= p <= 32.

Local Abbreviation K := (2 ^ (32 - p)).
Local Abbreviation net := (network_of A p).

Lemma block_size_pos : 0 < K.
Proof using All. apply Z.pow_pos_nonneg; lia. Qed.

Lemma block_size_divides : 2 ^ 32 = K * 2 ^ p.
Proof using All.
  rewrite <- Z.pow_add_r by lia. f_equal. lia.
Qed.

Lemma block_fits : 0 <= net /\ net + K <= 2 ^ 32 /\ net = A / K * K.
Proof using All.
  pose proof block_size_pos as HK. pose proof block_size_divides as HD.
  assert (0 < 2 ^ p) by (apply Z.pow_pos_nonneg; lia).
  unfold network_of.
  pose proof (Z.mul_div_le A K HK).
  pose proof (Z.div_pos A K ltac:(lia) HK).
  assert (A / K < 2 ^ p).
  { apply Z.div_lt_upper_bound; lia. }
  repeat split; nia.
Qed.

Lemma network_of_in_block j : 0 <= j < K -> network_of (net + j) p = net.
Proof using All.
  intros Hj. pose proof block_size_pos as HK. unfold network_of.
  rewrite Z.div_add_l by lia. rewrite (Z.div_small j K) by lia.
  by rewrite Z.add_0_r.
Qed.

Lemma network_of_past_block :
  1 <= p -> network_of ((net + K) mod 2 ^ 32) p <> net.
Proof using All.
  intros Hp1. destruct block_fits as (Hn & Hfit & E).
  pose proof block_size_pos as HK.
  destruct (decide (net + K = 2 ^ 32)) as [Hw|Hw].
  - rewrite Hw, Z.mod_same by done. unfold network_of.
    rewrite Z.div_0_l by lia. cbn [Z.mul].
    assert (K <= 2 ^ 31); [|lia].
    apply Z.pow_le_mono_r; lia.
  - rewrite Z.mod_small by lia. unfold network_of.
    replace (A / K * K + K) with ((A / K + 1) * K) by lia.
    rewrite Z.div_mul by lia. lia.
Qed.

Context `{IPv6Text}.

Lemma Hosts_loop_steps (r : nat) : forall j fuel acc,
  1 <= p -> j = K - Z.of_nat r -> 0 <= j -> (r < fuel)%nat ->
  Hosts_loop fuel (block_of A p) (addr_of_Z ((net + j) mod 2 ^ 32)) acc
  = Some (acc ++ (IP_String ∘ addr_of_Z <$> seqZ (net + j) (K - j))).
Proof using All.
  destruct block_fits as (Hn & Hfit & _). pose proof block_size_pos as HK.
  induction r as [|r IH]; intros j fuel acc Hp1 Hj Hj0 Hfuel;
    (destruct fuel as [|fuel]; [lia|]); cbn [Hosts_loop].
  - assert (j = K) as -> by lia.
    rewrite Contains_block by (try done; apply Z.mod_pos_bound; lia).
    rewrite bool_decide_eq_false_2 by by apply network_of_past_block.
    by rewrite seqZ_nil, app_nil_r by lia.
  - rewrite (Z.mod_small (net + j)) by lia.
    rewrite Contains_block by (try done; lia).
    rewrite bool_decide_eq_true_2 by (apply network_of_in_block; lia).
    rewrite inc_addr_of_Z by lia.
    replace (net + j + 1) with (net + (j + 1)) by lia.
    rewrite IH by (try done; lia).
    rewrite (seqZ_cons (net + j)) by lia. rewrite fmap_cons, <- app_assoc.
    cbn [app]. do 4 f_equal. apply f_equal2; lia.
Qed.

Lemma Hosts_loop_block fuel :
  1 <= p -> (Z.to_nat K < fuel)%nat ->
  Hosts_loop fuel (block_of A p)
    (Mask (v4InV6Prefix ++ addr_of_Z A) (CIDRMask p 32)) []
  = Some (IP_String ∘ addr_of_Z <$> seqZ net K).
Proof using All.
  intros Hp1 Hfuel. pose proof block_size_pos as HK.
  destruct block_fits as (Hn & Hfit & _).
  unfold addr_of_Z at 1. rewrite Mask_16_4 by by apply CIDRMask_length.
  fold (addr_of_Z A). rewrite mask_addr_of_Z by done. fold (network_of A p).
  pose proof (Hosts_loop_steps (Z.to_nat K) 0 fuel [] Hp1) as Hsteps.
  rewrite Z.add_0_r, Z.sub_0_r, Z.mod_small in Hsteps by lia.
  apply Hsteps; lia.
Qed.

(** With prefix length 0 the mask is zero, every address is in the
    block, and the successor of 255.255.255.255 is 0.0.0.0: the loop
    condition never fails. *)
Lemma Hosts_loop_prefix0 fuel : forall x acc,
  p = 0 -> 0 <= x < 2 ^ 32 ->
  Hosts_loop fuel (block_of A p) (addr_of_Z x) acc = None.
Proof using All.
  induction fuel as [|fuel IH]; intros x acc Hp0 Hx; [done|].
  cbn [Hosts_loop]. rewrite Contains_block by done.
  assert (forall y, 0 <= y < 2 ^ 32 -> network_of y p = 0) as Hz.
  { intros y Hy. unfold network_of. rewrite Hp0.
    change (2 ^ (32 - 0)) with (2 ^ 32). by rewrite Z.div_small. }
  rewrite bool_decide_eq_true_2 by by rewrite !Hz.
  rewrite inc_addr_of_Z by done. apply IH; [done|].
  apply Z.mod_pos_bound. lia.
Qed.
End Block.

Lemma Hosts_fuel_mono_loop `{IPv6Text} fuel : forall fuel' ipnet ip acc ips,
  (fuel <= fuel')%nat ->
  Hosts_loop fuel ipnet ip acc = Some ips ->
  Hosts_loop fuel' ipnet ip acc = Some ips.
Proof.
  induction fuel as [|fuel IH]; intros fuel' ipnet ip acc ips Hle; [done|].
  destruct fuel' as [|fuel']; [lia|]. cbn [Hosts_loop].
  case_match; [|done]. apply IH. lia.
Qed.

(** More fuel never changes an answer. *)
Lemma Hosts_fuel_mono `{IPv6Text} fuel fuel' cidr r :
  (fuel <= fuel')%nat -> Hosts fuel cidr = Some r -> Hosts fuel' cidr = Some r.
Proof.
  intros Hle. unfold Hosts. destruct (ParseCIDR cidr) as [e|[ip ipnet]]; [done|].
  destruct (Hosts_loop fuel _ _ _) as [ips|] eqn:E; [|done].
  by rewrite (Hosts_fuel_mono_loop _ _ _ _ _ _ Hle E).
Qed.

Lemma go_slice_middle {A} (f : Z -> A) m n :
  2 <= n ->
  go_slice (f <$> seqZ m n) 1 (Z.of_nat (length (f <$> seqZ m n)) - 1)
  = Ok (f <$> seqZ (m + 1) (n - 2)).
Proof.
  intros Hn. unfold go_slice. rewrite length_fmap, length_seqZ, Z2Nat.id by lia.
  replace ((0 <=? 1) && (1 <=? n - 1) && (n - 1 <=? n)) with true
    by (symmetry; rewrite !andb_true_iff; lia).
  f_equal. rewrite (seqZ_cons m) by lia. rewrite fmap_cons.
  change (Z.to_nat 1) with 1%nat. cbn [drop].
  replace (Z.pred n) with ((n - 2) + 1) by lia.
  rewrite seqZ_app, fmap_app by lia.
  replace (Z.succ m) with (m + 1) by lia.
  apply take_app_length'. rewrite length_fmap, length_seqZ. lia.
Qed.

(** What [Hosts] returns on a block with prefix length from 1 to 30: the
    addresses strictly between the network address and the broadcast
    address, in ascending order. *)
Theorem Hosts_block `{IPv6Text} cidr A p fuel :
  cidr_fields cidr = Some (A, p) -> 1 <= p <= 30 ->
  (Z.to_nat (2 ^ (32 - p)) < fuel)%nat ->
  Hosts fuel cidr
  = Some (Ok (IP_String ∘ addr_of_Z
                <$> seqZ (network_of A p + 1) (2 ^ (32 - p) - 2))).
Proof.
  intros Hc Hp Hfuel. destruct (cidr_fields_range _ _ _ Hc) as [HA Hp'].
  unfold Hosts. rewrite (cidr_fields_ParseCIDR _ _ _ Hc). cbn [IPNet_Mask block_of].
  fold (block_of A p). rewrite Hosts_loop_block by (try done; lia).
  f_equal. apply go_slice_middle.
  assert (2 ^ 2 <= 2 ^ (32 - p)); [apply Z.pow_le_mono_r|]; lia.
Qed.

Lemma Hosts_block_length `{IPv6Text} cidr A p fuel :
  cidr_fields cidr = Some (A, p) -> 1 <= p <= 30 ->
  (Z.to_nat (2 ^ (32 - p)) < fuel)%nat ->
  exists ips, Hosts fuel cidr = Some (Ok ips)
              /\ Z.of_nat (length ips) = 2 ^ (32 - p) - 2.
Proof.
  intros Hc Hp Hfuel. eexists. split; [by apply Hosts_block|].
  rewrite length_fmap, length_seqZ, Z2Nat.id; [done|].
  assert (2 ^ 2 <= 2 ^ (32 - p)); [apply Z.pow_le_mono_r|]; lia.
Qed.

Lemma Hosts_prefix31 `{IPv6Text} cidr A fuel :
  cidr_fields cidr = Some (A, 31) -> (2 < fuel)%nat ->
  Hosts fuel cidr = Some (Ok []).
Proof.
  intros Hc Hfuel. destruct (cidr_fields_range _ _ _ Hc) as [HA Hp'].
  unfold Hosts. rewrite (cidr_fields_ParseCIDR _ _ _ Hc). cbn [IPNet_Mask block_of].
  fold (block_of A 31). rewrite Hosts_loop_block by (try done; lia).
  reflexivity.
Qed.

Lemma Hosts_prefix32 `{IPv6Text} cidr A fuel :
  cidr_fields cidr = Some (A, 32) -> (1 < fuel)%nat ->
  Hosts fuel cidr = Some (Panic "runtime error: slice bounds out of range").
Proof.
  intros Hc Hfuel. destruct (cidr_fields_range _ _ _ Hc) as [HA Hp'].
  unfold Hosts. rewrite (cidr_fields_ParseCIDR _ _ _ Hc). cbn [IPNet_Mask block_of].
  fold (block_of A 32). rewrite Hosts_loop_block by (try done; lia).
  done.
Qed.

Lemma Hosts_prefix0 `{IPv6Text} cidr A fuel :
  cidr_fields cidr = Some (A, 0) -> Hosts fuel cidr = None.
Proof.
  intros Hc. destruct (cidr_fields_range _ _ _ Hc) as [HA Hp'].
  unfold Hosts. rewrite (cidr_fields_ParseCIDR _ _ _ Hc). cbn [IPNet_Mask block_of].
  fold (block_of A 0).
  unfold addr_of_Z at 1. rewrite Mask_16_4 by by apply CIDRMask_length.
  fold (addr_of_Z A). rewrite mask_addr_of_Z by done.
  rewrite Hosts_loop_prefix0; try done.
  fold (network_of A 0). pose proof (network_of_range A 0 HA Hp'). lia.
Qed.

(** ** The concurrent scan *)

Section ScanFacts.
Variable isCouchDBRunning : string -> string -> bool.
Variable couchDBPort : string.

Local Abbreviation step := (scan_step isCouchDBRunning couchDBPort).
Local Abbreviation inv := (scan_inv isCouchDBRunning couchDBPort).
Local Abbreviation owed := (pending isCouchDBRunning couchDBPort).
Local Abbreviation up := (reachable_hosts isCouchDBRunning couchDBPort).

Lemma holders_split l1 g l2 :
  holders (l1 ++ g :: l2)
  = (holders l1 + (if holds_mu g then 1 else 0) + holders l2)%nat.
Proof.
  unfold holders. rewrite List.filter_app, length_app. cbn [List.filter].
  destruct (holds_mu g); cbn [length]; lia.
Qed.

Lemma holders_none l g : holders l = 0%nat -> g ∈ l -> holds_mu g = false.
Proof.
  unfold holders. intros Hl Hg. destruct (holds_mu g) eqn:E; [|done].
  assert (In g (List.filter holds_mu l)) as Hin.
  { apply List.filter_In. split; [by apply list_elem_of_In|done]. }
  destruct (List.filter holds_mu l); [done|discriminate].
Qed.

(** While one goroutine is in the critical section no other goroutine
    is about to store. *)
Lemma sole_holder l1 g l2 (m : bool) ip seen :
  holders (l1 ++ g :: l2) = (if m then 1 else 0)%nat -> holds_mu g = true ->
  m = true /\ holders l1 = 0%nat /\ holders l2 = 0%nat
  /\ ((ip, Writing seen) ∈ l1 ++ l2 -> False).
Proof.
  rewrite holders_split. intros Hc Hg. rewrite Hg in Hc.
  destruct m; [|lia]. repeat split; [lia..|].
  intros [Hin|Hin]%elem_of_app; eapply holders_none in Hin; try done; lia.
Qed.

Lemma up_cons ip rest : up (ip :: rest) = owed (ip, Spawned) ++ up rest.
Proof.
  unfold reachable_hosts, pending. cbn [List.filter fst snd].
  by destruct (isCouchDBRunning ip couchDBPort).
Qed.

Lemma scan_inv_init ips : inv ips (scan_init ips).
Proof.
  unfold scan_inv, scan_init. cbn. repeat split; [done|].
  intros ip seen Hin. by apply elem_of_nil in Hin.
Qed.

Lemma scan_inv_step ips st st' : inv ips st -> step st st' -> inv ips st'.
Proof.
  intros (Hperm & Hmu & Hseen) Hstep. unfold scan_inv.
  destruct Hstep; cbn [to_spawn goroutines foundIPs mu] in *.
  - (* spawn *)
    repeat split.
    + rewrite flat_map_app. cbn [flat_map]. rewrite app_nil_r, <- app_assoc.
      by rewrite <- up_cons.
    + unfold holders in *. rewrite List.filter_app, length_app. cbn. lia.
    + intros ip' seen [Hin|Hin]%elem_of_app; [by eapply Hseen|].
      apply list_elem_of_singleton in Hin. done.
  - (* probe *)
    repeat split.
    + rewrite flat_map_app in *. cbn [flat_map] in *.
      replace (owed (ip, if isCouchDBRunning ip couchDBPort then WantLock else Done))
        with (owed (ip, Spawned)); [done|].
      unfold pending. cbn [fst snd]. by destruct (isCouchDBRunning ip couchDBPort).
    + rewrite holders_split in *. unfold holds_mu in *. cbn [snd] in *.
      by destruct (isCouchDBRunning ip couchDBPort).
    + intros ip' seen [Hin|Hin]%elem_of_app; [apply (Hseen ip'); set_solver|].
      apply elem_of_cons in Hin as [Hin|Hin]; [|apply (Hseen ip'); set_solver].
      destruct (isCouchDBRunning ip couchDBPort); done.
  - (* lock *)
    repeat split.
    + by rewrite flat_map_app in *.
    + rewrite holders_split in *. cbn in *. lia.
    + intros ip' seen [Hin|Hin]%elem_of_app; [apply (Hseen ip'); set_solver|].
      apply elem_of_cons in Hin as [Hin|Hin]; [done|apply (Hseen ip'); set_solver].
  - (* read *)
    repeat split.
    + by rewrite flat_map_app in *.
    + by rewrite holders_split in *.
    + intros ip' seen [Hin|Hin]%elem_of_app; [apply (Hseen ip'); set_solver|].
      apply elem_of_cons in Hin as [Hin|Hin]; [by simplify_eq|].
      apply (Hseen ip'); set_solver.
  - (* write *)
    assert (seen = found) as -> by (apply (Hseen ip); set_solver).
    repeat split.
    + rewrite flat_map_app in *. cbn [flat_map] in *.
      change (owed (ip, Writing found)) with [ip] in Hperm.
      change (owed (ip, Unlocking)) with (@nil string).
      rewrite <- Hperm. cbn [app]. rewrite <- !app_assoc. cbn [app].
      apply Permutation_app_head.
      rewrite <- (Permutation_middle (flat_map owed l1)). done.
    + by rewrite holders_split in *.
    + intros ip' seen Hin.
      destruct (sole_holder l1 (ip, Writing found) l2 m ip' seen Hmu eq_refl)
        as (_ & _ & _ & Hno).
      apply elem_of_app in Hin as [Hin|Hin]; [destruct Hno; set_solver|].
      apply elem_of_cons in Hin as [Hin|Hin]; [done|destruct Hno; set_solver].
  - (* unlock *)
    repeat split.
    + by rewrite flat_map_app in *.
    + destruct (sole_holder l1 (ip, Unlocking) l2 m ip [] Hmu eq_refl)
        as (_ & H1 & H2 & _).
      rewrite holders_split. cbn. lia.
    + intros ip' seen [Hin|Hin]%elem_of_app; [apply (Hseen ip'); set_solver|].
      apply elem_of_cons in Hin as [Hin|Hin]; [done|apply (Hseen ip'); set_solver].
Qed.

Lemma scan_inv_rtc ips st :
  rtc step (scan_init ips) st -> inv ips st.
Proof.
  revert st. apply (rtc_ind_r (R := step) (inv ips)); [apply scan_inv_init|].
  intros y z _ Hyz IH. by eapply scan_inv_step.
Qed.

Lemma all_done_owe_nothing gs :
  Forall (fun g => g.2 = Done) gs -> flat_map owed gs = [].
Proof.
  induction 1 as [|[ip q] gs Hq _ IH]; [done|].
  cbn [flat_map]. rewrite IH. cbn in Hq. subst q. reflexivity.
Qed.

(** At the barrier nothing is pending, so the slice holds exactly the
    reachable hosts. *)
Lemma scan_inv_finished ips st :
  inv ips st -> scan_finished st -> foundIPs st ≡ₚ up ips.
Proof.
  intros (Hperm & _ & _) (Hspawn & Hdone). rewrite <- Hperm, Hspawn.
  rewrite all_done_owe_nothing by done. cbn. by rewrite app_nil_r.
Qed.

(** Every step uses up rank: all schedules are finite. *)
Lemma scan_step_rank st st' :
  step st st' -> (scan_rank st' < scan_rank st)%nat.
Proof.
  intros Hstep. unfold scan_rank.
  destruct Hstep; cbn [to_spawn goroutines length];
    rewrite !map_app, !list_sum_app; simpl;
    try destruct (isCouchDBRunning ip couchDBPort); simpl; lia.
Qed.

Lemma not_done_split (gs : list (string * pc)) :
  Forall (fun g => g.2 = Done) gs
  \/ exists l1 ip q l2, gs = l1 ++ (ip, q) :: l2 /\ q <> Done.
Proof.
  induction gs as [|[ip q] gs [IH|(l1 & ip' & q' & l2 & -> & Hq)]].
  - by left.
  - assert (q = Done \/ q <> Done) as [->|Hq]
      by (destruct q; (by left) || (by right)).
    + left. by constructor.
    + right. by exists [], ip, q, gs.
  - right. by exists ((ip, q) :: l1), ip', q', l2.
Qed.

Lemma holder_split gs :
  holders gs = 0%nat
  \/ exists l1 g l2, gs = l1 ++ g :: l2 /\ holds_mu g = true.
Proof.
  induction gs as [|g gs [IH|(l1 & g' & l2 & -> & Hg)]].
  - by left.
  - destruct (holds_mu g) eqn:E.
    + right. by exists [], g, gs.
    + left. unfold holders in *. cbn [List.filter]. by rewrite E.
  - right. by exists (g :: l1), g', l2.
Qed.

(** No deadlock: before the barrier some goroutine, or the spawning
    loop, can always move. *)
Lemma scan_progress ips st :
  inv ips st -> scan_finished st \/ exists st', step st st'.
Proof.
  intros (_ & Hmu & _). destruct st as [spawn gs found m].
  cbn [to_spawn goroutines foundIPs mu] in *.
  destruct spawn as [|ip rest]; [|right; eexists; apply step_spawn].
  destruct (holder_split gs) as [Hnone|(l1 & [ip q] & l2 & -> & Hg)].
  - destruct (not_done_split gs) as [Hdone|(l1 & ip & q & l2 & -> & Hq)];
      [by left|right].
    rewrite Hnone in Hmu. destruct m; [done|].
    rewrite holders_split in Hnone.
    destruct q; try done; try (cbn in Hnone; lia).
    + eexists; apply step_probe.
    + eexists; apply step_lock.
  - right. destruct q; try done.
    + eexists; apply step_read.
    + eexists; apply step_write.
    + eexists; apply step_unlock.
Qed.

(** From any state of a scan some schedule reaches the barrier. *)
Lemma scan_terminates ips (n : nat) : forall st,
  (scan_rank st < n)%nat -> inv ips st ->
  exists st', rtc step st st' /\ scan_finished st'.
Proof.
  induction n as [|n IH]; intros st Hn Hinv; [lia|].
  destruct (scan_progress ips st Hinv) as [Hfin|[st1 Hstep]].
  - by exists st.
  - destruct (IH st1) as (st' & Hrun & Hfin).
    + pose proof (scan_step_rank _ _ Hstep). lia.
    + by eapply scan_inv_step.
    + exists st'. split; [by eapply rtc_l|done].
Qed.
End ScanFacts.

Import CouchDB.

(** * Facts about the couchdb package *)

Section ClientFacts.
Context `{World}.

Lemma sent_nil s : sent s [] = s.
Proof. destruct s. unfold sent. cbn. by rewrite app_nil_r. Qed.

Lemma sent_app s a b : sent (sent s a) b = sent s (a ++ b).
Proof. unfold sent. cbn. by rewrite app_assoc. Qed.

Lemma if_url_ok_None req : url_Parse_error (URL req) = None -> if_url_ok req = [req].
Proof. unfold if_url_ok. by intros ->. Qed.

(** ** One revision delete *)

Lemma DeleteDocumentRevision_state c docID rev s :
  (DeleteDocumentRevision c docID rev s).2
  = sent s (if_url_ok (revision_delete c docID rev)).
Proof.
  unfold DeleteDocumentRevision, NewRequest, if_url_ok, revision_delete, Do.
  cbn [URL]. destruct (url_Parse_error _); cbn [snd]; [by rewrite sent_nil|].
  repeat case_match; done.
Qed.

Lemma DeleteDocumentRevision_no_panic c docID rev s msg :
  (DeleteDocumentRevision c docID rev s).1 <> Panic msg.
Proof.
  unfold DeleteDocumentRevision, Do. repeat case_match; done.
Qed.

Lemma DeleteDocumentRevision_Ok_url c docID rev s msg :
  (DeleteDocumentRevision c docID rev s).1 = Ok msg ->
  url_Parse_error (URL (revision_delete c docID rev)) = None.
Proof.
  unfold DeleteDocumentRevision, NewRequest, revision_delete. cbn [URL].
  by destruct (url_Parse_error _).
Qed.

(** What decides one revision delete: the answer to the request. *)
Lemma DeleteDocumentRevision_answer c docID rev s :
  url_Parse_error (URL (revision_delete c docID rev)) = None ->
  (DeleteDocumentRevision c docID rev s).1
  = match RoundTrip (wire s) (revision_delete c docID rev) with
    | inl err => Err err
    | inr resp =>
        match BodyErr resp with
        | Some err => Err err
        | None =>
            if StatusCode resp =? 200
            then Ok "Revision deleted successfully"
            else Err ("failed to delete document revision: " +:+ Body resp)
        end
    end.
Proof.
  intros Hurl.
  unfold DeleteDocumentRevision, NewRequest, Do, ReadAll, StatusOK.
  fold (revision_delete c docID rev) in *.
  change (doc_url c docID +:+ "?rev=" +:+ rev) with (URL (revision_delete c docID rev)).
  rewrite Hurl. fold (revision_delete c docID rev).
  repeat case_match; simplify_eq; done.
Qed.

(** ** Runs of revision deletes *)

Lemma delete_calls_cons c docID rev rest :
  delete_calls c ((docID, rev) :: rest)
  = if_url_ok (revision_delete c docID rev) ++ delete_calls c rest.
Proof. done. Qed.

Lemma delete_calls_app c a b :
  delete_calls c (a ++ b) = delete_calls c a ++ delete_calls c b.
Proof. unfold delete_calls. by rewrite flat_map_app. Qed.

Lemma each_call_cons good c docID rev rest s :
  each_call good c ((docID, rev) :: rest) s ->
  good (DeleteDocumentRevision c docID rev s).1
  /\ each_call good c rest (DeleteDocumentRevision c docID rev s).2.
Proof.
  intros Hall. split.
  - specialize (Hall [] docID rev rest eq_refl).
    by rewrite sent_nil in Hall.
  - intros pre d r post ->.
    specialize (Hall ((docID, rev) :: pre) d r post eq_refl).
    by rewrite DeleteDocumentRevision_state, sent_app, <- delete_calls_cons.
Qed.

Lemma each_call_app good c a b s :
  each_call good c (a ++ b) s ->
  each_call good c a s /\ each_call good c b (sent s (delete_calls c a)).
Proof.
  intros Hall. split.
  - intros pre d r post ->. apply (Hall pre d r (post ++ b)).
    by rewrite <- app_assoc.
  - intros pre d r post ->. rewrite sent_app, <- delete_calls_app.
    apply (Hall (a ++ pre) d r post). by rewrite <- app_assoc.
Qed.

Lemma succeeded_calls_all_sent c calls : forall s,
  each_call succeeded c calls s ->
  delete_calls c calls = map (fun call => revision_delete c call.1 call.2) calls.
Proof.
  induction calls as [|[d r] rest IH]; intros s Hall; [done|].
  apply each_call_cons in Hall as [Hok Hrest].
  rewrite delete_calls_cons, (IH _ Hrest). cbn [map fst snd].
  destruct (DeleteDocumentRevision c d r s).1 as [msg| |] eqn:E; try done.
  by rewrite if_url_ok_None by by eapply DeleteDocumentRevision_Ok_url.
Qed.

(** ** DeleteAllRevisions *)

Lemma DeleteAllRevisions_tolerant c docID revisions : forall s,
  each_call tolerated c (map (pair docID) revisions) s ->
  DeleteAllRevisions c docID revisions s
  = (Ok tt, sent s (delete_calls c (map (pair docID) revisions))).
Proof.
  induction revisions as [|rev rest IH]; intros s Hall.
  - cbn. by rewrite sent_nil.
  - cbn [map] in Hall. apply each_call_cons in Hall as [Hok Hrest].
    cbn [DeleteAllRevisions map]. rewrite delete_calls_cons, <- sent_app.
    rewrite <- DeleteDocumentRevision_state.
    destruct (DeleteDocumentRevision c docID rev s) as [[msg|err|msg] s1];
      cbn [fst snd tolerated] in *; [by apply IH| |done].
    rewrite Hok. by apply IH.
Qed.

Lemma DeleteAllRevisions_abort c docID pre : forall s rev post err,
  each_call tolerated c (map (pair docID) pre) s ->
  (DeleteDocumentRevision c docID rev
     (sent s (delete_calls c (map (pair docID) pre)))).1 = Err err ->
  strings_Contains err "not_found" = false ->
  DeleteAllRevisions c docID (pre ++ rev :: post) s
  = (Err ("failed to delete revision " +:+ rev +:+ ": " +:+ err),
     sent s (delete_calls c (map (pair docID) (pre ++ [rev])))).
Proof.
  induction pre as [|r pre IH]; intros s rev post err Hall Herr Hnf.
  - cbn [app map delete_calls flat_map fst snd] in *. rewrite sent_nil in Herr.
    cbn [DeleteAllRevisions]. rewrite app_nil_r.
    rewrite <- DeleteDocumentRevision_state.
    destruct (DeleteDocumentRevision c docID rev s) as [[msg|e|msg] s1];
      cbn [fst snd] in *; simplify_eq. by rewrite Hnf.
  - cbn [map] in Hall. apply each_call_cons in Hall as [Hok Hrest].
    cbn [app map DeleteAllRevisions]. rewrite delete_calls_cons, <- sent_app.
    cbn [map] in Herr. rewrite delete_calls_cons, <- sent_app in Herr.
    rewrite <- DeleteDocumentRevision_state in *.
    destruct (DeleteDocumentRevision c docID r s) as [[msg|e|msg] s1];
      cbn [fst snd tolerated] in *; [by apply IH| |done].
    rewrite Hok. by apply IH.
Qed.

(** ** The loops of HandleQueryResponse *)

Lemma delete_each_app c a : forall b s,
  delete_each c (a ++ b) s
  = match delete_each c a s with
    | (Ok _, s) => delete_each c b s
    | r => r
    end.
Proof.
  induction a as [|[d r] a IH]; intros b s; [done|].
  cbn [app delete_each].
  destruct (DeleteDocumentRevision c d r s) as [[msg|e|msg] s1]; [apply IH|done..].
Qed.

Lemma delete_conflicts_each c docID conflicts : forall s,
  delete_conflicts c docID conflicts s
  = delete_each c (map (pair docID) conflicts) s.
Proof.
  induction conflicts as [|r rest IH]; intros s; [done|].
  cbn [map delete_conflicts delete_each].
  destruct (DeleteDocumentRevision c docID r s) as [[msg|e|msg] s1]; [apply IH|done..].
Qed.

Lemma handle_rows_each c rows : forall s,
  handle_rows c rows s
  = delete_each c (conflict_calls {| TotalRows := 0; Offset := 0; Rows := rows |}) s.
Proof.
  unfold conflict_calls. cbn [Rows].
  induction rows as [|row rest IH]; intros s; [done|].
  cbn [handle_rows flat_map]. rewrite delete_each_app, <- delete_conflicts_each.
  destruct (DeletedConflicts (Row_Value row)) as [|r rs] eqn:E.
  - cbn. apply IH.
  - cbn [length Nat.ltb Nat.leb].
    destruct (delete_conflicts c _ _ s) as [[[]|e|msg] s1]; [apply IH|done..].
Qed.

Lemma delete_each_ok c calls : forall s,
  each_call succeeded c calls s ->
  delete_each c calls s = (Ok tt, sent s (delete_calls c calls)).
Proof.
  induction calls as [|[d r] rest IH]; intros s Hall.
  - cbn. by rewrite sent_nil.
  - apply each_call_cons in Hall as [Hok Hrest].
    cbn [delete_each]. rewrite delete_calls_cons, <- sent_app.
    rewrite <- DeleteDocumentRevision_state.
    destruct (DeleteDocumentRevision c d r s) as [[msg|e|msg] s1];
      cbn [fst snd succeeded] in *; [by apply IH|done..].
Qed.

Lemma delete_each_abort c pre : forall s docID rev post err,
  each_call succeeded c pre s ->
  (DeleteDocumentRevision c docID rev (sent s (delete_calls c pre))).1 = Err err ->
  delete_each c (pre ++ (docID, rev) :: post) s
  = (Err ("failed to delete conflict for document " +:+ docID +:+ ": " +:+ err),
     sent s (delete_calls c (pre ++ [(docID, rev)]))).
Proof.
  induction pre as [|[d r] pre IH]; intros s docID rev post err Hall Herr.
  - cbn [app delete_calls flat_map fst snd] in *. rewrite sent_nil in Herr.
    cbn [delete_each fst snd]. rewrite app_nil_r.
    rewrite <- DeleteDocumentRevision_state.
    destruct (DeleteDocumentRevision c docID rev s) as [[msg|e|msg] s1];
      cbn [fst snd] in *; by simplify_eq.
  - apply each_call_cons in Hall as [Hok Hrest].
    cbn [app delete_each]. rewrite delete_calls_cons, <- sent_app.
    rewrite delete_calls_cons, <- sent_app in Herr.
    rewrite <- DeleteDocumentRevision_state in *.
    destruct (DeleteDocumentRevision c d r s) as [[msg|e|msg] s1];
      cbn [fst snd succeeded] in *; [by apply IH|done..].
Qed.
End ClientFacts.

Section StepFacts.
Context `{World}.

(** ** The steps of ResetDocument, one by one *)

Lemma http_Get_state url s :
  (http_Get url s).2
  = sent s (if_url_ok {| Method := "GET"; URL := url; Header := []; ReqBody := None |}).
Proof.
  unfold http_Get, NewRequest, if_url_ok, Do. cbn [URL].
  destruct (url_Parse_error url); cbn [snd]; [by rewrite sent_nil|done].
Qed.

Lemma http_Get_inr url s resp s' :
  http_Get url s = (inr resp, s') -> url_Parse_error url = None.
Proof. unfold http_Get, NewRequest. by destruct (url_Parse_error url). Qed.

Lemma GetDocument_Err c docID s err s' :
  GetDocument c docID s = (Err err, s') ->
  s' = sent s (if_url_ok (get_document c docID)).
Proof.
  unfold GetDocument, alloc. fold (get_document c docID).
  pose proof (http_Get_state (doc_url c docID) s) as Hs.
  fold (get_document c docID) in Hs.
  destruct (http_Get _ s) as [[e|resp] s1]; cbn [snd] in Hs; subst s1;
    repeat case_match; by intros [= <-].
Qed.

Lemma GetDocument_Ok c docID s l s' :
  GetDocument c docID s = (Ok l, s') ->
  exists doc,
    heap s !! l = None
    /\ s' = {| heap := <[l := doc]> (heap s);
               wire := wire s ++ [get_document c docID] |}.
Proof.
  unfold GetDocument, alloc.
  pose proof (http_Get_state (doc_url c docID) s) as Hs.
  fold (get_document c docID) in Hs.
  destruct (http_Get _ s) as [[e|resp] s1] eqn:Hget; cbn [snd] in Hs; [done|].
  rewrite if_url_ok_None in Hs by by eapply http_Get_inr.
  subst s1. repeat case_match; try done. intros [= <- <-].
  eexists. split; [|done]. cbn [heap sent].
  apply not_elem_of_dom, is_fresh.
Qed.

Lemma GetDocument_no_panic c docID s msg s' :
  GetDocument c docID s <> (Panic msg, s').
Proof. unfold GetDocument, alloc. repeat case_match; done. Qed.

Lemma GetAllRevisions_state c docID s :
  (GetAllRevisions c docID s).2 = sent s (if_url_ok (get_revisions c docID)).
Proof.
  unfold GetAllRevisions. fold (get_revisions c docID).
  pose proof (http_Get_state (doc_url c docID +:+ "?revs_info=true") s) as Hs.
  fold (get_revisions c docID) in Hs.
  destruct (http_Get _ s) as [[e|resp] s1]; cbn [snd] in Hs; subst s1;
    repeat case_match; done.
Qed.

Lemma GetAllRevisions_Ok c docID s revs s' :
  GetAllRevisions c docID s = (Ok revs, s') ->
  s' = sent s [get_revisions c docID].
Proof.
  intros Hg. pose proof (GetAllRevisions_state c docID s) as Hs.
  rewrite Hg in Hs. cbn [snd] in Hs. subst s'. f_equal. apply if_url_ok_None.
  revert Hg. unfold GetAllRevisions.
  destruct (http_Get _ s) as [[e|resp] s1] eqn:Hget; [done|].
  intros _. by eapply http_Get_inr.
Qed.

Lemma DeleteAllRevisions_state c docID revisions : forall s,
  exists pre post,
    revisions = pre ++ post
    /\ (DeleteAllRevisions c docID revisions s).2
       = sent s (delete_calls c (map (pair docID) pre))
    /\ ((DeleteAllRevisions c docID revisions s).1 = Ok tt -> post = []).
Proof.
  induction revisions as [|rev rest IH]; intros s.
  - exists [], []. cbn. by rewrite sent_nil.
  - cbn [DeleteAllRevisions].
    pose proof (DeleteDocumentRevision_state c docID rev s) as Hs.
    destruct (DeleteDocumentRevision c docID rev s) as [[msg|err|msg] s1];
      cbn [snd] in Hs; subst s1.
    + destruct (IH (sent s (if_url_ok (revision_delete c docID rev))))
        as (pre & post & -> & Hst & Hok).
      exists (rev :: pre), post. cbn [map]. rewrite delete_calls_cons, <- sent_app.
      done.
    + destruct (strings_Contains err "not_found").
      * destruct (IH (sent s (if_url_ok (revision_delete c docID rev))))
          as (pre & post & -> & Hst & Hok).
        exists (rev :: pre), post. cbn [map].
        rewrite delete_calls_cons, <- sent_app. done.
      * exists [rev], rest. cbn [map fst snd].
        rewrite delete_calls_cons. cbn [delete_calls flat_map].
        by rewrite app_nil_r.
    + exists [rev], rest. cbn [map fst snd].
      rewrite delete_calls_cons. cbn [delete_calls flat_map].
      by rewrite app_nil_r.
Qed.

Lemma DeleteAllRevisions_no_panic c docID revisions : forall s msg,
  (DeleteAllRevisions c docID revisions s).1 <> Panic msg.
Proof.
  induction revisions as [|rev rest IH]; intros s msg; [done|].
  cbn [DeleteAllRevisions].
  pose proof (DeleteDocumentRevision_no_panic c docID rev s) as Hn.
  destruct (DeleteDocumentRevision c docID rev s) as [[m|err|m] s1];
    cbn [fst] in *; [apply IH| |by destruct (Hn m)].
  destruct (strings_Contains err "not_found"); [apply IH|done].
Qed.

Lemma DeleteDocument_state c docID s :
  (DeleteDocument c docID s).2 = sent s (if_url_ok (document_delete c docID)).
Proof.
  unfold DeleteDocument, NewRequest, if_url_ok, document_delete, Do.
  cbn [URL]. destruct (url_Parse_error _); cbn [snd]; [by rewrite sent_nil|].
  repeat case_match; done.
Qed.

Lemma DeleteDocument_Ok c docID s s' :
  DeleteDocument c docID s = (Ok tt, s') ->
  s' = sent s [document_delete c docID].
Proof.
  intros Hd. pose proof (DeleteDocument_state c docID s) as Hs.
  rewrite Hd in Hs. cbn [snd] in Hs. subst s'. f_equal. apply if_url_ok_None.
  revert Hd. unfold DeleteDocument, NewRequest, document_delete. cbn [URL].
  by destruct (url_Parse_error _).
Qed.

Lemma DeleteDocument_no_panic c docID s msg :
  (DeleteDocument c docID s).1 <> Panic msg.
Proof. unfold DeleteDocument, Do. repeat case_match; done. Qed.

(** A not-found answer to the delete of the document is success. *)
Lemma DeleteDocument_NotFound c docID s resp :
  url_Parse_error (doc_url c docID) = None ->
  RoundTrip (wire s) (document_delete c docID) = inr resp ->
  StatusCode resp = 404 -> BodyErr resp = None ->
  DeleteDocument c docID s = (Ok tt, sent s [document_delete c docID]).
Proof.
  intros Hurl Hresp Hst Hbody.
  unfold DeleteDocument, NewRequest, Do, ReadAll. rewrite Hurl.
  fold (document_delete c docID). by rewrite Hresp, Hbody, Hst.
Qed.

(** ** CreateDocument *)

Lemma deref_map_delete s l key :
  deref (map_delete l key s) l = delete key (deref s l).
Proof.
  unfold deref, map_delete. cbn [heap]. rewrite lookup_alter_eq.
  destruct (heap s !! l); cbn; [done|]. by rewrite delete_empty.
Qed.

Lemma deref_sent s reqs l : deref (sent s reqs) l = deref s l.
Proof. done. Qed.

Lemma Header_Set_fresh k v m u b :
  Header_Set k v {| Method := m; URL := u; Header := []; ReqBody := b |}
  = {| Method := m; URL := u; Header := [(k, v)]; ReqBody := b |}.
Proof. done. Qed.

(** Without a string under ["_id"] the call panics before it has done
    anything. *)
Lemma CreateDocument_panics c doc s :
  (forall id, deref s doc !! "_id" <> Some (JString id)) ->
  CreateDocument c doc s
  = (Panic ("interface conversion: interface {} is "
            +:+ go_type_name (deref s doc !! "_id") +:+ ", not string"), s).
Proof.
  intros Hid. unfold CreateDocument.
  destruct (deref s doc !! "_id") as [[]|] eqn:E; try done.
  by destruct (Hid s0).
Qed.

(** With a string under ["_id"] the call does not panic; whatever it
    returns, ["_rev"] has been deleted from the caller's map, and any
    request sent is the PUT of the stripped map at that id. *)
Lemma CreateDocument_returns c doc s id :
  deref s doc !! "_id" = Some (JString id) ->
  exists r reqs,
    CreateDocument c doc s = (r, sent (map_delete doc "_rev" s) reqs)
    /\ (forall msg, r <> Panic msg)
    /\ (reqs = []
        \/ exists jsonDoc,
             json_Marshal (delete "_rev" (deref s doc)) = inr jsonDoc
             /\ reqs = [document_put c id jsonDoc])
    /\ (r = Ok tt -> reqs <> []).
Proof.
  intros Hid. unfold CreateDocument. rewrite Hid, deref_map_delete.
  destruct (json_Marshal _) as [e|jsonDoc] eqn:Hm.
  { exists (Err e), []. rewrite sent_nil. naive_solver. }
  unfold NewRequest. destruct (url_Parse_error _) as [e|] eqn:Hu.
  { exists (Err e), []. rewrite sent_nil. naive_solver. }
  rewrite Header_Set_fresh. fold (document_put c id jsonDoc). unfold Do.
  repeat case_match; simplify_eq;
    (eexists _, [document_put c id jsonDoc]; split; [reflexivity|];
     naive_solver).
Qed.

(** ** CreateDesignDocument and the calls after it *)

Lemma CreateDesignDocument_any_status c name designDoc s jsonDoc resp :
  json_Marshal designDoc = inr jsonDoc ->
  url_Parse_error (design_url c name) = None ->
  RoundTrip (wire s) (design_put c name jsonDoc) = inr resp ->
  BodyErr resp = None ->
  CreateDesignDocument c name designDoc s
  = (Ok (Body resp), sent s [design_put c name jsonDoc]).
Proof.
  intros Hm Hu Hr Hb. unfold CreateDesignDocument, NewRequest, Do, ReadAll.
  rewrite Hm, Hu, Header_Set_fresh. fold (design_put c name jsonDoc).
  by rewrite Hr, Hb.
Qed.

Lemma QueryDesignDocument_state c name s :
  url_Parse_error (URL (view_query c name)) = None ->
  (QueryDesignDocument c name s).2 = sent s [view_query c name].
Proof.
  intros Hu. unfold QueryDesignDocument.
  pose proof (http_Get_state (design_url c name +:+ "/_view/high_rev_gen") s) as Hs.
  fold (view_query c name) in Hs. rewrite if_url_ok_None in Hs by done.
  destruct (http_Get _ s) as [[e|resp] s1]; cbn [snd] in Hs; subst s1;
    repeat case_match; done.
Qed.

Lemma delete_each_wire c calls : forall s,
  wire s `prefix_of` wire (delete_each c calls s).2.
Proof.
  induction calls as [|[d r] rest IH]; intros s; [done|].
  cbn [delete_each].
  pose proof (DeleteDocumentRevision_state c d r s) as Hs.
  destruct (DeleteDocumentRevision c d r s) as [[msg|err|msg] s1];
    cbn [snd] in *; subst s1; try (by apply prefix_app_r).
  etrans; [|apply IH]. by apply prefix_app_r.
Qed.

Lemma HandleQueryResponse_wire c q s :
  wire s `prefix_of` wire (HandleQueryResponse c q s).2.
Proof.
  unfold HandleQueryResponse. destruct (Unmarshal_QueryResponse q); [done|].
  rewrite handle_rows_each. apply delete_each_wire.
Qed.

Lemma CompactDatabase_wire c s :
  wire s `prefix_of` wire (CompactDatabase c s).2.
Proof.
  unfold CompactDatabase, NewRequest, Do.
  repeat case_match; simplify_eq; cbn [snd sent wire];
    done || by apply prefix_app_r.
Qed.
End StepFacts.

(** * Hosts and ScanNetwork on blocks *)

Example Hosts_30 `{IPv6Text} :
  Hosts 10 "192.168.1.0/30" = Some (Ok ["192.168.1.1"; "192.168.1.2"]).
Proof. vm_compute. reflexivity. Qed.

Example Hosts_carry `{IPv6Text} :
  Hosts 600 "10.0.255.128/23"
    ≫= (fun r => match r with Ok ips => ips !! 254%nat | _ => None end)
  = Some "10.0.254.255".
Proof. vm_compute. reflexivity. Qed.

Example Hosts_unparsable `{IPv6Text} :
  Hosts 10 "192.168.1.0" = Some (Err "invalid CIDR address: 192.168.1.0").
Proof. vm_compute. reflexivity. Qed.

Example Hosts_block_24 `{IPv6Text} :
  exists ips, Hosts 300 "192.168.1.77/24" = Some (Ok ips)
              /\ Z.of_nat (length ips) = 254.
Proof.
  apply (Hosts_block_length _ (Z_of_addr [192; 168; 1; 77]) 24);
    [vm_compute; reflexivity|lia|apply Nat.ltb_lt; vm_compute; reflexivity].
Qed.

(** C1. On the block 0.0.0.0/0, whose prefix length 0 is at most 30, the
    loop of [Hosts] never exits: the mask is zero, so every address is in
    the block, and [inc] wraps 255.255.255.255 around to 0.0.0.0. Whatever
    the fuel, [Hosts] has no result, where the claim promises a slice of
    2^32 - 2 hosts. (For prefix lengths 1 to 30 the claim holds, see
    [Hosts_block].) *)
Theorem Hosts_prefix0_never_returns `{IPv6Text} :
  forall fuel, Hosts fuel "0.0.0.0/0" = None.
Proof. intros fuel. apply (Hosts_prefix0 _ 0). vm_compute. reflexivity. Qed.

(** C2. On a block of prefix length 32 the loop of [Hosts] collects the
    one address of the block, and the slice expression [ips[1 : len(ips)-1]]
    is then [ips[1:0]], which panics: [Hosts] crashes where the claim
    promises an empty slice. (For prefix length 31 the claim holds, see
    [Hosts_prefix31].) *)
Theorem Hosts_prefix32_panics `{IPv6Text} :
  forall fuel,
    Hosts (S (S fuel)) "10.0.0.1/32"
    = Some (Panic "runtime error: slice bounds out of range").
Proof.
  intros fuel.
  apply (Hosts_prefix32 _ (Z_of_addr [10; 0; 0; 1])); [vm_compute; reflexivity|lia].
Qed.

(** When [Hosts] enumerates the hosts [ips] of the block, every slice
    [ScanNetwork] can return, under any interleaving of its goroutines, is
    a permutation of the hosts of [ips] for which the probe answers true:
    none is lost, none is stored twice, and only the order depends on the
    schedule. The call does return: no reachable state is stuck before
    the barrier, every step uses up rank, and so some result exists. *)
Lemma ScanNetwork_returns_reachable_hosts `{IPv6Text}
    (isCouchDBRunning : string -> string -> bool) (couchDBPort : string)
    (fuel : nat) (cidr : string) (ips : list string) :
  Hosts fuel cidr = Some (Ok ips) ->
  (forall found,
     ScanNetwork isCouchDBRunning couchDBPort fuel cidr found ->
     found ≡ₚ reachable_hosts isCouchDBRunning couchDBPort ips)
  /\ (exists found, ScanNetwork isCouchDBRunning couchDBPort fuel cidr found)
  /\ (forall st,
        rtc (scan_step isCouchDBRunning couchDBPort) (scan_init ips) st ->
        scan_finished st
        \/ exists st', scan_step isCouchDBRunning couchDBPort st st')
  /\ (forall st st',
        scan_step isCouchDBRunning couchDBPort st st' ->
        (scan_rank st' < scan_rank st)%nat).
Proof.
  intros Hhosts. repeat split.
  - intros found Hscan. destruct Hscan as [ips' st Hhosts' Hrun Hfin].
    rewrite Hhosts in Hhosts'. injection Hhosts' as <-.
    eapply scan_inv_finished; [|done]. by apply scan_inv_rtc.
  - destruct (scan_terminates isCouchDBRunning couchDBPort ips
                (S (scan_rank (scan_init ips))) (scan_init ips))
      as (st & Hrun & Hfin); [lia|apply scan_inv_init|].
    exists (foundIPs st). by econstructor.
  - intros st Hrun. eapply scan_progress. by apply scan_inv_rtc.
  - apply scan_step_rank.
Qed.

Example ScanNetwork_test_block `{IPv6Text} :
  Hosts 10 "192.168.1.0/30" = Some (Ok ["192.168.1.1"; "192.168.1.2"])
  /\ (forall found,
        ScanNetwork example_probe "5984" 10 "192.168.1.0/30" found ->
        found ≡ₚ ["192.168.1.1"])
  /\ (exists found, ScanNetwork example_probe "5984" 10 "192.168.1.0/30" found).
Proof.
  assert (Hosts 10 "192.168.1.0/30" = Some (Ok ["192.168.1.1"; "192.168.1.2"]))
    as Hhosts by (vm_compute; reflexivity).
  destruct (ScanNetwork_returns_reachable_hosts example_probe "5984" 10
              "192.168.1.0/30" ["192.168.1.1"; "192.168.1.2"] Hhosts)
    as (Hperm & Hex & _).
  split; [exact Hhosts|]. split; [exact Hperm|exact Hex].
Qed.

(** The order of the result does depend on the schedule: with two
    reachable hosts both orders are results of the same call. *)
Example ScanNetwork_both_orders `{IPv6Text} :
  ScanNetwork (fun _ _ => true) "5984" 10 "192.168.1.0/30"
    ["192.168.1.1"; "192.168.1.2"]
  /\ ScanNetwork (fun _ _ => true) "5984" 10 "192.168.1.0/30"
       ["192.168.1.2"; "192.168.1.1"].
Proof.
  assert (Hosts 10 "192.168.1.0/30" = Some (Ok ["192.168.1.1"; "192.168.1.2"]))
    as Hhosts by (vm_compute; reflexivity).
  set (a := "192.168.1.1"). set (b := "192.168.1.2").
  split.
  - apply (ScanNetwork_returns _ _ _ _ [a; b]
             {| to_spawn := []; goroutines := [(a, Done); (b, Done)];
                foundIPs := [a; b]; mu := false |}); [done| |].
    + unfold scan_init.
      eapply rtc_l; [apply step_spawn|]. eapply rtc_l; [apply step_spawn|].
      cbn [app].
      eapply rtc_l; [apply (step_probe _ _ a [] [] [(b, Spawned)])|]. cbn [app].
      eapply rtc_l; [apply (step_lock _ _ a [] [] [(b, Spawned)])|]. cbn [app].
      eapply rtc_l; [apply (step_read _ _ a [] [] [(b, Spawned)])|]. cbn [app].
      eapply rtc_l; [apply (step_write _ _ a [] [] [] [(b, Spawned)])|]. cbn [app].
      eapply rtc_l; [apply (step_unlock _ _ a [] [] [(b, Spawned)])|]. cbn [app].
      eapply rtc_l; [apply (step_probe _ _ b [] [(a, Done)] [])|]. cbn [app].
      eapply rtc_l; [apply (step_lock _ _ b [] [(a, Done)] [])|]. cbn [app].
      eapply rtc_l; [apply (step_read _ _ b [] [(a, Done)] [])|]. cbn [app].
      eapply rtc_l; [apply (step_write _ _ b [a] [] [(a, Done)] [])|]. cbn [app].
      eapply rtc_l; [apply (step_unlock _ _ b [] [(a, Done)] [])|]. cbn [app].
      apply rtc_refl.
    + split; [done|]. by repeat constructor.
  - apply (ScanNetwork_returns _ _ _ _ [a; b]
             {| to_spawn := []; goroutines := [(a, Done); (b, Done)];
                foundIPs := [b; a]; mu := false |}); [done| |].
    + unfold scan_init.
      eapply rtc_l; [apply step_spawn|]. eapply rtc_l; [apply step_spawn|].
      cbn [app].
      eapply rtc_l; [apply (step_probe _ _ b [] [(a, Spawned)] [])|]. cbn [app].
      eapply rtc_l; [apply (step_lock _ _ b [] [(a, Spawned)] [])|]. cbn [app].
      eapply rtc_l; [apply (step_read _ _ b [] [(a, Spawned)] [])|]. cbn [app].
      eapply rtc_l; [apply (step_write _ _ b [] [] [(a, Spawned)] [])|]. cbn [app].
      eapply rtc_l; [apply (step_unlock _ _ b [] [(a, Spawned)] [])|]. cbn [app].
      eapply rtc_l; [apply (step_probe _ _ a [] [] [(b, Done)])|]. cbn [app].
      eapply rtc_l; [apply (step_lock _ _ a [] [] [(b, Done)])|]. cbn [app].
      eapply rtc_l; [apply (step_read _ _ a [] [] [(b, Done)])|]. cbn [app].
      eapply rtc_l; [apply (step_write _ _ a [b] [] [] [(b, Done)])|]. cbn [app].
      eapply rtc_l; [apply (step_unlock _ _ a [] [] [(b, Done)])|]. cbn [app].
      apply rtc_refl.
    + split; [done|]. by repeat constructor.
Qed.

(** * The couchdb package *)

Lemma strings_Contains_app_r a b sub :
  strings_Contains b sub = true -> strings_Contains (a +:+ b) sub = true.
Proof.
  intros Hb. induction a as [|x a IH]; [done|].
  simpl. rewrite IH. apply orb_true_r.
Qed.

(** CouchDB's answer to the delete of a revision it does not have, a
    status other than 200 with [not_found] in the body, is one of the
    failures [DeleteAllRevisions] goes past. *)
Lemma not_found_answer_tolerated `{World} c docID rev s resp :
  url_Parse_error (URL (revision_delete c docID rev)) = None ->
  RoundTrip (wire s) (revision_delete c docID rev) = inr resp ->
  BodyErr resp = None -> StatusCode resp <> 200 ->
  strings_Contains (Body resp) "not_found" = true ->
  tolerated (DeleteDocumentRevision c docID rev s).1.
Proof.
  intros Hu Hr Hb Hst Hnf. rewrite DeleteDocumentRevision_answer, Hr, Hb by done.
  rewrite (proj2 (Z.eqb_neq _ _) Hst). cbn [tolerated].
  by apply strings_Contains_app_r.
Qed.

(** The loop of [DeleteAllRevisions], branch by branch. It goes past every
    revision whose delete succeeds or fails with an error whose text
    contains [not_found], whatever the kind of failure behind it: when
    all the deletes end that way it returns success after one delete call
    per revision, in order. The first delete that fails otherwise ends the
    loop: the error comes back wrapped with the revision, and no call is
    made for the revisions after it. [DeleteDocument] returns success on a
    404 answer. *)
Lemma DeleteAllRevisions_skips_not_found `{World}
    (c : CouchDBClient) (docID : string) :
  (forall revisions s,
     each_call tolerated c (map (pair docID) revisions) s ->
     DeleteAllRevisions c docID revisions s
     = (Ok tt, sent s (delete_calls c (map (pair docID) revisions))))
  /\ (forall pre rev post err s,
        each_call tolerated c (map (pair docID) pre) s ->
        (DeleteDocumentRevision c docID rev
           (sent s (delete_calls c (map (pair docID) pre)))).1 = Err err ->
        strings_Contains err "not_found" = false ->
        DeleteAllRevisions c docID (pre ++ rev :: post) s
        = (Err ("failed to delete revision " +:+ rev +:+ ": " +:+ err),
           sent s (delete_calls c (map (pair docID) (pre ++ [rev])))))
  /\ (forall s resp,
        url_Parse_error (doc_url c docID) = None ->
        RoundTrip (wire s) (document_delete c docID) = inr resp ->
        StatusCode resp = 404 -> BodyErr resp = None ->
        DeleteDocument c docID s = (Ok tt, sent s [document_delete c docID])).
Proof.
  split; [|split].
  - intros revisions s. apply DeleteAllRevisions_tolerant.
  - intros pre rev post err s. apply DeleteAllRevisions_abort.
  - intros s resp. apply DeleteDocument_NotFound.
Qed.

(** Every way of splitting a list of at most three calls. *)
Ltac split_calls Heq pre :=
  destruct pre as [|? [|? [|? [|? pre]]]]; cbn in Heq; simplify_eq.

Lemma DeleteAllRevisions_skips_not_found_witness :
  @DeleteAllRevisions example_world example_client "doc1"
     ["1-a"; "2-gone"; "3-b"] empty_state
  = (Ok tt,
     {| heap := ∅;
        wire := [ @revision_delete example_client "doc1" "1-a";
                  @revision_delete example_client "doc1" "2-gone";
                  @revision_delete example_client "doc1" "3-b" ] |})
  /\ @DeleteAllRevisions example_world example_client "doc1"
       (["1-a"] ++ "3-locked" :: ["4-c"]) empty_state
     = (Err ("failed to delete revision 3-locked: "
             +:+ "failed to delete document revision: {error:internal}"),
        {| heap := ∅;
           wire := [ @revision_delete example_client "doc1" "1-a";
                     @revision_delete example_client "doc1" "3-locked" ] |})
  /\ @DeleteDocument example_world example_client "missing" empty_state
     = (Ok tt, {| heap := ∅; wire := [document_delete example_client "missing"] |}).
Proof.
  destruct (@DeleteAllRevisions_skips_not_found example_world example_client "doc1")
    as (Hok & Habort & _).
  destruct (@DeleteAllRevisions_skips_not_found example_world example_client "missing")
    as (_ & _ & Hdoc).
  split; [|split].
  - apply (Hok ["1-a"; "2-gone"; "3-b"] empty_state).
    intros pre d r post Heq. split_calls Heq pre; vm_compute; reflexivity.
  - apply (Habort ["1-a"] "3-locked" ["4-c"]
             "failed to delete document revision: {error:internal}" empty_state).
    + intros pre d r post Heq. split_calls Heq pre; vm_compute; reflexivity.
    + vm_compute; reflexivity.
    + vm_compute; reflexivity.
  - apply (Hdoc empty_state
             {| StatusCode := 404; Body := "{error:not_found,reason:missing}";
                BodyErr := None |}); vm_compute; reflexivity.
Defined.

(** C5. When the query response decodes, [HandleQueryResponse] makes, row
    by row and in order, one revision-delete call for each deleted-conflict
    revision a row's document lists, against the id of that document
    ([value._id]); rows that list none cause no call. If every delete
    succeeds the calls on the wire are exactly these, one each. The first
    delete that fails, for whatever reason, ends the processing: no later
    call is made and the error returned names the document id and the
    cause. *)
Theorem HandleQueryResponse_deletes_conflicts `{World}
    (c : CouchDBClient) (queryResponse : string) (response : QueryResponse)
    (s : State) :
  Unmarshal_QueryResponse queryResponse = inr response ->
  (each_call succeeded c (conflict_calls response) s ->
   HandleQueryResponse c queryResponse s
   = (Ok tt,
      sent s (map (fun call => revision_delete c call.1 call.2)
                  (conflict_calls response))))
  /\ (forall pre docID rev post err,
        conflict_calls response = pre ++ (docID, rev) :: post ->
        each_call succeeded c pre s ->
        (DeleteDocumentRevision c docID rev (sent s (delete_calls c pre))).1
        = Err err ->
        HandleQueryResponse c queryResponse s
        = (Err ("failed to delete conflict for document " +:+ docID
                +:+ ": " +:+ err),
           sent s (delete_calls c (pre ++ [(docID, rev)])))).
Proof.
  intros Hq. unfold HandleQueryResponse. rewrite Hq, handle_rows_each.
  assert (conflict_calls {| TotalRows := 0; Offset := 0; Rows := Rows response |}
          = conflict_calls response) as -> by done.
  split.
  - intros Hall. rewrite delete_each_ok by done.
    by rewrite (succeeded_calls_all_sent c _ s).
  - intros pre docID rev post err -> Hall Herr. by apply delete_each_abort.
Qed.

Lemma HandleQueryResponse_deletes_conflicts_witness :
  @HandleQueryResponse example_world example_client "rows" empty_state
  = (Ok tt,
     {| heap := ∅;
        wire := [ @revision_delete example_client "doc1" "2-aaa";
                  @revision_delete example_client "doc1" "3-bbb" ] |})
  /\ @HandleQueryResponse (example_world_with example_rows_gone) example_client
       "rows" empty_state
     = (Err ("failed to delete conflict for document doc1: "
             +:+ "failed to delete document revision: "
             +:+ "{error:not_found,reason:missing}"),
        {| heap := ∅;
           wire := [ @revision_delete example_client "doc1" "2-gone" ] |}).
Proof.
  split.
  - destruct (@HandleQueryResponse_deletes_conflicts example_world example_client
                "rows" example_rows empty_state eq_refl) as [Hok _].
    apply Hok. intros pre d r post Heq. split_calls Heq pre; vm_compute; exact I.
  - destruct (@HandleQueryResponse_deletes_conflicts
                (example_world_with example_rows_gone) example_client
                "rows" example_rows_gone empty_state eq_refl) as [_ Habort].
    apply (Habort [] "doc1" "2-gone" [("doc1", "3-bbb")]
             ("failed to delete document revision: "
              +:+ "{error:not_found,reason:missing}")).
    + reflexivity.
    + intros pre d r post Heq. split_calls Heq pre.
    + vm_compute. reflexivity.
Defined.

(** The steps of [ResetDocument] that return: it runs fetch document,
    fetch revision history, delete each revision, delete the document,
    recreate, in this order. A
    step that returns an error ends the call in the state that step left:
    nothing of a later step is done, and the error returned is the step's
    name followed by the step's own error. When no step fails, the
    requests on the wire are the two fetches, the revision deletes, the
    document delete and the PUT, in this order. *)
Lemma ResetDocument_halts_at_first_failure `{World}
    (c : CouchDBClient) (docID : string) (s : State) :
  (forall err s1,
     GetDocument c docID s = (Err err, s1) ->
     ResetDocument c docID s = (Err ("failed to fetch document: " +:+ err), s1))
  /\ (forall doc s1 err s2,
        GetDocument c docID s = (Ok doc, s1) ->
        GetAllRevisions c docID s1 = (Err err, s2) ->
        ResetDocument c docID s = (Err ("failed to get revisions: " +:+ err), s2))
  /\ (forall doc s1 revisions s2 err s3,
        GetDocument c docID s = (Ok doc, s1) ->
        GetAllRevisions c docID s1 = (Ok revisions, s2) ->
        DeleteAllRevisions c docID revisions s2 = (Err err, s3) ->
        ResetDocument c docID s
        = (Err ("failed to delete all revisions: " +:+ err), s3))
  /\ (forall doc s1 revisions s2 s3 err s4,
        GetDocument c docID s = (Ok doc, s1) ->
        GetAllRevisions c docID s1 = (Ok revisions, s2) ->
        DeleteAllRevisions c docID revisions s2 = (Ok tt, s3) ->
        DeleteDocument c docID s3 = (Err err, s4) ->
        ResetDocument c docID s = (Err ("failed to delete document: " +:+ err), s4))
  /\ (forall doc s1 revisions s2 s3 s4 err s5,
        GetDocument c docID s = (Ok doc, s1) ->
        GetAllRevisions c docID s1 = (Ok revisions, s2) ->
        DeleteAllRevisions c docID revisions s2 = (Ok tt, s3) ->
        DeleteDocument c docID s3 = (Ok tt, s4) ->
        CreateDocument c doc s4 = (Err err, s5) ->
        ResetDocument c docID s
        = (Err ("failed to recreate document: " +:+ err), s5))
  /\ (forall s',
        ResetDocument c docID s = (Ok tt, s') ->
        exists revisions id jsonDoc,
          wire s'
          = wire s ++ [get_document c docID; get_revisions c docID]
              ++ delete_calls c (map (pair docID) revisions)
              ++ [document_delete c docID; document_put c id jsonDoc]).
Proof.
  unfold ResetDocument. repeat split.
  - by intros err s1 ->.
  - by intros doc s1 err s2 -> ->.
  - by intros doc s1 revisions s2 err s3 -> -> ->.
  - by intros doc s1 revisions s2 s3 err s4 -> -> -> ->.
  - by intros doc s1 revisions s2 s3 s4 err s5 -> -> -> -> ->.
  - intros s'.
    destruct (GetDocument c docID s) as [[doc|e|m] s1] eqn:H1; [|done..].
    destruct (GetAllRevisions c docID s1) as [[revisions|e|m] s2] eqn:H2; [|done..].
    destruct (DeleteAllRevisions c docID revisions s2) as [[[]|e|m] s3] eqn:H3;
      [|done..].
    destruct (DeleteDocument c docID s3) as [[[]|e|m] s4] eqn:H4; [|done..].
    destruct (CreateDocument c doc s4) as [[[]|e|m] s5] eqn:H5; [|done..].
    intros [= <-].
    apply GetDocument_Ok in H1 as (body & Hfresh & ->).
    apply GetAllRevisions_Ok in H2 as ->.
    destruct (DeleteAllRevisions_state c docID revisions
                (sent {| heap := <[doc:=body]> (heap s);
                         wire := wire s ++ [get_document c docID] |}
                      [get_revisions c docID]))
      as (pre & post & -> & Hst & Hall).
    rewrite H3 in Hst, Hall. cbn [fst snd] in Hst, Hall. subst s3.
    rewrite (Hall eq_refl), app_nil_r in *.
    apply DeleteDocument_Ok in H4 as ->.
    destruct (deref (sent (sent (sent {| heap := <[doc:=body]> (heap s);
                                        wire := wire s ++ [get_document c docID] |}
                                   [get_revisions c docID])
                             (delete_calls c (map (pair docID) pre)))
                       [document_delete c docID]) doc !! "_id")
      as [[| | |id| |]|] eqn:Hid;
      try (rewrite CreateDocument_panics in H5 by (by rewrite Hid); done).
    destruct (CreateDocument_returns c doc _ id Hid)
      as (r & reqs & Hcd & _ & Hreqs & Hne).
    rewrite H5 in Hcd. injection Hcd as <- ->.
    destruct Hreqs as [->|(jsonDoc & _ & ->)]; [by destruct (Hne eq_refl)|].
    exists pre, id, jsonDoc. cbn [wire sent map_delete].
    by rewrite <- !app_assoc.
Qed.

Lemma ResetDocument_halts_at_first_failure_witness :
  let c := example_client in
  ((@ResetDocument example_world c "unreachable" empty_state).1
   = Err "failed to fetch document: connection refused"
   /\ wire (@ResetDocument example_world c "unreachable" empty_state).2
      = [@get_document c "unreachable"])
  /\ ((@ResetDocument example_world c "nohistory" empty_state).1
      = Err ("failed to get revisions: "
             +:+ "failed to fetch document revisions: {error:internal}")
      /\ wire (@ResetDocument example_world c "nohistory" empty_state).2
         = [@get_document c "nohistory"; @get_revisions c "nohistory"])
  /\ ((@ResetDocument (scripted_world example_doc ["1-a"; "3-locked"; "4-c"]
                         example_rows) c "doc1" empty_state).1
      = Err ("failed to delete all revisions: "
             +:+ "failed to delete revision 3-locked: "
             +:+ "failed to delete document revision: {error:internal}")
      /\ wire (@ResetDocument (scripted_world example_doc ["1-a"; "3-locked"; "4-c"]
                                 example_rows) c "doc1" empty_state).2
         = [@get_document c "doc1"; @get_revisions c "doc1";
            @revision_delete c "doc1" "1-a"; @revision_delete c "doc1" "3-locked"])
  /\ ((@ResetDocument example_world c "pinned" empty_state).1
      = Err ("failed to delete document: "
             +:+ "failed to delete document: {error:internal}")
      /\ wire (@ResetDocument example_world c "pinned" empty_state).2
         = [@get_document c "pinned"; @get_revisions c "pinned";
            @revision_delete c "pinned" "1-a"; @revision_delete c "pinned" "2-gone";
            @revision_delete c "pinned" "3-b"; @document_delete c "pinned"])
  /\ ((@ResetDocument (scripted_world example_doc_readonly example_revs example_rows)
         c "doc1" empty_state).1
      = Err ("failed to recreate document: "
             +:+ "failed to create document: {error:forbidden}")
      /\ wire (@ResetDocument (scripted_world example_doc_readonly example_revs
                                 example_rows) c "doc1" empty_state).2
         = [@get_document c "doc1"; @get_revisions c "doc1";
            @revision_delete c "doc1" "1-a"; @revision_delete c "doc1" "2-gone";
            @revision_delete c "doc1" "3-b"; @document_delete c "doc1";
            @document_put c "readonly" "{}"])
  /\ exists revisions id jsonDoc,
       wire (@ResetDocument example_world c "doc1" empty_state).2
       = [@get_document c "doc1"; @get_revisions c "doc1"]
           ++ @delete_calls example_world c (map (pair "doc1") revisions)
           ++ [@document_delete c "doc1"; @document_put c id jsonDoc].
Proof.
  intros c. repeat apply conj.
  - destruct (@ResetDocument_halts_at_first_failure example_world c
                "unreachable" empty_state) as (H1 & _).
    by erewrite H1 by (vm_compute; reflexivity).
  - destruct (@ResetDocument_halts_at_first_failure example_world c
                "unreachable" empty_state) as (H1 & _).
    by erewrite H1 by (vm_compute; reflexivity).
  - destruct (@ResetDocument_halts_at_first_failure example_world c
                "nohistory" empty_state) as (_ & H2 & _).
    by erewrite H2 by (vm_compute; reflexivity).
  - destruct (@ResetDocument_halts_at_first_failure example_world c
                "nohistory" empty_state) as (_ & H2 & _).
    by erewrite H2 by (vm_compute; reflexivity).
  - destruct (@ResetDocument_halts_at_first_failure
                (scripted_world example_doc ["1-a"; "3-locked"; "4-c"] example_rows)
                c "doc1" empty_state) as (_ & _ & H3 & _).
    by erewrite H3 by (vm_compute; reflexivity).
  - destruct (@ResetDocument_halts_at_first_failure
                (scripted_world example_doc ["1-a"; "3-locked"; "4-c"] example_rows)
                c "doc1" empty_state) as (_ & _ & H3 & _).
    by erewrite H3 by (vm_compute; reflexivity).
  - destruct (@ResetDocument_halts_at_first_failure example_world c
                "pinned" empty_state) as (_ & _ & _ & H4 & _).
    by erewrite H4 by (vm_compute; reflexivity).
  - destruct (@ResetDocument_halts_at_first_failure example_world c
                "pinned" empty_state) as (_ & _ & _ & H4 & _).
    by erewrite H4 by (vm_compute; reflexivity).
  - destruct (@ResetDocument_halts_at_first_failure
                (scripted_world example_doc_readonly example_revs example_rows)
                c "doc1" empty_state) as (_ & _ & _ & _ & H5 & _).
    by erewrite H5 by (vm_compute; reflexivity).
  - destruct (@ResetDocument_halts_at_first_failure
                (scripted_world example_doc_readonly example_revs example_rows)
                c "doc1" empty_state) as (_ & _ & _ & _ & H5 & _).
    by erewrite H5 by (vm_compute; reflexivity).
  - destruct (@ResetDocument_halts_at_first_failure example_world c
                "doc1" empty_state) as (_ & _ & _ & _ & _ & H6).
    apply (H6 (@ResetDocument example_world c "doc1" empty_state).2).
    vm_compute. reflexivity.
Defined.

(** C8. When the caller's map holds no string under ["_id"] (the key is
    absent, or its value is not a string), [CreateDocument] panics in the
    type assertion [doc["_id"].(string)]: nothing is sent and no document
    is created, but no error is returned either, the program crashes,
    where the claim says the failure is reported. *)
Theorem CreateDocument_without_id_panics `{World}
    (c : CouchDBClient) (doc : positive) (s : State) :
  (forall id, deref s doc !! "_id" <> Some (JString id)) ->
  exists msg, CreateDocument c doc s = (Panic msg, s).
Proof. intros Hid. eexists. by apply CreateDocument_panics. Qed.

Lemma CreateDocument_without_id_panics_witness :
  exists msg,
    @CreateDocument example_world example_client 1%positive example_state_no_id
    = (Panic msg, example_state_no_id).
Proof.
  apply (@CreateDocument_without_id_panics example_world example_client
           1%positive example_state_no_id).
  intros id. vm_compute. discriminate.
Defined.

Example CreateDocument_no_id_message :
  (@CreateDocument example_world example_client 1%positive example_state_no_id).1
  = Panic "interface conversion: interface {} is nil, not string".
Proof. vm_compute. reflexivity. Qed.

(** The part of C8 that holds: with a string under ["_id"], what goes out
    is the PUT, at that id, of the map without its ["_rev"]. *)
Lemma CreateDocument_puts_stripped_body `{World} c doc s id r s' :
  deref s doc !! "_id" = Some (JString id) ->
  CreateDocument c doc s = (r, s') ->
  wire s' = wire s
  \/ exists jsonDoc,
       json_Marshal (delete "_rev" (deref s doc)) = inr jsonDoc
       /\ wire s' = wire s ++ [document_put c id jsonDoc].
Proof.
  intros Hid Hc. destruct (CreateDocument_returns c doc s id Hid)
    as (r' & reqs & Hcd & _ & Hreqs & _).
  rewrite Hc in Hcd. injection Hcd as -> ->.
  destruct Hreqs as [->|(jsonDoc & Hm & ->)]; [left|right; exists jsonDoc];
    cbn [wire sent map_delete]; by rewrite ?app_nil_r.
Qed.

(** C10. Whenever [CreateDocument] returns, with or without an error, the
    map the caller passed has lost its ["_rev"] key and kept every other
    key with its value, no other map has changed, and the body of any
    request sent is the encoding of the map without ["_rev"]. *)
Theorem CreateDocument_strips_rev_in_place `{World}
    (c : CouchDBClient) (doc : positive) (s : State)
    (r : outcome unit) (s' : State) :
  CreateDocument c doc s = (r, s') ->
  (forall msg, r <> Panic msg) ->
  deref s' doc !! "_rev" = None
  /\ (forall key, key <> "_rev" -> deref s' doc !! key = deref s doc !! key)
  /\ (forall l, l <> doc -> heap s' !! l = heap s !! l)
  /\ (forall req,
        req ∈ drop (length (wire s)) (wire s') ->
        exists jsonDoc,
          json_Marshal (delete "_rev" (deref s doc)) = inr jsonDoc
          /\ ReqBody req = Some jsonDoc).
Proof.
  intros Hc Hr.
  destruct (deref s doc !! "_id") as [[| | |id| |]|] eqn:Hid;
    try (rewrite CreateDocument_panics in Hc by (by rewrite Hid);
         injection Hc as Hp _; exfalso; by eapply Hr).
  destruct (CreateDocument_returns c doc s id Hid)
    as (r' & reqs & Hcd & _ & Hreqs & _).
  rewrite Hc in Hcd. injection Hcd as -> ->.
  rewrite deref_sent, deref_map_delete. repeat split.
  - apply lookup_delete_eq.
  - intros key Hkey. by apply lookup_delete_ne.
  - intros l Hl. cbn [heap sent map_delete]. by apply lookup_alter_ne.
  - intros req. cbn [wire sent map_delete]. rewrite drop_app_length.
    destruct Hreqs as [->|(jsonDoc & Hm & ->)]; [by intros ?%elem_of_nil|].
    intros ->%list_elem_of_singleton. by exists jsonDoc.
Qed.

Lemma CreateDocument_strips_rev_in_place_witness :
  let s' := (@CreateDocument example_world example_client 1%positive
               example_state).2 in
  deref example_state 1%positive !! "_rev" = Some (JString "7-abc")
  /\ deref s' 1%positive !! "_rev" = None
  /\ deref s' 1%positive !! "name" = Some (JString "n")
  /\ deref s' 1%positive !! "_id" = Some (JString "doc1").
Proof.
  intros s'.
  destruct (@CreateDocument_strips_rev_in_place example_world example_client
              1%positive example_state (Ok tt) s')
    as (Hrev & Hkeep & _ & _).
  - vm_compute. reflexivity.
  - intros msg. discriminate.
  - split; [vm_compute; reflexivity|]. split; [exact Hrev|].
    split; (rewrite Hkeep; [vm_compute; reflexivity|discriminate]).
Defined.

Import CouchDB Main.

(** * The claims about package main *)

Lemma main_instance_after_install `{World} couchDBPort dbName ip s s1 msg s2
    jsonDoc resp :
  let client := NewCouchDBClient ("http://" +:+ ip +:+ ":" +:+ couchDBPort) dbName in
  ResetDocument client dbName s = (Ok tt, s1) ->
  CheckAndDeleteDesignDocument client "rev_filter" s1 = (Ok msg, s2) ->
  json_Marshal designDoc = inr jsonDoc ->
  url_Parse_error (design_url client "rev_filter") = None ->
  RoundTrip (wire s2) (design_put client "rev_filter" jsonDoc) = inr resp ->
  BodyErr resp = None ->
  url_Parse_error (URL (view_query client "rev_filter")) = None ->
  (wire s2 ++ [design_put client "rev_filter" jsonDoc;
               view_query client "rev_filter"])
    `prefix_of` wire (main_instance couchDBPort dbName ip s).2
  /\ forall err,
       (main_instance couchDBPort dbName ip s).1
       <> Err ("Failed to create design document: " +:+ err).
Proof.
  intros client Hreset Hcheck Hm Hu Hr Hb Hq. unfold main_instance.
  fold client. rewrite Hreset, Hcheck.
  rewrite (CreateDesignDocument_any_status _ _ _ _ jsonDoc resp) by done.
  pose proof (QueryDesignDocument_state client "rev_filter"
                (sent s2 [design_put client "rev_filter" jsonDoc]) Hq) as Hs.
  rewrite sent_app in Hs. cbn [app] in Hs.
  destruct (QueryDesignDocument client "rev_filter" _) as [[queryResp|e|m] s3];
    cbn [snd] in Hs; subst s3; [|by split..].
  pose proof (HandleQueryResponse_wire client queryResp
                (sent s2 [design_put client "rev_filter" jsonDoc;
                          view_query client "rev_filter"])) as Hw.
  destruct (HandleQueryResponse client queryResp _) as [[[]|e|m] s4];
    cbn [snd] in Hw; [|by split..].
  pose proof (CompactDatabase_wire client s4) as Hw'.
  destruct (CompactDatabase client s4) as [[compactResp|e|m] s5];
    cbn [snd] in Hw'; (split; [by etrans|done]).
Qed.

(** C9. [CreateDesignDocument] never looks at the status of the answer:
    once the request went out and the body was read, it returns that body
    and no error, whatever the status code. In the workflow a rejected
    installation is therefore not fatal: [main] goes on to send the view
    query, and the run does not end in "Failed to create design
    document". *)
Theorem CreateDesignDocument_ignores_status `{World} :
  (forall c name designDoc s jsonDoc resp,
     json_Marshal designDoc = inr jsonDoc ->
     url_Parse_error (design_url c name) = None ->
     RoundTrip (wire s) (design_put c name jsonDoc) = inr resp ->
     BodyErr resp = None ->
     CreateDesignDocument c name designDoc s
     = (Ok (Body resp), sent s [design_put c name jsonDoc]))
  /\ (forall couchDBPort dbName ip s s1 msg s2 jsonDoc resp,
        let client :=
          NewCouchDBClient ("http://" +:+ ip +:+ ":" +:+ couchDBPort) dbName in
        ResetDocument client dbName s = (Ok tt, s1) ->
        CheckAndDeleteDesignDocument client "rev_filter" s1 = (Ok msg, s2) ->
        json_Marshal designDoc = inr jsonDoc ->
        url_Parse_error (design_url client "rev_filter") = None ->
        RoundTrip (wire s2) (design_put client "rev_filter" jsonDoc) = inr resp ->
        BodyErr resp = None ->
        url_Parse_error (URL (view_query client "rev_filter")) = None ->
        (wire s2 ++ [design_put client "rev_filter" jsonDoc;
                     view_query client "rev_filter"])
          `prefix_of` wire (main_instance couchDBPort dbName ip s).2
        /\ forall err,
             (main_instance couchDBPort dbName ip s).1
             <> Err ("Failed to create design document: " +:+ err)).
Proof.
  split.
  - intros c name d s jsonDoc resp. apply CreateDesignDocument_any_status.
  - intros couchDBPort dbName ip s s1 msg s2 jsonDoc resp.
    apply main_instance_after_install.
Qed.

Lemma CreateDesignDocument_ignores_status_witness :
  @CreateDesignDocument example_world example_client "rev_filter" designDoc
    empty_state
  = (Ok "{error:bad_request}",
     {| heap := ∅; wire := [@design_put example_client "rev_filter" "{}"] |})
  /\ (@main_instance example_world "5984" "doc1" "10.0.0.5" empty_state).1 = Ok tt
  /\ exists before after,
       wire (@main_instance example_world "5984" "doc1" "10.0.0.5" empty_state).2
       = before
           ++ [@design_put (NewCouchDBClient "http://10.0.0.5:5984" "doc1")
                 "rev_filter" "{}";
               @view_query (NewCouchDBClient "http://10.0.0.5:5984" "doc1")
                 "rev_filter"]
           ++ after.
Proof.
  destruct (@CreateDesignDocument_ignores_status example_world) as [Hany Hflow].
  split; [|split].
  - apply (Hany example_client "rev_filter" designDoc empty_state "{}"
             {| StatusCode := 400; Body := "{error:bad_request}"; BodyErr := None |});
      vm_compute; reflexivity.
  - vm_compute. reflexivity.
  - set (client := NewCouchDBClient "http://10.0.0.5:5984" "doc1").
    set (run := @ResetDocument example_world client "doc1" empty_state).
    set (chk := @CheckAndDeleteDesignDocument example_world client "rev_filter" run.2).
    destruct (Hflow "5984" "doc1" "10.0.0.5" empty_state run.2
                "Existing design document deleted" chk.2 "{}"
                {| StatusCode := 400; Body := "{error:bad_request}";
                   BodyErr := None |}) as [Hpre _];
      try (vm_compute; reflexivity).
    destruct Hpre as [after Hwire]. exists (wire chk.2), after.
    rewrite Hwire. by rewrite <- app_assoc.
Defined.

(** ** The view *)

Example parseInt_examples :
  parseInt "100001" = Some 100001 /\ parseInt "  +42abc" = Some 42
  /\ parseInt "0x1F" = Some 31 /\ parseInt "" = None /\ parseInt "abc" = None.
Proof. vm_compute. by repeat split. Qed.

Lemma in_high_rev_gen_iff doc :
  in_high_rev_gen doc <-> exists n, generation doc = Some n /\ 100000 < n.
Proof.
  unfold in_high_rev_gen, high_rev_gen_map, generation, js_gt.
  destruct (doc !! "_rev") as [[| | |rev| |]|]; try (split; intros (? & ? & ?); done).
  destruct (parseInt (generation_text rev)) as [n|].
  - destruct (100000 <? n) eqn:E.
    + apply Z.ltb_lt in E. split; [by exists n|by eexists _, _].
    + apply Z.ltb_ge in E. split; [by intros (? & ? & ?)|].
      intros (m & [= <-] & ?). lia.
  - split; [by intros (? & ? & ?)|by intros (? & ? & ?)].
Qed.

(** C7, as the specification words it, fails: the document at revision
    [100001-abc] is in the view, and the row emitted for it carries the
    document, not a number. *)
Lemma high_rev_gen_value_is_not_generation :
  in_high_rev_gen doc_100001 /\ ~ emits_generation doc_100001.
Proof.
  split.
  - apply in_high_rev_gen_iff. exists 100001. by vm_compute.
  - intros (key & x & Hrow). vm_compute in Hrow. discriminate.
Qed.

(** C7, amended. The design document [main] installs defines one view,
    [high_rev_gen]. A document is in that view exactly when the integer
    generation prefix of its current revision id strictly exceeds 100000,
    and the single row emitted for it has the document's id as key and the
    whole document as value. The document at [100001-abc] is in the view,
    the one at [100000-xyz] is not. *)
Theorem high_rev_gen_view (doc : gmap string JSON) :
  designDoc
  = {[ "views" := JObject
         {[ "high_rev_gen" := JObject {[ "map" := JString high_rev_gen_src ]} ]} ]}
  /\ (in_high_rev_gen doc <-> exists n, generation doc = Some n /\ 100000 < n)
  /\ (in_high_rev_gen doc ->
      high_rev_gen_map doc = Some [(doc !! "_id", JObject doc)])
  /\ in_high_rev_gen doc_100001
  /\ ~ in_high_rev_gen doc_100000.
Proof.
  split; [done|]. split; [apply in_high_rev_gen_iff|]. split; [|split].
  - unfold in_high_rev_gen, high_rev_gen_map.
    destruct (doc !! "_rev") as [[| | |rev| |]|]; try by intros (? & ? & ?).
    destruct (js_gt _ _); [done|by intros (? & ? & ?)].
  - apply in_high_rev_gen_iff. exists 100001. by vm_compute.
  - rewrite in_high_rev_gen_iff. intros (n & Hn & Hlt).
    vm_compute in Hn. injection Hn as <-. lia.
Qed.

Lemma high_rev_gen_view_witness :
  high_rev_gen_map doc_100001 = Some [(Some (JString "a"), JObject doc_100001)].
Proof.
  destruct (high_rev_gen_view doc_100001) as (_ & _ & Hrow & Hin & _).
  exact (Hrow Hin).
Defined.

Import Network NetworkMore.

(** * More about the network package *)

(** ** inc on a slice of any length *)

Lemma Z_of_addr_snoc l b : Z_of_addr (l ++ [b]) = Z_of_addr l * 256 + b.
Proof. unfold Z_of_addr. by rewrite fold_left_app. Qed.

Lemma Z_of_addr_bound l :
  bytes_ok l -> 0 <= Z_of_addr l < 256 ^ Z.of_nat (length l).
Proof.
  induction l as [|b l IH] using rev_ind; intros Hl; [done|].
  apply Forall_app in Hl as [Hl Hb]. apply Forall_inv in Hb.
  rewrite Z_of_addr_snoc, length_app, Nat2Z.inj_add. cbn [length].
  rewrite Z.pow_add_r by lia. change (256 ^ Z.of_nat 1) with 256.
  specialize (IH Hl). nia.
Qed.

Lemma inc_loop_spec r :
  bytes_ok (rev r) ->
  bytes_ok (rev (inc_loop r))
  /\ length (inc_loop r) = length r
  /\ Z_of_addr (rev (inc_loop r))
     = (Z_of_addr (rev r) + 1) mod 256 ^ Z.of_nat (length r).
Proof.
  induction r as [|b r IH]; intros Hr; [done|].
  cbn [rev] in Hr. apply Forall_app in Hr as [Hr Hb].
  apply Forall_inv in Hb. specialize (IH Hr) as (IHb & IHl & IHv).
  pose proof (Z_of_addr_bound _ Hr) as Hbound. rewrite length_rev in Hbound.
  assert (0 < 256 ^ Z.of_nat (length r)) as Hpos by (apply Z.pow_pos_nonneg; lia).
  cbn [inc_loop rev length]. rewrite Z_of_addr_snoc, Nat2Z.inj_succ, Z.pow_succ_r by lia.
  destruct (0 <? (b + 1) mod 256) eqn:E; cbn [rev length].
  - apply Z.ltb_lt in E.
    assert (b < 255) as Hlt.
    { destruct (decide (b = 255)) as [->|]; [done|lia]. }
    rewrite (Z.mod_small (b + 1)) by lia.
    split; [|split; [done|]].
    + apply Forall_app. split; [done|]. apply Forall_singleton. lia.
    + rewrite Z_of_addr_snoc. rewrite Z.mod_small; lia.
  - apply Z.ltb_ge in E.
    assert (b = 255) as ->.
    { destruct (decide (b = 255)) as [->|]; [done|].
      rewrite Z.mod_small in E; lia. }
    change ((255 + 1) mod 256) with 0.
    split; [|split; [by rewrite IHl|]].
    + apply Forall_app. split; [done|]. by apply Forall_singleton.
    + rewrite Z_of_addr_snoc, IHv, Z.add_0_r.
      replace (Z_of_addr (rev r) * 256 + 255 + 1)
        with (256 * (Z_of_addr (rev r) + 1)) by lia.
      rewrite Z.mul_mod_distr_l by lia. lia.
Qed.

(** X1. On a slice of bytes of any length, [inc] adds one to the number
    the slice spells most significant byte first, modulo 256 to the
    length: the carry runs from the last byte towards the first and the
    all-ones address wraps to zero. The slice keeps its length and its
    elements stay bytes. *)
Theorem inc_is_successor (ip : IP) :
  bytes_ok ip ->
  Z_of_addr (inc ip) = (Z_of_addr ip + 1) mod 256 ^ Z.of_nat (length ip)
  /\ length (inc ip) = length ip
  /\ bytes_ok (inc ip).
Proof.
  intros Hip. unfold inc.
  destruct (inc_loop_spec (rev ip)) as (Hb & Hl & Hv); [by rewrite rev_involutive|].
  rewrite rev_involutive, length_rev in Hv. rewrite length_rev in Hl.
  by rewrite length_rev, Hl.
Qed.

Lemma inc_is_successor_witness :
  Z_of_addr (inc [255; 255; 255; 255]) = 0
  /\ inc [10; 0; 255; 255] = [10; 1; 0; 0].
Proof.
  destruct (inc_is_successor [255; 255; 255; 255]) as (Hv & _ & _).
  - unfold bytes_ok. repeat constructor; lia.
  - split; [exact Hv|reflexivity].
Defined.

(** ** The text of an address reads back as the address *)

Lemma ubtoa_table_ok : ubtoa_table = true.
Proof. vm_compute. reflexivity. Qed.

Lemma ubtoa_facts b :
  0 <= b < 256 -> no_dot (ubtoa b) = true /\ parse_octet (ubtoa b) = Some b.
Proof.
  intros Hb. pose proof ubtoa_table_ok as H. unfold ubtoa_table in H.
  rewrite forallb_forall in H. specialize (H b).
  rewrite andb_true_iff, bool_decide_eq_true in H.
  apply H, list_elem_of_In, elem_of_seqZ. lia.
Qed.

Lemma split_on_no_dot s : no_dot s = true -> split_on "." s = [s].
Proof.
  induction s as [|c s IH]; [done|]. cbn [no_dot split_on].
  intros [Hc Hs]%andb_true_iff. apply negb_true_iff in Hc. rewrite Hc.
  by rewrite IH.
Qed.

Lemma split_on_dot s t :
  no_dot s = true -> split_on "." (s +:+ String "." t) = s :: split_on "." t.
Proof.
  induction s as [|c s IH]; [done|]. cbn [no_dot].
  intros [Hc Hs]%andb_true_iff. apply negb_true_iff in Hc.
  simpl. rewrite Hc. by rewrite IH.
Qed.

Lemma parseIPv4_IP_String `{IPv6Text} a b c d :
  0 <= a < 256 -> 0 <= b < 256 -> 0 <= c < 256 -> 0 <= d < 256 ->
  parseIPv4 (IP_String [a; b; c; d]) = Some [a; b; c; d].
Proof.
  intros Ha Hb Hc Hd.
  destruct (ubtoa_facts a Ha) as [Na Pa]. destruct (ubtoa_facts b Hb) as [Nb Pb].
  destruct (ubtoa_facts c Hc) as [Nc Pc]. destruct (ubtoa_facts d Hd) as [Nd Pd].
  unfold IP_String, parseIPv4. rewrite (To4_len4 [a; b; c; d] eq_refl).
  assert (forall x, "." +:+ x = String "." x) as Hdot by done.
  rewrite !Hdot, !split_on_dot, split_on_no_dot by done.
  by rewrite Pa, Pb, Pc, Pd.
Qed.

Lemma addr_of_Z_bytes n :
  0 <= n < 2 ^ 32 ->
  exists a b c d, addr_of_Z n = [a; b; c; d]
    /\ 0 <= a < 256 /\ 0 <= b < 256 /\ 0 <= c < 256 /\ 0 <= d < 256.
Proof.
  intros Hn. unfold addr_of_Z. do 4 eexists. split; [done|].
  repeat split; try (apply Z.mod_pos_bound; lia).
Qed.

Lemma parseIPv4_addr_of_Z `{IPv6Text} n :
  0 <= n < 2 ^ 32 -> parseIPv4 (IP_String (addr_of_Z n)) = Some (addr_of_Z n).
Proof.
  intros Hn. destruct (addr_of_Z_bytes n Hn) as (a & b & c & d & -> & ? & ? & ? & ?).
  by apply parseIPv4_IP_String.
Qed.

Lemma IP_String_addr_inj `{IPv6Text} n m :
  0 <= n < 2 ^ 32 -> 0 <= m < 2 ^ 32 ->
  IP_String (addr_of_Z n) = IP_String (addr_of_Z m) -> n = m.
Proof.
  intros Hn Hm E. apply addr_of_Z_inj; [done..|].
  pose proof (parseIPv4_addr_of_Z n Hn) as Pn. rewrite E in Pn.
  rewrite parseIPv4_addr_of_Z in Pn by done. congruence.
Qed.

(** ** What Hosts returns *)

Lemma host_numbers_range A p i :
  0 <= A < 2 ^ 32 -> 1 <= p <= 32 -> i ∈ host_numbers A p ->
  network_of A p < i < broadcast_of A p /\ 0 <= i < 2 ^ 32.
Proof.
  intros HA Hp Hi. unfold host_numbers in Hi. apply elem_of_seqZ in Hi.
  destruct (block_fits A p HA ltac:(lia)) as (Hn & Hfit & _).
  unfold broadcast_of. lia.
Qed.

Lemma Hosts_on_block `{IPv6Text} cidr A p fuel :
  cidr_fields cidr = Some (A, p) -> 1 <= p <= 31 ->
  (Z.to_nat (2 ^ (32 - p)) < fuel)%nat ->
  Hosts fuel cidr = Some (Ok (IP_String ∘ addr_of_Z <$> host_numbers A p)).
Proof.
  intros Hc Hp Hfuel. destruct (decide (p = 31)) as [->|].
  - rewrite (Hosts_prefix31 cidr A); [done..|].
    change (Z.to_nat (2 ^ (32 - 31))) with 2%nat in Hfuel. lia.
  - apply Hosts_block; [done|lia|done].
Qed.

Lemma Hosts_Ok_inv `{IPv6Text} cidr A p fuel ips :
  cidr_fields cidr = Some (A, p) ->
  Hosts fuel cidr = Some (Ok ips) ->
  1 <= p <= 31 /\ ips = (IP_String ∘ addr_of_Z <$> host_numbers A p).
Proof.
  intros Hc Hh.
  destruct (cidr_fields_range _ _ _ Hc) as [HA Hp].
  destruct (decide (p = 0)) as [->|].
  { by rewrite (Hosts_prefix0 cidr A) in Hh. }
  destruct (decide (p = 32)) as [->|].
  { destruct fuel as [|[|fuel]].
    - revert Hh. unfold Hosts. by destruct (ParseCIDR cidr) as [|[]].
    - revert Hh. unfold Hosts. rewrite (cidr_fields_ParseCIDR _ _ _ Hc).
      cbn [Hosts_loop]. destruct (Contains _ _); [done|]. by cbn.
    - rewrite (Hosts_prefix32 cidr A) in Hh; [done..|lia]. }
  split; [lia|].
  assert (1 <= p <= 31) as Hp' by lia.
  assert (Z.to_nat (2 ^ (32 - p)) < S (fuel + Z.to_nat (2 ^ (32 - p))))%nat
    as Hfuel by lia.
  pose proof (Hosts_on_block cidr A p _ Hc Hp' Hfuel) as Hbig.
  rewrite (Hosts_fuel_mono fuel (S (fuel + Z.to_nat (2 ^ (32 - p)))) cidr (Ok ips))
    in Hbig; [congruence|lia|done].
Qed.

(** X2. For every IPv4 block of prefix length 1 to 31, given fuel for one
    pass over the block, [Hosts] returns the addresses strictly between
    the network address and the broadcast address, in ascending order,
    2^(32-p) - 2 of them; for a /31 that is the empty slice. *)
Theorem Hosts_enumerates_block `{IPv6Text} (cidr : string) (A p : Z) (fuel : nat) :
  cidr_fields cidr = Some (A, p) -> 1 <= p <= 31 ->
  (Z.to_nat (2 ^ (32 - p)) < fuel)%nat ->
  Hosts fuel cidr = Some (Ok (IP_String ∘ addr_of_Z <$> host_numbers A p))
  /\ Z.of_nat (length (host_numbers A p)) = 2 ^ (32 - p) - 2.
Proof.
  intros Hc Hp Hfuel. split; [by apply Hosts_on_block|].
  unfold host_numbers. rewrite length_seqZ, Z2Nat.id; [done|].
  assert (2 ^ 1 <= 2 ^ (32 - p)); [apply Z.pow_le_mono_r|]; lia.
Qed.

Lemma Hosts_enumerates_block_witness :
  @Hosts example_text 10 "192.168.1.0/30"
  = Some (Ok (@IP_String example_text ∘ addr_of_Z
                <$> host_numbers (Z_of_addr [192; 168; 1; 0]) 30))
  /\ Z.of_nat (length (host_numbers (Z_of_addr [192; 168; 1; 0]) 30)) = 2.
Proof.
  apply (@Hosts_enumerates_block example_text
           "192.168.1.0/30" (Z_of_addr [192; 168; 1; 0]) 30 10).
  - vm_compute. reflexivity.
  - lia.
  - apply Nat.ltb_lt. vm_compute. reflexivity.
Defined.

Lemma Hosts_Ok_facts `{IPv6Text} (cidr : string) (A p : Z) (fuel : nat)
    (ips : list string) :
  cidr_fields cidr = Some (A, p) ->
  Hosts fuel cidr = Some (Ok ips) ->
  1 <= p <= 31
  /\ ips = (IP_String ∘ addr_of_Z <$> host_numbers A p)
  /\ NoDup ips
  /\ (forall host, host ∈ ips ->
        exists i, host = IP_String (addr_of_Z i)
                  /\ parseIPv4 host = Some (addr_of_Z i)
                  /\ network_of A p < i < broadcast_of A p)
  /\ (IP_String (addr_of_Z (network_of A p)) ∉ ips)
  /\ (IP_String (addr_of_Z (broadcast_of A p)) ∉ ips).
Proof.
  intros Hc Hh. destruct (Hosts_Ok_inv _ _ _ _ _ Hc Hh) as (Hp & ->).
  destruct (cidr_fields_range _ _ _ Hc) as [HA _].
  destruct (block_fits A p HA ltac:(lia)) as (Hn & Hfit & _).
  assert (0 < 2 ^ (32 - p)) as HK by (apply Z.pow_pos_nonneg; lia).
  assert (forall i, i ∈ host_numbers A p ->
            network_of A p < i < broadcast_of A p /\ 0 <= i < 2 ^ 32) as Hrange.
  { intros i. apply host_numbers_range; [done|lia]. }
  split; [done|]. split; [done|].
  split; [|split; [|split]].
  - apply NoDup_fmap_2_strong; [|apply NoDup_seqZ].
    intros i j Hi Hj. apply IP_String_addr_inj; by apply Hrange.
  - intros host (i & -> & Hi)%list_elem_of_fmap. exists i.
    destruct (Hrange i Hi). split; [done|]. split; [|done].
    by apply parseIPv4_addr_of_Z.
  - intros (i & E & Hi)%list_elem_of_fmap. destruct (Hrange i Hi).
    apply IP_String_addr_inj in E; [lia|lia|done].
  - intros (i & E & Hi)%list_elem_of_fmap. destruct (Hrange i Hi).
    unfold broadcast_of in *. apply IP_String_addr_inj in E; [lia|lia|done].
Qed.

(** X3. Whenever [Hosts] returns a slice on the text of an IPv4 block, the
    prefix length is 1 to 31 and the slice is exactly the texts of the
    block's host addresses in ascending order: no address occurs twice,
    every entry reads back as its address, each lies strictly between the
    network address and the broadcast address, and neither of these two
    is in the slice. (IPv6 text is not covered: [cidr_fields] reads IPv4
    text only.) *)
Theorem Hosts_returns_only_hosts `{IPv6Text} (cidr : string) (A p : Z)
    (fuel : nat) (ips : list string) :
  cidr_fields cidr = Some (A, p) ->
  Hosts fuel cidr = Some (Ok ips) ->
  1 <= p <= 31
  /\ ips = (IP_String ∘ addr_of_Z <$> host_numbers A p)
  /\ NoDup ips
  /\ (forall host, host ∈ ips ->
        exists i, host = IP_String (addr_of_Z i)
                  /\ parseIPv4 host = Some (addr_of_Z i)
                  /\ network_of A p < i < broadcast_of A p)
  /\ (IP_String (addr_of_Z (network_of A p)) ∉ ips)
  /\ (IP_String (addr_of_Z (broadcast_of A p)) ∉ ips).
Proof. apply Hosts_Ok_facts. Qed.

Lemma Hosts_returns_only_hosts_witness :
  1 <= 30 <= 31
  /\ NoDup ["192.168.1.1"; "192.168.1.2"]
  /\ ("192.168.1.0" ∉ ["192.168.1.1"; "192.168.1.2"])
  /\ ("192.168.1.3" ∉ ["192.168.1.1"; "192.168.1.2"]).
Proof.
  destruct (@Hosts_returns_only_hosts example_text "192.168.1.0/30"
              (Z_of_addr [192; 168; 1; 0]) 30 10
              ["192.168.1.1"; "192.168.1.2"])
    as (Hp & _ & Hnd & _ & Hnet & Hbc).
  - vm_compute. reflexivity.
  - vm_compute. reflexivity.
  - split; [exact Hp|]. split; [exact Hnd|]. split; [exact Hnet|exact Hbc].
Defined.

(** ** What a scan reports *)

Lemma ScanNetwork_found `{IPv6Text} probe port fuel cidr found :
  ScanNetwork probe port fuel cidr found ->
  exists ips, Hosts fuel cidr = Some (Ok ips)
              /\ found ≡ₚ reachable_hosts probe port ips.
Proof.
  intros [ips st Hh Hrun Hfin]. exists ips. split; [done|].
  eapply scan_inv_finished; [|done]. by apply scan_inv_rtc.
Qed.

(** X4. Whatever the schedule, a slice [ScanNetwork] returns for the text
    of an IPv4 block holds no host twice, holds only hosts for which the
    probe answered true, and each of them is an address strictly between
    the network address and the broadcast address of the block: the two
    ends of the block are never reported. (IPv6 text is not covered.) *)
Theorem ScanNetwork_reports_only_hosts `{IPv6Text}
    (isCouchDBRunning : string -> string -> bool) (couchDBPort : string)
    (fuel : nat) (cidr : string) (A p : Z) (found : list string) :
  cidr_fields cidr = Some (A, p) ->
  ScanNetwork isCouchDBRunning couchDBPort fuel cidr found ->
  NoDup found
  /\ (forall host, host ∈ found ->
        isCouchDBRunning host couchDBPort = true
        /\ exists i, host = IP_String (addr_of_Z i)
                     /\ network_of A p < i < broadcast_of A p)
  /\ (IP_String (addr_of_Z (network_of A p)) ∉ found)
  /\ (IP_String (addr_of_Z (broadcast_of A p)) ∉ found).
Proof.
  intros Hc (ips & Hh & Hperm)%ScanNetwork_found.
  destruct (Hosts_Ok_facts _ _ _ _ _ Hc Hh)
    as (Hp & _ & Hnd & Hin & Hnet & Hbc).
  assert (forall host, host ∈ found ->
            host ∈ ips /\ isCouchDBRunning host couchDBPort = true) as Hsub.
  { intros host Hhost. rewrite Hperm in Hhost.
    apply list_elem_of_In, List.filter_In in Hhost as [Hhost Hup].
    by apply list_elem_of_In in Hhost. }
  split; [|split; [|split]].
  - rewrite Hperm. unfold reachable_hosts.
    apply NoDup_ListNoDup, List.NoDup_filter. by apply NoDup_ListNoDup.
  - intros host Hhost. destruct (Hsub host Hhost) as [Hips Hup].
    split; [done|]. destruct (Hin host Hips) as (i & -> & _ & Hi). by exists i.
  - intros Hhost. by destruct (Hsub _ Hhost).
  - intros Hhost. by destruct (Hsub _ Hhost).
Qed.

Lemma ScanNetwork_reports_only_hosts_witness :
  NoDup ["192.168.1.2"; "192.168.1.1"]
  /\ ("192.168.1.0" ∉ ["192.168.1.2"; "192.168.1.1"])
  /\ ("192.168.1.3" ∉ ["192.168.1.2"; "192.168.1.1"]).
Proof.
  destruct (@ScanNetwork_reports_only_hosts example_text (fun _ _ => true) "5984" 10
              "192.168.1.0/30" (Z_of_addr [192; 168; 1; 0]) 30
              ["192.168.1.2"; "192.168.1.1"])
    as (Hnd & _ & Hnet & Hbc).
  - vm_compute. reflexivity.
  - exact (proj2 (@ScanNetwork_both_orders example_text)).
  - split; [exact Hnd|]. split; [exact Hnet|exact Hbc].
Defined.

(** X5. In every state a scan can reach, at most one goroutine is between
    [mu.Lock()] and [mu.Unlock()], and the mutex is held exactly when one
    is; and no step of any goroutine loses a stored host: the slice after
    a step extends the slice before it. *)
Theorem scan_writes_are_exclusive
    (isCouchDBRunning : string -> string -> bool) (couchDBPort : string)
    (ips : list string) (st : scan_state) :
  rtc (scan_step isCouchDBRunning couchDBPort) (scan_init ips) st ->
  (holders (goroutines st) <= 1)%nat
  /\ (mu st = true <-> holders (goroutines st) = 1%nat)
  /\ (forall st',
        scan_step isCouchDBRunning couchDBPort st st' ->
        foundIPs st `prefix_of` foundIPs st').
Proof.
  intros Hrun. apply scan_inv_rtc in Hrun as (_ & Hmu & Hseen).
  split; [|split].
  - rewrite Hmu. by destruct (mu st); lia.
  - rewrite Hmu. by destruct (mu st).
  - intros st' Hstep. destruct Hstep; cbn [foundIPs goroutines] in *; try done.
    assert (seen = found) as -> by (apply (Hseen ip); set_solver).
    by apply prefix_app_r.
Qed.

Lemma scan_writes_are_exclusive_witness :
  rtc (scan_step (fun _ _ => true) "5984")
    (scan_init ["192.168.1.1"; "192.168.1.2"]) scan_second_store
  /\ holders (goroutines scan_second_store) = 1%nat
  /\ mu scan_second_store = true
  /\ foundIPs scan_second_store = ["192.168.1.1"]
  /\ scan_step (fun _ _ => true) "5984" scan_second_store scan_second_stored
  /\ foundIPs scan_second_store `prefix_of` foundIPs scan_second_stored.
Proof.
  set (a := "192.168.1.1"). set (b := "192.168.1.2").
  assert (rtc (scan_step (fun _ _ => true) "5984") (scan_init [a; b])
            scan_second_store) as Hrun.
  { unfold scan_init, scan_second_store. fold a b.
    eapply rtc_l; [apply step_spawn|]. eapply rtc_l; [apply step_spawn|].
    cbn [app].
    eapply rtc_l; [apply (step_probe _ _ a [] [] [(b, Spawned)])|]. cbn [app].
    eapply rtc_l; [apply (step_probe _ _ b [] [(a, WantLock)] [])|]. cbn [app].
    eapply rtc_l; [apply (step_lock _ _ a [] [] [(b, WantLock)])|]. cbn [app].
    eapply rtc_l; [apply (step_read _ _ a [] [] [(b, WantLock)])|]. cbn [app].
    eapply rtc_l; [apply (step_write _ _ a [] [] [] [(b, WantLock)])|]. cbn [app].
    eapply rtc_l; [apply (step_unlock _ _ a [] [] [(b, WantLock)])|]. cbn [app].
    eapply rtc_l; [apply (step_lock _ _ b [] [(a, Done)] [])|]. cbn [app].
    eapply rtc_l; [apply (step_read _ _ b [] [(a, Done)] [])|]. cbn [app].
    apply rtc_refl. }
  assert (scan_step (fun _ _ => true) "5984" scan_second_store scan_second_stored)
    as Hstep.
  { apply (step_write _ _ b [a] [] [(a, Done)] []). }
  destruct (scan_writes_are_exclusive (fun _ _ => true) "5984" [a; b]
              scan_second_store Hrun) as (_ & Hmu & Hkeep).
  split; [exact Hrun|]. split; [exact (proj1 Hmu eq_refl)|].
  split; [reflexivity|]. split; [reflexivity|].
  split; [exact Hstep|exact (Hkeep scan_second_stored Hstep)].
Defined.

Import CouchDB CouchDBMore Main.

(** * More about the couchdb package *)

Lemma has_prefix_same_head a b c : has_prefix (a +:+ b) (a +:+ c) = has_prefix b c.
Proof.
  induction a as [|x a IH]; [done|]. simpl. by rewrite Ascii.eqb_refl.
Qed.

Lemma has_prefix_app_r p : forall x y,
  has_prefix p x = true -> has_prefix p (x +:+ y) = true.
Proof.
  induction p as [|a p IH]; intros x y; [done|].
  destruct x as [|b x]; [done|]. simpl.
  destruct (Ascii.eqb a b); [apply IH|done].
Qed.

Lemma doc_url_in_database c id :
  has_prefix (BaseURL c +:+ "/" +:+ DBName c +:+ "/") (doc_url c id) = true.
Proof.
  unfold doc_url. rewrite has_prefix_same_head.
  change (has_prefix (DBName c +:+ "/") (DBName c +:+ "/" +:+ id) = true).
  by rewrite has_prefix_same_head.
Qed.

Lemma design_url_in_database c name :
  has_prefix (BaseURL c +:+ "/" +:+ DBName c +:+ "/") (design_url c name) = true.
Proof.
  unfold design_url. rewrite has_prefix_same_head.
  change (has_prefix (DBName c +:+ "/") (DBName c +:+ "/_design/" +:+ name) = true).
  by rewrite has_prefix_same_head.
Qed.

Lemma compact_url_in_database c : in_database c (compact_post c).
Proof.
  unfold in_database, compact_post. cbn [URL]. rewrite has_prefix_same_head.
  change (has_prefix (DBName c +:+ "/") (DBName c +:+ "/_compact") = true).
  by rewrite has_prefix_same_head.
Qed.

Lemma requests_in_database c :
  (forall id, in_database c (get_document c id))
  /\ (forall id, in_database c (get_revisions c id))
  /\ (forall id rev, in_database c (revision_delete c id rev))
  /\ (forall id, in_database c (document_delete c id))
  /\ (forall id j, in_database c (document_put c id j))
  /\ (forall name j, in_database c (design_put c name j))
  /\ (forall name, in_database c (view_query c name))
  /\ (forall name, in_database c (design_get c name))
  /\ (forall name rev, in_database c (design_delete c name rev)).
Proof.
  unfold in_database. repeat split; intros; cbn [URL];
    first [ apply doc_url_in_database
          | apply design_url_in_database
          | apply has_prefix_app_r;
            first [apply doc_url_in_database | apply design_url_in_database] ].
Qed.

Section SendFacts.
Context `{World}.

Lemma if_url_ok_in_database c req :
in_database c req -> Forall (in_database c) (if_url_ok req).
Proof.
intros Hreq. unfold if_url_ok. destruct (url_Parse_error _); by repeat constructor.
Qed.

Lemma delete_calls_in_database c calls :
Forall (in_database c) (delete_calls c calls).
Proof.
induction calls as [|[d r] calls IH]; [constructor|].
rewrite delete_calls_cons. apply Forall_app. split; [|done].
apply if_url_ok_in_database, requests_in_database.
Qed.

Lemma only_sends_refl c s : only_sends c s s.
Proof. exists []. by rewrite app_nil_r. Qed.

Lemma only_sends_trans c s1 s2 s3 :
only_sends c s1 s2 -> only_sends c s2 s3 -> only_sends c s1 s3.
Proof.
intros (r1 & E1 & F1) (r2 & E2 & F2). exists (r1 ++ r2).
rewrite E2, E1, app_assoc. split; [done|]. by apply Forall_app.
Qed.

Lemma only_sends_sent c s reqs :
Forall (in_database c) reqs -> only_sends c s (sent s reqs).
Proof. intros Hr. by exists reqs. Qed.

(** ** The state each call leaves *)

Lemma CompactDatabase_state c s :
(CompactDatabase c s).2 = sent s (if_url_ok (compact_post c)).
Proof.
unfold CompactDatabase, NewRequest, if_url_ok, compact_post, Do. cbn [URL].
destruct (url_Parse_error _); cbn [snd]; [by rewrite sent_nil|].
rewrite Header_Set_fresh. repeat case_match; done.
Qed.

Lemma CompactDatabase_Ok c s body s' :
CompactDatabase c s = (Ok body, s') -> s' = sent s [compact_post c].
Proof.
intros Hc. pose proof (CompactDatabase_state c s) as Hs.
rewrite Hc in Hs. cbn [snd] in Hs. subst s'. f_equal. apply if_url_ok_None.
revert Hc. unfold CompactDatabase, NewRequest, compact_post. cbn [URL].
by destruct (url_Parse_error _).
Qed.

Lemma QueryDesignDocument_sends c name s :
(QueryDesignDocument c name s).2 = sent s (if_url_ok (view_query c name)).
Proof.
unfold QueryDesignDocument.
pose proof (http_Get_state (design_url c name +:+ "/_view/high_rev_gen") s) as Hs.
fold (view_query c name) in Hs.
destruct (http_Get _ s) as [[e|resp] s1]; cbn [snd] in Hs; subst s1;
  repeat case_match; done.
Qed.

Lemma QueryDesignDocument_Ok c name s body s' :
QueryDesignDocument c name s = (Ok body, s') -> s' = sent s [view_query c name].
Proof.
intros Hq. pose proof (QueryDesignDocument_sends c name s) as Hs.
rewrite Hq in Hs. cbn [snd] in Hs. subst s'. f_equal. apply if_url_ok_None.
revert Hq. unfold QueryDesignDocument.
destruct (http_Get _ s) as [[e|resp] s1] eqn:Hget; [done|].
intros _. by eapply http_Get_inr.
Qed.

Lemma CreateDesignDocument_state c name designDoc s :
(CreateDesignDocument c name designDoc s).2 = s
\/ exists jsonDoc,
     json_Marshal designDoc = inr jsonDoc
     /\ (CreateDesignDocument c name designDoc s).2
        = sent s [design_put c name jsonDoc].
Proof.
unfold CreateDesignDocument, NewRequest, Do.
destruct (json_Marshal designDoc) as [e|jsonDoc]; [by left|].
destruct (url_Parse_error _); [by left|]. right. exists jsonDoc.
rewrite Header_Set_fresh. fold (design_put c name jsonDoc).
split; [done|]. repeat case_match; done.
Qed.

Lemma CreateDesignDocument_Ok c name designDoc s body s' :
CreateDesignDocument c name designDoc s = (Ok body, s') ->
exists jsonDoc,
  json_Marshal designDoc = inr jsonDoc /\ s' = sent s [design_put c name jsonDoc].
Proof.
intros Hc. revert Hc. unfold CreateDesignDocument, NewRequest, Do.
destruct (json_Marshal designDoc) as [e|jsonDoc]; [done|].
destruct (url_Parse_error _); [done|].
rewrite Header_Set_fresh. fold (design_put c name jsonDoc).
intros Hc. exists jsonDoc. split; [done|].
repeat case_match; by simplify_eq.
Qed.

Lemma CheckAndDeleteDesignDocument_state c name s :
(CheckAndDeleteDesignDocument c name s).2 = sent s (if_url_ok (design_get c name))
\/ exists rev,
     (CheckAndDeleteDesignDocument c name s).2
     = sent s [design_get c name; design_delete c name rev].
Proof.
unfold CheckAndDeleteDesignDocument.
pose proof (http_Get_state (design_url c name) s) as Hs.
fold (design_get c name) in Hs.
destruct (http_Get _ s) as [[e|resp] s1] eqn:Hget; cbn [snd] in Hs; subst s1;
  [by left|].
destruct (StatusCode resp =? StatusNotFound); [by left|].
destruct (negb (StatusCode resp =? StatusOK)); [by left|].
destruct (Decode_rev resp) as [e|rev]; [by left|].
unfold NewRequest. destruct (url_Parse_error (_ +:+ "?rev=" +:+ rev)); [by left|].
right. exists rev. fold (design_delete c name rev). unfold Do.
rewrite if_url_ok_None by by eapply http_Get_inr.
repeat case_match; simplify_eq; cbn [snd]; by rewrite sent_app.
Qed.

Lemma CheckAndDeleteDesignDocument_Ok c name s msg s' :
CheckAndDeleteDesignDocument c name s = (Ok msg, s') ->
s' = sent s [design_get c name]
\/ exists rev, s' = sent s [design_get c name; design_delete c name rev].
Proof.
intros Hc. destruct (CheckAndDeleteDesignDocument_state c name s) as [Hs|[rev Hs]];
  rewrite Hc in Hs; cbn [snd] in Hs; subst s'; [left|right; by exists rev].
f_equal. apply if_url_ok_None. revert Hc. unfold CheckAndDeleteDesignDocument.
destruct (http_Get _ s) as [[e|resp] s1] eqn:Hget; [done|].
intros _. by eapply http_Get_inr.
Qed.

Lemma delete_each_state c calls : forall s,
exists pre post,
  calls = pre ++ post
  /\ (delete_each c calls s).2 = sent s (delete_calls c pre)
  /\ ((delete_each c calls s).1 = Ok tt -> post = []).
Proof.
induction calls as [|[d r] rest IH]; intros s.
- exists [], []. cbn. by rewrite sent_nil.
- cbn [delete_each].
  pose proof (DeleteDocumentRevision_state c d r s) as Hs.
  destruct (DeleteDocumentRevision c d r s) as [[msg|err|msg] s1];
    cbn [snd] in Hs; subst s1.
  + destruct (IH (sent s (if_url_ok (revision_delete c d r))))
      as (pre & post & -> & Hst & Hok).
    exists ((d, r) :: pre), post. by rewrite delete_calls_cons, <- sent_app.
  + exists [(d, r)], rest. cbn [fst snd].
    rewrite delete_calls_cons. cbn [delete_calls flat_map]. by rewrite app_nil_r.
  + exists [(d, r)], rest. cbn [fst snd].
    rewrite delete_calls_cons. cbn [delete_calls flat_map]. by rewrite app_nil_r.
Qed.

Lemma HandleQueryResponse_state c q s :
exists calls, (HandleQueryResponse c q s).2 = sent s (delete_calls c calls).
Proof.
unfold HandleQueryResponse. destruct (Unmarshal_QueryResponse q) as [e|response].
- exists []. cbn. by rewrite sent_nil.
- rewrite handle_rows_each.
  destruct (delete_each_state c (conflict_calls
              {| TotalRows := 0; Offset := 0; Rows := Rows response |}) s)
    as (pre & post & _ & Hs & _). by exists pre.
Qed.

Lemma HandleQueryResponse_Ok c q s s' :
HandleQueryResponse c q s = (Ok tt, s') ->
exists response,
  Unmarshal_QueryResponse q = inr response
  /\ s' = sent s (delete_calls c (conflict_calls response)).
Proof.
unfold HandleQueryResponse. destruct (Unmarshal_QueryResponse q) as [e|response];
  [done|].
rewrite handle_rows_each. intros Hh. exists response. split; [done|].
destruct (delete_each_state c (conflict_calls
            {| TotalRows := 0; Offset := 0; Rows := Rows response |}) s)
  as (pre & post & Hcalls & Hs & Hok).
rewrite Hh in Hs, Hok. cbn [fst snd] in Hs, Hok. rewrite (Hok eq_refl) in Hcalls.
rewrite app_nil_r in Hcalls. subst s'. by rewrite <- Hcalls.
Qed.

(** ** Successful calls, tied to the answers they got *)

Lemma GetAllRevisions_Ok_body c docID s revisions s' :
GetAllRevisions c docID s = (Ok revisions, s') ->
exists resp,
  RoundTrip (wire s) (get_revisions c docID) = inr resp
  /\ StatusCode resp = 200
  /\ Unmarshal_revs_info (Body resp) = inr revisions
  /\ s' = sent s [get_revisions c docID].
Proof.
unfold GetAllRevisions, http_Get, NewRequest, Do, ReadAll, StatusOK.
destruct (url_Parse_error _); [done|]. fold (get_revisions c docID).
destruct (RoundTrip _ _) as [e|resp]; [done|].
destruct (BodyErr resp); [done|].
destruct (StatusCode resp =? 200) eqn:Hst; [|done]. cbn [negb].
destruct (Unmarshal_revs_info (Body resp)) as [e|revs] eqn:Hd; [done|].
intros [= <- <-]. exists resp. apply Z.eqb_eq in Hst. done.
Qed.

Lemma QueryDesignDocument_Ok_body c name s body s' :
QueryDesignDocument c name s = (Ok body, s') ->
exists resp,
  RoundTrip (wire s) (view_query c name) = inr resp
  /\ body = Body resp
  /\ s' = sent s [view_query c name].
Proof.
unfold QueryDesignDocument, http_Get, NewRequest, Do, ReadAll.
destruct (url_Parse_error _); [done|]. fold (view_query c name).
destruct (RoundTrip _ _) as [e|resp]; [done|].
destruct (BodyErr resp); [done|].
intros [= <- <-]. by exists resp.
Qed.

Lemma CheckAndDeleteDesignDocument_Ok_answer c name s msg s' :
CheckAndDeleteDesignDocument c name s = (Ok msg, s') ->
exists resp,
  RoundTrip (wire s) (design_get c name) = inr resp
  /\ (StatusCode resp = 404 /\ s' = sent s [design_get c name]
      \/ StatusCode resp = 200
         /\ exists rev deleteResp,
              Decode_rev resp = inr rev
              /\ RoundTrip (wire s ++ [design_get c name])
                   (design_delete c name rev) = inr deleteResp
              /\ StatusCode deleteResp = 200
              /\ s' = sent s [design_get c name; design_delete c name rev]).
Proof.
unfold CheckAndDeleteDesignDocument, http_Get, NewRequest, Do,
  StatusOK, StatusNotFound.
destruct (url_Parse_error (design_url c name)); [done|].
fold (design_get c name).
destruct (RoundTrip (wire s) (design_get c name)) as [e|resp]; [done|].
destruct (StatusCode resp =? 404) eqn:H404.
{ intros [= <- <-]. exists resp. split; [done|]. left.
  by apply Z.eqb_eq in H404. }
destruct (StatusCode resp =? 200) eqn:H200; [|done]. cbn [negb].
destruct (Decode_rev resp) as [e|rev] eqn:Hrev; [done|].
destruct (url_Parse_error _); [done|]. fold (design_delete c name rev).
cbn [wire sent].
destruct (RoundTrip _ (design_delete c name rev)) as [e|deleteResp] eqn:Hdel;
  [done|].
destruct (StatusCode deleteResp =? 200) eqn:Hd200; [|done]. cbn [negb].
intros [= <- <-]. exists resp. split; [done|]. right.
apply Z.eqb_eq in H200, Hd200. split; [done|]. exists rev, deleteResp.
repeat split; try done. unfold sent. cbn. by rewrite <- app_assoc.
Qed.

Lemma CompactDatabase_Ok_answer c s body s' :
CompactDatabase c s = (Ok body, s') ->
exists resp,
  RoundTrip (wire s) (compact_post c) = inr resp
  /\ StatusCode resp = 202
  /\ body = Body resp
  /\ s' = sent s [compact_post c].
Proof.
unfold CompactDatabase, NewRequest, Do, ReadAll, StatusAccepted.
destruct (url_Parse_error _); [done|]. rewrite Header_Set_fresh.
fold (compact_post c).
destruct (RoundTrip _ _) as [e|resp]; [done|].
destruct (BodyErr resp); [done|].
destruct (StatusCode resp =? 202) eqn:Hst; [|done]. cbn [negb].
intros [= <- <-]. exists resp. apply Z.eqb_eq in Hst. done.
Qed.

Lemma GetDocument_Ok_body c docID s l s' :
GetDocument c docID s = (Ok l, s') ->
exists resp doc,
  RoundTrip (wire s) (get_document c docID) = inr resp
  /\ StatusCode resp = 200
  /\ Unmarshal_doc (Body resp) = inr doc
  /\ heap s !! l = None
  /\ s' = {| heap := <[l := doc]> (heap s);
             wire := wire s ++ [get_document c docID] |}.
Proof.
unfold GetDocument, http_Get, NewRequest, Do, ReadAll, alloc, StatusOK.
destruct (url_Parse_error _); [done|]. fold (get_document c docID).
destruct (RoundTrip _ _) as [e|resp]; [done|].
destruct (BodyErr resp); [done|].
destruct (StatusCode resp =? 200) eqn:Hst; [|done]. cbn [negb].
destruct (Unmarshal_doc (Body resp)) as [e|doc] eqn:Hdoc; [done|].
intros [= <- <-]. exists resp, doc. apply Z.eqb_eq in Hst.
repeat split; try done. apply not_elem_of_dom, is_fresh.
Qed.

(** What a successful reset leaves: the fetched map without its ["_rev"],
  and on the wire the two fetches, the revision deletes, the document
  delete and the PUT at the id the fetched map carries. *)
Lemma ResetDocument_Ok c docID s s' :
ResetDocument c docID s = (Ok tt, s') ->
exists resp l doc revisions id jsonDoc,
  RoundTrip (wire s) (get_document c docID) = inr resp
  /\ Unmarshal_doc (Body resp) = inr doc
  /\ heap s !! l = None
  /\ doc !! "_id" = Some (JString id)
  /\ json_Marshal (delete "_rev" doc) = inr jsonDoc
  /\ heap s' = <[l := delete "_rev" doc]> (heap s)
  /\ wire s'
     = wire s ++ [get_document c docID; get_revisions c docID]
         ++ delete_calls c (map (pair docID) revisions)
         ++ [document_delete c docID; document_put c id jsonDoc]
  /\ exists revsResp,
       RoundTrip (wire s ++ [get_document c docID]) (get_revisions c docID)
       = inr revsResp
       /\ Unmarshal_revs_info (Body revsResp) = inr revisions.
Proof.
unfold ResetDocument.
destruct (GetDocument c docID s) as [[l|e|m] s1] eqn:H1; [|done..].
destruct (GetAllRevisions c docID s1) as [[revisions|e|m] s2] eqn:H2; [|done..].
destruct (DeleteAllRevisions c docID revisions s2) as [[[]|e|m] s3] eqn:H3;
  [|done..].
destruct (DeleteDocument c docID s3) as [[[]|e|m] s4] eqn:H4; [|done..].
destruct (CreateDocument c l s4) as [[[]|e|m] s5] eqn:H5; [|done..].
intros [= <-].
apply GetDocument_Ok_body in H1 as (resp & doc & Hresp & _ & Hbody & Hfresh & ->).
apply GetAllRevisions_Ok_body in H2 as (revsResp & Hrevs & _ & Hdec & ->).
cbn [wire] in Hrevs.
destruct (DeleteAllRevisions_state c docID revisions
            (sent {| heap := <[l:=doc]> (heap s);
                     wire := wire s ++ [get_document c docID] |}
                  [get_revisions c docID]))
  as (pre & post & -> & Hst & Hall).
rewrite H3 in Hst, Hall. cbn [fst snd] in Hst, Hall. subst s3.
rewrite (Hall eq_refl), app_nil_r in *.
apply DeleteDocument_Ok in H4 as ->.
set (s4 := sent _ [document_delete c docID]) in *.
assert (deref s4 l = doc) as Hderef.
{ unfold deref, s4. cbn [heap sent]. by rewrite lookup_insert_eq. }
destruct (deref s4 l !! "_id") as [[| | |id| |]|] eqn:Hid;
  try (rewrite CreateDocument_panics in H5 by (by rewrite Hid); done).
destruct (CreateDocument_returns c l s4 id Hid)
  as (r & reqs & Hcd & _ & Hreqs & Hne).
rewrite H5 in Hcd. injection Hcd as <- ->.
destruct Hreqs as [->|(jsonDoc & Hm & ->)]; [by destruct (Hne eq_refl)|].
rewrite Hderef in Hid, Hm.
exists resp, l, doc, pre, id, jsonDoc.
split; [done|]. split; [done|]. split; [done|]. split; [done|].
split; [done|]. split; [|split].
- cbn [heap sent map_delete s4]. apply map_eq. intros k.
  destruct (decide (k = l)) as [->|].
  + by rewrite lookup_alter_eq, !lookup_insert_eq.
  + by rewrite lookup_alter_ne, !lookup_insert_ne.
- cbn [wire sent map_delete s4]. by rewrite <- !app_assoc.
- by exists revsResp.
Qed.
End SendFacts.

(** X6. [GetDocument] treats every status other than 200, a 404 included,
    as a failure and returns the body in the error; no map is created
    then. On a 200 answer whose body decodes it returns a new map, at an
    address no map had before, holding the decoded body; every map that
    existed is left as it was. In both cases exactly the one GET went
    out. *)
Theorem GetDocument_fetches_into_fresh_map `{World}
    (c : CouchDBClient) (docID : string) (s : State) (resp : Response) :
  url_Parse_error (doc_url c docID) = None ->
  RoundTrip (wire s) (get_document c docID) = inr resp ->
  BodyErr resp = None ->
  (StatusCode resp <> 200 ->
   GetDocument c docID s
   = (Err ("failed to fetch document: " +:+ Body resp),
      sent s [get_document c docID]))
  /\ (forall doc,
        StatusCode resp = 200 -> Unmarshal_doc (Body resp) = inr doc ->
        exists l,
          heap s !! l = None
          /\ GetDocument c docID s
             = (Ok l, {| heap := <[l := doc]> (heap s);
                         wire := wire s ++ [get_document c docID] |})
          /\ forall l', l' <> l -> <[l := doc]> (heap s) !! l' = heap s !! l').
Proof.
  intros Hu Hr Hb.
  unfold GetDocument, http_Get, NewRequest, Do, ReadAll, alloc, StatusOK.
  rewrite Hu. fold (get_document c docID). rewrite Hr, Hb. split.
  - intros Hst. by rewrite (proj2 (Z.eqb_neq _ _) Hst).
  - intros doc Hst Hdoc. rewrite Hst, Hdoc. cbn [Z.eqb Pos.eqb negb].
    exists (fresh (dom (heap s))). split; [|split; [done|]].
    + apply not_elem_of_dom, is_fresh.
    + intros l' Hl'. by apply lookup_insert_ne.
Qed.

Lemma GetDocument_fetches_into_fresh_map_witness :
  (exists l,
     heap example_state !! l = None
     /\ @GetDocument example_world example_client "doc1" example_state
        = (Ok l, {| heap := <[l := example_doc]> (heap example_state);
                    wire := [get_document example_client "doc1"] |}))
  /\ @GetDocument (scripted_world example_doc example_revs example_rows)
       example_client "nohistory?revs_info" example_state
     = (Err "failed to fetch document: {error:internal}",
        sent example_state [get_document example_client "nohistory?revs_info"]).
Proof.
  split.
  - destruct (@GetDocument_fetches_into_fresh_map example_world example_client
                "doc1" example_state
                {| StatusCode := 200; Body := "{ok:true}"; BodyErr := None |}
                eq_refl eq_refl eq_refl) as [_ Hok].
    destruct (Hok example_doc eq_refl eq_refl) as (l & Hfresh & Hget & _).
    exists l. split; [exact Hfresh|exact Hget].
  - destruct (@GetDocument_fetches_into_fresh_map example_world example_client
                "nohistory?revs_info" example_state
                {| StatusCode := 500; Body := "{error:internal}"; BodyErr := None |}
                eq_refl) as [Herr _]; [vm_compute; reflexivity|reflexivity|].
    apply Herr. discriminate.
Defined.

(** X7. [CompactDatabase] sends one POST to [_compact] with the body [{}]
    and a JSON content type, and succeeds, returning the body of the
    answer, only on status 202: any other status, 200 included, is the
    error "failed to trigger compaction" with the body. *)
Theorem CompactDatabase_accepts_only_202 `{World}
    (c : CouchDBClient) (s : State) (resp : Response) :
  url_Parse_error (URL (compact_post c)) = None ->
  RoundTrip (wire s) (compact_post c) = inr resp ->
  BodyErr resp = None ->
  CompactDatabase c s
  = (if StatusCode resp =? 202 then Ok (Body resp)
     else Err ("failed to trigger compaction: " +:+ Body resp),
     sent s [compact_post c]).
Proof.
  intros Hu Hr Hb. unfold compact_post in *. cbn [URL] in Hu.
  unfold CompactDatabase, NewRequest, Do, ReadAll, StatusAccepted.
  rewrite Hu, Header_Set_fresh, Hr, Hb.
  by destruct (StatusCode resp =? 202).
Qed.

Lemma CompactDatabase_accepts_only_202_witness :
  @CompactDatabase example_world example_client empty_state
  = (Ok "{ok:true}", sent empty_state [compact_post example_client])
  /\ @CompactDatabase example_world
       (NewCouchDBClient "http://unreachable" "db") empty_state
     = (Err "connection refused",
        sent empty_state [compact_post (NewCouchDBClient "http://unreachable" "db")]).
Proof.
  split; [|vm_compute; reflexivity].
  apply (@CompactDatabase_accepts_only_202 example_world example_client empty_state
           {| StatusCode := 202; Body := "{ok:true}"; BodyErr := None |});
    vm_compute; reflexivity.
Defined.

(** X8. [CheckAndDeleteDesignDocument] first fetches the design document.
    On 404 it reports that nothing had to be deleted and sends nothing
    more. On any status other than 200 and 404 it returns an error with
    whatever body could be read, and sends no DELETE. On 200 it deletes at
    the revision decoded from the answer, and reports success only if that
    delete is answered 200. *)
Theorem CheckAndDeleteDesignDocument_cases `{World}
    (c : CouchDBClient) (name : string) (s : State) (resp : Response) :
  url_Parse_error (design_url c name) = None ->
  RoundTrip (wire s) (design_get c name) = inr resp ->
  (StatusCode resp = 404 ->
   CheckAndDeleteDesignDocument c name s
   = (Ok "Design document does not exist, no deletion needed",
      sent s [design_get c name]))
  /\ (StatusCode resp <> 404 -> StatusCode resp <> 200 ->
      CheckAndDeleteDesignDocument c name s
      = (Err ("failed to fetch design document: " +:+ Body resp),
         sent s [design_get c name]))
  /\ (forall rev deleteResp,
        StatusCode resp = 200 -> Decode_rev resp = inr rev ->
        url_Parse_error (URL (design_delete c name rev)) = None ->
        RoundTrip (wire s ++ [design_get c name]) (design_delete c name rev)
        = inr deleteResp ->
        CheckAndDeleteDesignDocument c name s
        = (if StatusCode deleteResp =? 200
           then Ok "Existing design document deleted"
           else Err ("failed to delete design document: " +:+ Body deleteResp),
           sent s [design_get c name; design_delete c name rev])).
Proof.
  intros Hu Hr.
  unfold CheckAndDeleteDesignDocument, http_Get, NewRequest, Do,
    StatusNotFound, StatusOK.
  rewrite Hu. fold (design_get c name). rewrite Hr. split; [|split].
  - by intros ->.
  - intros H404 H200.
    by rewrite (proj2 (Z.eqb_neq _ _) H404), (proj2 (Z.eqb_neq _ _) H200).
  - intros rev deleteResp Hst Hrev Hurl Hdel. rewrite Hst, Hrev.
    cbn [Z.eqb Pos.eqb negb].
    unfold design_delete in *. cbn [URL] in Hurl. rewrite Hurl.
    cbn [wire sent]. rewrite Hdel. unfold sent. cbn [wire heap].
    rewrite <- app_assoc. by destruct (StatusCode deleteResp =? 200).
Qed.

Lemma CheckAndDeleteDesignDocument_cases_witness :
  @CheckAndDeleteDesignDocument example_world example_client "rev_filter"
     empty_state
  = (Ok "Existing design document deleted",
     sent empty_state [design_get example_client "rev_filter";
                       design_delete example_client "rev_filter" "1-x"])
  /\ @CheckAndDeleteDesignDocument example_world
       (NewCouchDBClient "http://10.0.0.5:5984" "nohistory") "revs_info"
       empty_state
     = (Err "failed to fetch design document: {error:internal}",
        sent empty_state
          [design_get (NewCouchDBClient "http://10.0.0.5:5984" "nohistory")
             "revs_info"]).
Proof.
  split.
  - destruct (@CheckAndDeleteDesignDocument_cases example_world example_client
                "rev_filter" empty_state
                {| StatusCode := 200; Body := "{ok:true}"; BodyErr := None |}
                eq_refl eq_refl) as (_ & _ & Hdel).
    apply (Hdel "1-x" {| StatusCode := 200; Body := "{ok:true}"; BodyErr := None |});
      vm_compute; reflexivity.
  - destruct (@CheckAndDeleteDesignDocument_cases example_world
                (NewCouchDBClient "http://10.0.0.5:5984" "nohistory") "revs_info"
                empty_state
                {| StatusCode := 500; Body := "{error:internal}"; BodyErr := None |}
                eq_refl) as (_ & Herr & _); [vm_compute; reflexivity|].
    apply Herr; discriminate.
Defined.

(** X9. [HandleQueryResponse] sends nothing when there is nothing to
    resolve: a response that does not decode is returned as the decoder's
    error, and a response none of whose rows lists a deleted-conflict
    revision (an empty row list included) is success, in both cases with
    the state unchanged. *)
Theorem HandleQueryResponse_nothing_to_do `{World}
    (c : CouchDBClient) (queryResponse : string) (s : State) :
  (forall err,
     Unmarshal_QueryResponse queryResponse = inl err ->
     HandleQueryResponse c queryResponse s = (Err err, s))
  /\ (forall response,
        Unmarshal_QueryResponse queryResponse = inr response ->
        Forall (fun row => DeletedConflicts (Row_Value row) = []) (Rows response) ->
        HandleQueryResponse c queryResponse s = (Ok tt, s)).
Proof.
  unfold HandleQueryResponse. split.
  - by intros err ->.
  - intros response -> Hquiet. induction Hquiet as [|row rows Hrow _ IH]; [done|].
    cbn [handle_rows]. by rewrite Hrow.
Qed.

Lemma HandleQueryResponse_nothing_to_do_witness :
  @HandleQueryResponse (example_world_with example_rows_quiet) example_client
    "rows" empty_state
  = (Ok tt, empty_state).
Proof.
  destruct (@HandleQueryResponse_nothing_to_do
              (example_world_with example_rows_quiet) example_client "rows"
              empty_state) as [_ Hquiet].
  apply (Hquiet example_rows_quiet eq_refl). by repeat constructor.
Defined.

(** X10. The two delete loops disagree on a revision that is already
    gone. When the delete of a revision fails with an error whose text
    contains [not_found], [DeleteAllRevisions] on that revision returns
    success, while [HandleQueryResponse] on a row that lists that revision
    returns the error, wrapped with the document id; both leave the same
    state, the one request. *)
Theorem not_found_is_fatal_only_for_conflicts `{World}
    (c : CouchDBClient) (docID rev : string) (s : State)
    (err : string) (queryResponse : string) (response : QueryResponse) (row : Row) :
  (DeleteDocumentRevision c docID rev s).1 = Err err ->
  strings_Contains err "not_found" = true ->
  Unmarshal_QueryResponse queryResponse = inr response ->
  Rows response = [row] -> ID (Row_Value row) = docID ->
  DeletedConflicts (Row_Value row) = [rev] ->
  DeleteAllRevisions c docID [rev] s
  = (Ok tt, (DeleteDocumentRevision c docID rev s).2)
  /\ HandleQueryResponse c queryResponse s
     = (Err ("failed to delete conflict for document " +:+ docID +:+ ": " +:+ err),
        (DeleteDocumentRevision c docID rev s).2).
Proof.
  intros Herr Hnf Hq Hrows Hid Hconf.
  unfold HandleQueryResponse. rewrite Hq, Hrows.
  cbn [DeleteAllRevisions handle_rows]. rewrite Hconf, Hid.
  cbn [length Nat.ltb Nat.leb delete_conflicts].
  destruct (DeleteDocumentRevision c docID rev s) as [[msg|e|msg] s1];
    cbn [fst snd] in *; simplify_eq. by rewrite Hnf.
Qed.

Lemma not_found_is_fatal_only_for_conflicts_witness :
  (@DeleteAllRevisions example_world example_client "doc1" ["2-gone"]
     empty_state).1 = Ok tt
  /\ (@HandleQueryResponse (example_world_with
        {| TotalRows := 1; Offset := 0;
           Rows := [ {| Row_ID := "doc1"; Row_Key := "doc1";
                        Row_Value := {| ID := "doc1"; Rev := "100001-abc";
                                        DeletedConflicts := ["2-gone"] |} |} ] |})
        example_client "rows" empty_state).1
     = Err ("failed to delete conflict for document doc1: "
            +:+ "failed to delete document revision: "
            +:+ "{error:not_found,reason:missing}").
Proof.
  set (row := {| Row_ID := "doc1"; Row_Key := "doc1";
                 Row_Value := {| ID := "doc1"; Rev := "100001-abc";
                                 DeletedConflicts := ["2-gone"] |} |}).
  set (rows := {| TotalRows := 1; Offset := 0; Rows := [row] |}).
  destruct (@not_found_is_fatal_only_for_conflicts (example_world_with rows)
              example_client "doc1" "2-gone" empty_state
              ("failed to delete document revision: "
               +:+ "{error:not_found,reason:missing}")
              "rows" rows row)
    as [Hall Hconf]; try (vm_compute; reflexivity).
  split.
  - change (@DeleteAllRevisions example_world)
      with (@DeleteAllRevisions (example_world_with rows)). by rewrite Hall.
  - by rewrite Hconf.
Defined.

(** X11. No call of the client other than [GetDocument] and
    [CreateDocument] creates or changes a map: the revision fetch, the
    deletes, the design document calls, the view query, the conflict
    resolution and the compaction leave every map as it was. *)
Theorem only_fetch_and_recreate_touch_maps `{World} (c : CouchDBClient) (s : State) :
  (forall docID, heap (GetAllRevisions c docID s).2 = heap s)
  /\ (forall docID rev, heap (DeleteDocumentRevision c docID rev s).2 = heap s)
  /\ (forall docID revisions, heap (DeleteAllRevisions c docID revisions s).2 = heap s)
  /\ (forall docID, heap (DeleteDocument c docID s).2 = heap s)
  /\ (forall name, heap (CheckAndDeleteDesignDocument c name s).2 = heap s)
  /\ (forall name designDoc, heap (CreateDesignDocument c name designDoc s).2 = heap s)
  /\ (forall name, heap (QueryDesignDocument c name s).2 = heap s)
  /\ (forall queryResponse, heap (HandleQueryResponse c queryResponse s).2 = heap s)
  /\ heap (CompactDatabase c s).2 = heap s.
Proof.
  repeat split.
  - intros docID. by rewrite GetAllRevisions_state.
  - intros docID rev. by rewrite DeleteDocumentRevision_state.
  - intros docID revisions.
    destruct (DeleteAllRevisions_state c docID revisions s) as (? & ? & _ & -> & _).
    done.
  - intros docID. by rewrite DeleteDocument_state.
  - intros name.
    by destruct (CheckAndDeleteDesignDocument_state c name s) as [->|[? ->]].
  - intros name designDoc.
    by destruct (CreateDesignDocument_state c name designDoc s) as [->|(? & _ & ->)].
  - intros name. by rewrite QueryDesignDocument_sends.
  - intros q. by destruct (HandleQueryResponse_state c q s) as [? ->].
  - by rewrite CompactDatabase_state.
Qed.

(** X12. [QueryDesignDocument] never looks at the status either: once the
    request went out and the body was read it returns that body with no
    error, whatever the status, so an error answer of the server reaches
    [HandleQueryResponse] as if it were the rows. *)
Theorem QueryDesignDocument_ignores_status `{World}
    (c : CouchDBClient) (name : string) (s : State) (resp : Response) :
  url_Parse_error (URL (view_query c name)) = None ->
  RoundTrip (wire s) (view_query c name) = inr resp ->
  BodyErr resp = None ->
  QueryDesignDocument c name s = (Ok (Body resp), sent s [view_query c name]).
Proof.
  intros Hu Hr Hb. unfold view_query in *. cbn [URL] in Hu.
  unfold QueryDesignDocument, http_Get, NewRequest, Do, ReadAll.
  by rewrite Hu, Hr, Hb.
Qed.

Lemma QueryDesignDocument_ignores_status_witness :
  @QueryDesignDocument example_world
    (NewCouchDBClient "http://10.0.0.5:5984" "nohistory") "revs_info" empty_state
  = (Ok "{error:internal}",
     sent empty_state
       [view_query (NewCouchDBClient "http://10.0.0.5:5984" "nohistory") "revs_info"]).
Proof.
  apply (@QueryDesignDocument_ignores_status example_world
           (NewCouchDBClient "http://10.0.0.5:5984" "nohistory") "revs_info"
           empty_state
           {| StatusCode := 500; Body := "{error:internal}"; BodyErr := None |});
    vm_compute; reflexivity.
Defined.

(** ** ResetDocument as a whole *)

(** X13. [ResetDocument] deletes before it looks for the identifier. When
    the fetched map holds no string under ["_id"] and the fetches and the
    deletes succeed, the call panics in the recreate step after the
    revision deletes and the delete of the document have been sent:
    the document is gone and nothing is put back. *)
Theorem ResetDocument_panics_after_deleting `{World}
    (c : CouchDBClient) (docID : string) (s : State)
    (doc : positive) (s1 : State) (revisions : list string) (s2 s3 s4 : State) :
  GetDocument c docID s = (Ok doc, s1) ->
  (forall id, deref s1 doc !! "_id" <> Some (JString id)) ->
  GetAllRevisions c docID s1 = (Ok revisions, s2) ->
  DeleteAllRevisions c docID revisions s2 = (Ok tt, s3) ->
  DeleteDocument c docID s3 = (Ok tt, s4) ->
  (exists msg, ResetDocument c docID s = (Panic msg, s4))
  /\ wire s4
     = wire s ++ [get_document c docID; get_revisions c docID]
         ++ delete_calls c (map (pair docID) revisions)
         ++ [document_delete c docID].
Proof.
  intros H1 Hid H2 H3 H4. unfold ResetDocument. rewrite H1, H2, H3, H4.
  apply GetDocument_Ok in H1 as (body & Hfresh & ->).
  apply GetAllRevisions_Ok in H2 as ->.
  destruct (DeleteAllRevisions_state c docID revisions
              (sent {| heap := <[doc:=body]> (heap s);
                       wire := wire s ++ [get_document c docID] |}
                    [get_revisions c docID]))
    as (pre & post & -> & Hst & Hall).
  rewrite H3 in Hst, Hall. cbn [fst snd] in Hst, Hall. subst s3.
  rewrite (Hall eq_refl), app_nil_r in *.
  apply DeleteDocument_Ok in H4 as ->. split.
  - rewrite CreateDocument_panics by done. by eexists.
  - cbn [wire sent]. by rewrite <- !app_assoc.
Qed.

Lemma ResetDocument_panics_after_deleting_witness :
  (@ResetDocument example_world_no_id example_client "doc1" empty_state).1
  = Panic "interface conversion: interface {} is nil, not string"
  /\ wire (@ResetDocument example_world_no_id example_client "doc1" empty_state).2
     = [get_document example_client "doc1"; get_revisions example_client "doc1";
        revision_delete example_client "doc1" "1-a";
        revision_delete example_client "doc1" "2-gone";
        revision_delete example_client "doc1" "3-b";
        document_delete example_client "doc1"].
Proof.
  set (g := @GetDocument example_world_no_id example_client "doc1" empty_state).
  set (r := @GetAllRevisions example_world_no_id example_client "doc1" g.2).
  set (d := @DeleteAllRevisions example_world_no_id example_client "doc1"
              example_revs r.2).
  set (x := @DeleteDocument example_world_no_id example_client "doc1" d.2).
  destruct (@ResetDocument_panics_after_deleting example_world_no_id
              example_client "doc1" empty_state 1%positive g.2 example_revs
              r.2 d.2 x.2) as [[msg Hpanic] Hwire];
    try (vm_compute; reflexivity).
  - intros id. vm_compute. discriminate.
  - split; [vm_compute; reflexivity|]. rewrite Hpanic. cbn [snd].
    rewrite Hwire. vm_compute. reflexivity.
Defined.

(** X14. When [ResetDocument] succeeds, the document is put back at the
    id the fetched body carries under ["_id"], which need not be the id
    that was fetched and deleted; what is sent is the encoding of the
    fetched body without ["_rev"], it is the last request, and the map
    the call leaves behind is that body without ["_rev"]. *)
Theorem ResetDocument_recreates_at_body_id `{World}
    (c : CouchDBClient) (docID : string) (s s' : State) :
  ResetDocument c docID s = (Ok tt, s') ->
  exists resp l doc id jsonDoc,
    RoundTrip (wire s) (get_document c docID) = inr resp
    /\ Unmarshal_doc (Body resp) = inr doc
    /\ doc !! "_id" = Some (JString id)
    /\ json_Marshal (delete "_rev" doc) = inr jsonDoc
    /\ last (wire s') = Some (document_put c id jsonDoc)
    /\ document_delete c docID ∈ wire s'
    /\ heap s !! l = None
    /\ heap s' = <[l := delete "_rev" doc]> (heap s).
Proof.
  intros (resp & l & doc & revisions & id & jsonDoc
          & Hresp & Hbody & Hfresh & Hid & Hm & Hheap & Hwire & _)%ResetDocument_Ok.
  exists resp, l, doc, id, jsonDoc. repeat split; try done.
  - rewrite Hwire, !app_assoc.
    change [document_delete c docID; document_put c id jsonDoc]
      with ([document_delete c docID] ++ [document_put c id jsonDoc]).
    rewrite app_assoc. apply last_snoc.
  - rewrite Hwire. set_solver.
Qed.

Lemma ResetDocument_recreates_at_body_id_witness :
  exists jsonDoc,
    last (wire (@ResetDocument example_world_other example_client "doc1"
                  empty_state).2)
    = Some (document_put example_client "other" jsonDoc)
    /\ document_delete example_client "doc1"
       ∈ wire (@ResetDocument example_world_other example_client "doc1"
                 empty_state).2.
Proof.
  destruct (@ResetDocument_recreates_at_body_id example_world_other example_client
              "doc1" empty_state
              (@ResetDocument example_world_other example_client "doc1"
                 empty_state).2)
    as (resp & l & doc & id & jsonDoc & _ & Hbody & Hid & _ & Hlast & Hdel & _).
  - vm_compute. reflexivity.
  - injection Hbody as <-. vm_compute in Hid. injection Hid as <-.
    exists jsonDoc. split; [exact Hlast|exact Hdel].
Defined.

(** * More about package main *)

Ltac only_sends_chain :=
  repeat first [ eassumption | apply only_sends_refl
               | eapply only_sends_trans; [eassumption|] ].

Section WorkflowFacts.
Context `{World}.

Lemma GetDocument_only_sends c docID s : only_sends c s (GetDocument c docID s).2.
Proof.
destruct (GetDocument c docID s) as [[l|e|m] s1] eqn:Hg; cbn [snd].
- apply GetDocument_Ok in Hg as (doc & _ & ->).
  exists [get_document c docID]. split; [done|].
  repeat constructor. apply requests_in_database.
- apply GetDocument_Err in Hg as ->.
  apply only_sends_sent, if_url_ok_in_database, requests_in_database.
- by destruct (GetDocument_no_panic _ _ _ _ _ Hg).
Qed.

Lemma CreateDocument_only_sends c doc s : only_sends c s (CreateDocument c doc s).2.
Proof.
destruct (deref s doc !! "_id") as [[| | |id| |]|] eqn:Hid;
  try (rewrite CreateDocument_panics by (by rewrite Hid); apply only_sends_refl).
destruct (CreateDocument_returns c doc s id Hid)
  as (r & reqs & -> & _ & Hreqs & _). cbn [snd].
exists reqs. split; [done|].
destruct Hreqs as [->|(j & _ & ->)]; repeat constructor.
apply requests_in_database.
Qed.

Lemma ResetDocument_only_sends c docID s :
only_sends c s (ResetDocument c docID s).2.
Proof.
unfold ResetDocument.
pose proof (GetDocument_only_sends c docID s) as H1.
destruct (GetDocument c docID s) as [[doc|e|m] s1]; cbn [snd] in *; try done.
assert (only_sends c s1 (GetAllRevisions c docID s1).2) as H2.
{ rewrite GetAllRevisions_state.
  apply only_sends_sent, if_url_ok_in_database, requests_in_database. }
destruct (GetAllRevisions c docID s1) as [[revisions|e|m] s2]; cbn [snd] in *;
  try (by only_sends_chain).
assert (only_sends c s2 (DeleteAllRevisions c docID revisions s2).2) as H3.
{ destruct (DeleteAllRevisions_state c docID revisions s2) as (? & ? & _ & -> & _).
  apply only_sends_sent, delete_calls_in_database. }
destruct (DeleteAllRevisions c docID revisions s2) as [[[]|e|m] s3];
  cbn [snd] in *; try (by only_sends_chain).
assert (only_sends c s3 (DeleteDocument c docID s3).2) as H4.
{ rewrite DeleteDocument_state.
  apply only_sends_sent, if_url_ok_in_database, requests_in_database. }
destruct (DeleteDocument c docID s3) as [[[]|e|m] s4]; cbn [snd] in *;
  try (by only_sends_chain).
pose proof (CreateDocument_only_sends c doc s4) as H5.
destruct (CreateDocument c doc s4) as [[[]|e|m] s5]; cbn [snd] in *;
  by only_sends_chain.
Qed.

Lemma main_instance_only_sends couchDBPort dbName ip s :
only_sends (NewCouchDBClient ("http://" +:+ ip +:+ ":" +:+ couchDBPort) dbName)
  s (main_instance couchDBPort dbName ip s).2.
Proof.
unfold main_instance.
set (c := NewCouchDBClient ("http://" +:+ ip +:+ ":" +:+ couchDBPort) dbName).
pose proof (ResetDocument_only_sends c dbName s) as H1.
destruct (ResetDocument c dbName s) as [[[]|e|m] s1]; cbn [snd] in *; try done.
assert (only_sends c s1 (CheckAndDeleteDesignDocument c "rev_filter" s1).2) as H2.
{ destruct (CheckAndDeleteDesignDocument_state c "rev_filter" s1) as [->|[rev ->]];
    apply only_sends_sent.
  - apply if_url_ok_in_database, requests_in_database.
  - repeat constructor; apply requests_in_database. }
destruct (CheckAndDeleteDesignDocument c "rev_filter" s1) as [[msg|e|m] s2];
  cbn [snd] in *; try (by only_sends_chain).
assert (only_sends c s2 (CreateDesignDocument c "rev_filter" designDoc s2).2) as H3.
{ destruct (CreateDesignDocument_state c "rev_filter" designDoc s2)
    as [->|(j & _ & ->)]; [apply only_sends_refl|].
  apply only_sends_sent. repeat constructor. apply requests_in_database. }
destruct (CreateDesignDocument c "rev_filter" designDoc s2) as [[resp|e|m] s3];
  cbn [snd] in *; try (by only_sends_chain).
assert (only_sends c s3 (QueryDesignDocument c "rev_filter" s3).2) as H4.
{ rewrite QueryDesignDocument_sends.
  apply only_sends_sent, if_url_ok_in_database, requests_in_database. }
destruct (QueryDesignDocument c "rev_filter" s3) as [[q|e|m] s4];
  cbn [snd] in *; try (by only_sends_chain).
assert (only_sends c s4 (HandleQueryResponse c q s4).2) as H5.
{ destruct (HandleQueryResponse_state c q s4) as [calls ->].
  apply only_sends_sent, delete_calls_in_database. }
destruct (HandleQueryResponse c q s4) as [[[]|e|m] s5];
  cbn [snd] in *; try (by only_sends_chain).
assert (only_sends c s5 (CompactDatabase c s5).2) as H6.
{ rewrite CompactDatabase_state.
  apply only_sends_sent, if_url_ok_in_database, compact_url_in_database. }
destruct (CompactDatabase c s5) as [[b|e|m] s6];
  cbn [snd] in *; by only_sends_chain.
Qed.

Lemma main_loop_app couchDBPort dbName a : forall b s,
main_loop couchDBPort dbName (a ++ b) s
= match main_loop couchDBPort dbName a s with
  | (Ok _, s1) => main_loop couchDBPort dbName b s1
  | r => r
  end.
Proof.
induction a as [|ip a IH]; intros b s; [done|].
cbn [app main_loop].
destruct (main_instance couchDBPort dbName ip s) as [[[]|e|m] s1]; [apply IH|done..].
Qed.
End WorkflowFacts.

(** X15. The loop over the found instances stops at the first instance
    whose workflow fails: the run ends with that failure, in the state
    that instance left, and the instances after it are not contacted. The
    loop over two lists of instances is the loop over the first followed,
    if it succeeded, by the loop over the second. *)
Theorem main_loop_stops_at_first_failure `{World}
    (couchDBPort dbName : string) :
  (forall a b s,
     main_loop couchDBPort dbName (a ++ b) s
     = match main_loop couchDBPort dbName a s with
       | (Ok _, s1) => main_loop couchDBPort dbName b s1
       | r => r
       end)
  /\ (forall pre ip post s s1 r s2,
        main_loop couchDBPort dbName pre s = (Ok tt, s1) ->
        main_instance couchDBPort dbName ip s1 = (r, s2) ->
        r <> Ok tt ->
        main_loop couchDBPort dbName (pre ++ ip :: post) s = (r, s2)).
Proof.
  split; [intros a b s; apply main_loop_app|].
  intros pre ip post s s1 r s2 Hpre Hip Hr.
  rewrite main_loop_app, Hpre. cbn [main_loop]. rewrite Hip.
  by destruct r as [[]| |].
Qed.

Lemma main_loop_stops_at_first_failure_witness :
  (@main_loop example_world "5984" "doc1"
     (["10.0.0.5"] ++ "unreachable" :: ["10.0.0.7"]) empty_state).1
  = Err ("Failed to reset document: failed to fetch document: "
         +:+ "connection refused")
  /\ Forall (fun req => strings_Contains (URL req) "10.0.0.7" = false)
       (wire (@main_loop example_world "5984" "doc1"
                (["10.0.0.5"] ++ "unreachable" :: ["10.0.0.7"]) empty_state).2).
Proof.
  destruct (@main_loop_stops_at_first_failure example_world "5984" "doc1")
    as [_ Hstop].
  set (first := @main_loop example_world "5984" "doc1" ["10.0.0.5"] empty_state).
  set (bad := @main_instance example_world "5984" "doc1" "unreachable" first.2).
  rewrite (Hstop ["10.0.0.5"] "unreachable" ["10.0.0.7"] empty_state
             first.2 bad.1 bad.2).
  - split; [vm_compute; reflexivity|].
    apply Forall_forall. intros req Hreq. vm_compute in Hreq.
    repeat (apply elem_of_cons in Hreq as [->|Hreq]; [vm_compute; reflexivity|]).
    by apply elem_of_nil in Hreq.
  - vm_compute. reflexivity.
  - apply surjective_pairing.
  - vm_compute. discriminate.
Defined.

(** X16. When the workflow on one instance succeeds, the requests it made
    are determined by the answers it got, and are, in this order: the
    fetch of the document whose id is the database name and the fetch of
    its revision history; one delete for each revision the history answer
    lists; the delete of the document and the PUT that puts the fetched
    body back at its own id; the fetch of the design document, followed by
    its delete at the revision of the answer if the answer was 200 and by
    nothing if it was 404; the PUT of the design document and the view
    query; one delete for each deleted-conflict revision the query answer
    lists; and the compaction POST. *)
Theorem main_instance_request_order `{World}
    (couchDBPort dbName ip : string) (s s' : State) :
  main_instance couchDBPort dbName ip s = (Ok tt, s') ->
  let c := NewCouchDBClient ("http://" +:+ ip +:+ ":" +:+ couchDBPort) dbName in
  exists docResp doc id jsonDoc revsResp revisions checkResp check jsonDesign
         queryResp response,
    RoundTrip (wire s) (get_document c dbName) = inr docResp
    /\ Unmarshal_doc (Body docResp) = inr doc
    /\ doc !! "_id" = Some (JString id)
    /\ json_Marshal (delete "_rev" doc) = inr jsonDoc
    /\ RoundTrip (wire s ++ [get_document c dbName]) (get_revisions c dbName)
       = inr revsResp
    /\ Unmarshal_revs_info (Body revsResp) = inr revisions
    /\ RoundTrip (wire s ++ reset_requests c dbName revisions id jsonDoc)
         (design_get c "rev_filter") = inr checkResp
    /\ (StatusCode checkResp = 404 /\ check = [design_get c "rev_filter"]
        \/ StatusCode checkResp = 200
           /\ exists rev,
                Decode_rev checkResp = inr rev
                /\ check = [design_get c "rev_filter";
                            design_delete c "rev_filter" rev])
    /\ json_Marshal designDoc = inr jsonDesign
    /\ RoundTrip (wire s ++ reset_requests c dbName revisions id jsonDoc ++ check
                    ++ [design_put c "rev_filter" jsonDesign])
         (view_query c "rev_filter") = inr queryResp
    /\ Unmarshal_QueryResponse (Body queryResp) = inr response
    /\ wire s'
       = wire s ++ reset_requests c dbName revisions id jsonDoc ++ check
           ++ [design_put c "rev_filter" jsonDesign; view_query c "rev_filter"]
           ++ delete_calls c (conflict_calls response)
           ++ [compact_post c].
Proof.
  intros Hrun c. unfold main_instance in Hrun. fold c in Hrun.
  destruct (ResetDocument c dbName s) as [[[]|e|m] s1] eqn:H1; [|done..].
  destruct (CheckAndDeleteDesignDocument c "rev_filter" s1) as [[msg|e|m] s2] eqn:H2;
    [|done..].
  destruct (CreateDesignDocument c "rev_filter" designDoc s2) as [[resp|e|m] s3] eqn:H3;
    [|done..].
  destruct (QueryDesignDocument c "rev_filter" s3) as [[q|e|m] s4] eqn:H4; [|done..].
  destruct (HandleQueryResponse c q s4) as [[[]|e|m] s5] eqn:H5; [|done..].
  destruct (CompactDatabase c s5) as [[b|e|m] s6] eqn:H6; [|done..].
  injection Hrun as <-.
  apply ResetDocument_Ok in H1
    as (docResp & l & doc & revisions & id & jsonDoc & Hdoc & Hbody & _ & Hid & Hm
        & _ & Hw1 & revsResp & Hrevs & Hdec).
  fold (reset_requests c dbName revisions id jsonDoc) in Hw1.
  apply CheckAndDeleteDesignDocument_Ok_answer in H2 as (checkResp & Hcheck & Hcases).
  rewrite Hw1 in Hcheck.
  apply CreateDesignDocument_Ok in H3 as (jsonDesign & Hdesign & ->).
  apply QueryDesignDocument_Ok_body in H4 as (queryResp & Hquery & -> & ->).
  apply HandleQueryResponse_Ok in H5 as (response & Hresponse & ->).
  apply CompactDatabase_Ok in H6 as ->.
  cbn [wire sent] in Hquery.
  destruct Hcases as [[H404 ->]|(H200 & rev & deleteResp & Hrev & _ & _ & ->)].
  - exists docResp, doc, id, jsonDoc, revsResp, revisions, checkResp,
      [design_get c "rev_filter"], jsonDesign, queryResp, response.
    cbn [wire sent] in *. rewrite Hw1 in *. rewrite <- !app_assoc in Hquery.
    split; [done|]. split; [done|]. split; [done|]. split; [done|].
    split; [done|]. split; [done|]. split; [done|]. split; [by left|].
    split; [done|]. split; [done|]. split; [done|].
    by rewrite <- !app_assoc.
  - exists docResp, doc, id, jsonDoc, revsResp, revisions, checkResp,
      [design_get c "rev_filter"; design_delete c "rev_filter" rev],
      jsonDesign, queryResp, response.
    cbn [wire sent] in *. rewrite Hw1 in *. rewrite <- !app_assoc in Hquery.
    split; [done|]. split; [done|]. split; [done|]. split; [done|].
    split; [done|]. split; [done|]. split; [done|].
    split; [right; split; [done|]; by exists rev|].
    split; [done|]. split; [done|]. split; [done|].
    by rewrite <- !app_assoc.
Qed.

Lemma main_instance_request_order_witness :
  let c := NewCouchDBClient "http://10.0.0.5:5984" "doc1" in
  wire (@main_instance example_world "5984" "doc1" "10.0.0.5" empty_state).2
  = [ get_document c "doc1"; get_revisions c "doc1";
      revision_delete c "doc1" "1-a"; revision_delete c "doc1" "2-gone";
      revision_delete c "doc1" "3-b";
      document_delete c "doc1"; document_put c "doc1" "{}";
      design_get c "rev_filter"; design_delete c "rev_filter" "1-x";
      design_put c "rev_filter" "{}"; view_query c "rev_filter";
      revision_delete c "doc1" "2-aaa"; revision_delete c "doc1" "3-bbb";
      compact_post c ].
Proof.
  intros c.
  destruct (@main_instance_request_order example_world "5984" "doc1" "10.0.0.5"
              empty_state
              (@main_instance example_world "5984" "doc1" "10.0.0.5" empty_state).2)
    as (docResp & doc & id & jsonDoc & revsResp & revisions & checkResp & check
        & jsonDesign & queryResp & response & _ & Hdoc & Hid & Hm & _ & Hrevs
        & Hcheck & Hcases & Hdesign & _ & Hresponse & Hwire).
  - vm_compute. reflexivity.
  - injection Hdoc as <-. injection Hrevs as <-. injection Hresponse as <-.
    injection Hm as <-. injection Hdesign as <-.
    vm_compute in Hid. injection Hid as <-.
    vm_compute in Hcheck. injection Hcheck as <-.
    destruct Hcases as [[H404 _]|(_ & rev & Hrev & ->)]; [discriminate H404|].
    injection Hrev as <-.
    rewrite Hwire. vm_compute. reflexivity.
Defined.

(** X17. On every path through the workflow, the error paths included,
    each request the program hands to the HTTP client for an instance has
    a URL that starts with [http://ip:port/dbName/]; over the whole loop,
    each is built for one of the instances of the list. This is about the
    URLs the program builds: a request Go's client sends by itself while
    it follows a redirect is not one of them. *)
Theorem main_stays_in_database `{World} (couchDBPort dbName : string) :
  (forall ip s,
     only_sends (NewCouchDBClient ("http://" +:+ ip +:+ ":" +:+ couchDBPort) dbName)
       s (main_instance couchDBPort dbName ip s).2)
  /\ (forall instances s,
        exists reqs,
          wire (main_loop couchDBPort dbName instances s).2 = wire s ++ reqs
          /\ Forall (fun req =>
                       exists ip, ip ∈ instances
                         /\ in_database
                              (NewCouchDBClient
                                 ("http://" +:+ ip +:+ ":" +:+ couchDBPort) dbName)
                              req) reqs).
Proof.
  split; [intros ip s; apply main_instance_only_sends|].
  induction instances as [|ip rest IH]; intros s.
  - exists []. cbn. by rewrite app_nil_r.
  - cbn [main_loop].
    pose proof (main_instance_only_sends couchDBPort dbName ip s) as (r1 & E1 & F1).
    assert (Forall (fun req => exists ip', ip' ∈ ip :: rest
              /\ in_database (NewCouchDBClient
                   ("http://" +:+ ip' +:+ ":" +:+ couchDBPort) dbName) req) r1) as F1'.
    { eapply Forall_impl; [exact F1|]. intros req Hreq. exists ip.
      split; [set_solver|done]. }
    destruct (main_instance couchDBPort dbName ip s) as [[[]|e|m] s1];
      cbn [snd] in *; try by exists r1.
    destruct (IH s1) as (r2 & E2 & F2). exists (r1 ++ r2).
    rewrite E2, E1, app_assoc. split; [done|]. apply Forall_app. split; [done|].
    eapply Forall_impl; [exact F2|]. intros req (ip' & Hin & Hreq). exists ip'.
    split; [set_solver|done].
Qed.

Import Network NetworkMore CouchDB CouchDBMore Main.

(** * Blocks of IPv6 text

    Whatever Go accepts as the text of an IPv6 address, [Hosts] runs the
    same loop on its sixteen bytes. Two blocks of four addresses: one of
    the documentation prefix, whose hosts are printed as IPv6 text, and one
    of IPv4-mapped addresses, whose hosts are printed in dotted decimal. *)

Example Hosts_ipv6_block `{IPv6Text} (fuel : nat) :
  parseIPv6 "2001:db8::" = Some (doc_addr 0) -> (4 < fuel)%nat ->
  Hosts fuel "2001:db8::/126"
  = Some (Ok [String6 (doc_addr 1); String6 (doc_addr 2)]).
Proof.
  intros Hparse Hfuel. apply (Hosts_fuel_mono 5); [lia|].
  unfold Hosts, ParseCIDR.
  change (cut "/" "2001:db8::/126") with (Some ("2001:db8::", "126")).
  cbv iota beta.
  change (parseIPv4 "2001:db8::") with (@None (list Z)). cbv iota.
  rewrite Hparse. vm_compute. reflexivity.
Qed.

Example Hosts_ipv4_mapped_block `{IPv6Text} (fuel : nat) :
  parseIPv6 "::ffff:10.0.0.0" = Some (v4InV6Prefix ++ [10; 0; 0; 0]) ->
  (4 < fuel)%nat ->
  Hosts fuel "::ffff:10.0.0.0/126" = Some (Ok ["10.0.0.1"; "10.0.0.2"]).
Proof.
  intros Hparse Hfuel. apply (Hosts_fuel_mono 5); [lia|].
  unfold Hosts, ParseCIDR.
  change (cut "/" "::ffff:10.0.0.0/126") with (Some ("::ffff:10.0.0.0", "126")).
  cbv iota beta.
  change (parseIPv4 "::ffff:10.0.0.0") with (@None (list Z)). cbv iota.
  rewrite Hparse. vm_compute. reflexivity.
Qed.

Example Hosts_example_text :
  @Hosts example_text 10 "2001:db8::/126"
  = Some (Ok ["2001:db8::1"; "2001:db8::2"]).
Proof. vm_compute. reflexivity. Qed.

(** * ScanNetwork where Hosts does not return *)

(** C3. The blocks 10.0.0.1/32 and 0.0.0.0/0 parse, and [ScanNetwork]
    begins with [Hosts(cidr)]. On the first, [Hosts] panics in its slice
    expression; on the second its loop never ends. So whatever the probe
    and the schedule, [ScanNetwork] returns nothing on either block, where
    the claim promises, for every block that parses, the hosts for which
    the probe answers true (on the /32 block, which has no host: the empty
    result). On blocks on which [Hosts] returns, [ScanNetwork] does what
    the claim says, see [ScanNetwork_returns_reachable_hosts]. *)
Theorem ScanNetwork_has_no_result_where_Hosts_fails `{IPv6Text}
    (isCouchDBRunning : string -> string -> bool) (couchDBPort : string) :
  (exists ip ipnet, ParseCIDR "10.0.0.1/32" = inr (ip, ipnet))
  /\ (forall fuel,
        Hosts (S (S fuel)) "10.0.0.1/32"
        = Some (Panic "runtime error: slice bounds out of range"))
  /\ (forall fuel found,
        ~ ScanNetwork isCouchDBRunning couchDBPort fuel "10.0.0.1/32" found)
  /\ (exists ip ipnet, ParseCIDR "0.0.0.0/0" = inr (ip, ipnet))
  /\ (forall fuel, Hosts fuel "0.0.0.0/0" = None)
  /\ (forall fuel found,
        ~ ScanNetwork isCouchDBRunning couchDBPort fuel "0.0.0.0/0" found).
Proof.
  assert (cidr_fields "10.0.0.1/32" = Some (Z_of_addr [10; 0; 0; 1], 32)) as H32
    by (vm_compute; reflexivity).
  assert (cidr_fields "0.0.0.0/0" = Some (0, 0)) as H0
    by (vm_compute; reflexivity).
  split; [|split; [|split; [|split; [|split]]]].
  - rewrite (cidr_fields_ParseCIDR _ _ _ H32). by eexists _, _.
  - intros fuel. apply (Hosts_prefix32 _ _ _ H32). lia.
  - intros fuel found [ips st Hh _ _].
    destruct (Hosts_Ok_inv _ _ _ _ _ H32 Hh) as [Hp _]. lia.
  - rewrite (cidr_fields_ParseCIDR _ _ _ H0). by eexists _, _.
  - intros fuel. apply (Hosts_prefix0 _ _ _ H0).
  - intros fuel found [ips st Hh _ _].
    by rewrite (Hosts_prefix0 _ _ _ H0) in Hh.
Qed.

(** * Not found, by the text of the error *)

(** C4. [DeleteAllRevisions] recognises a revision that is not there by the
    text [not_found] in the error, not by the kind of failure.

    - With the database [not_found_db] and a server that cannot be
      reached, every delete fails in the transport, and Go's error text
      quotes the URL, which contains [not_found]: the loop takes each
      failure for a missing revision, goes on to the next revision and
      returns success, although nothing was deleted.
    - A 404 answer whose body does not contain [not_found] ends the loop
      with an error after the first revision, while [DeleteDocument]
      takes the same answer, by its status, as success. *)
Theorem DeleteAllRevisions_not_found_is_a_text_match :
  (forall rev,
     (@DeleteDocumentRevision refusing_world not_found_client "doc1" rev
        empty_state).1
     = Err ("Delete " +:+ dquote
            +:+ "http://10.0.0.5:5984/not_found_db/doc1?rev=" +:+ rev +:+ dquote
            +:+ ": dial tcp 10.0.0.5:5984: connect: connection refused"))
  /\ @DeleteAllRevisions refusing_world not_found_client "doc1"
       ["1-a"; "2-b"; "3-c"] empty_state
     = (Ok tt,
        {| heap := ∅;
           wire := [ revision_delete not_found_client "doc1" "1-a";
                     revision_delete not_found_client "doc1" "2-b";
                     revision_delete not_found_client "doc1" "3-c" ] |})
  /\ @DeleteAllRevisions plain_404_world example_client "doc1"
       ["1-a"; "2-b"; "3-c"] empty_state
     = (Err ("failed to delete revision 1-a: "
             +:+ "failed to delete document revision: 404 page not found"),
        {| heap := ∅;
           wire := [ revision_delete example_client "doc1" "1-a" ] |})
  /\ @DeleteDocument plain_404_world example_client "doc1" empty_state
     = (Ok tt, {| heap := ∅; wire := [ document_delete example_client "doc1" ] |}).
Proof.
  split; [|split; [|split]].
  - intros rev. reflexivity.
  - vm_compute. reflexivity.
  - vm_compute. reflexivity.
  - vm_compute. reflexivity.
Qed.

(** * A reset of a body without identifier *)

(** C6. When the document that was fetched carries no string under
    ["_id"], [ResetDocument] never reports a failure of the recreate step:
    either one of the steps before it returned an error, or the call
    panics in the recreate step, after the document delete has been sent
    as the last request. No error that names the failing step is returned
    then, and nothing is put back. Where every step fails by returning an
    error the claim holds, see [ResetDocument_halts_at_first_failure]. *)
Theorem ResetDocument_recreate_failure_is_a_panic `{World}
    (c : CouchDBClient) (docID : string) (s : State)
    (resp : Response) (doc : gmap string JSON) :
  url_Parse_error (doc_url c docID) = None ->
  RoundTrip (wire s) (get_document c docID) = inr resp ->
  BodyErr resp = None ->
  StatusCode resp = 200 ->
  Unmarshal_doc (Body resp) = inr doc ->
  (forall id, doc !! "_id" <> Some (JString id)) ->
  (exists s',
     ResetDocument c docID s
     = (Panic ("interface conversion: interface {} is "
               +:+ go_type_name (doc !! "_id") +:+ ", not string"), s')
     /\ last (wire s') = Some (document_delete c docID))
  \/ (exists step err s',
        step ∈ ["failed to get revisions: "; "failed to delete all revisions: ";
                "failed to delete document: "]
        /\ ResetDocument c docID s = (Err (step +:+ err), s')).
Proof.
  intros Hurl Hresp Hbody Hst Hdec Hid.
  assert (exists l, GetDocument c docID s
            = (Ok l, {| heap := <[l := doc]> (heap s);
                        wire := wire s ++ [get_document c docID] |})) as [l H1].
  { unfold GetDocument, http_Get, NewRequest, Do, ReadAll, alloc, StatusOK.
    rewrite Hurl. fold (get_document c docID). rewrite Hresp, Hbody, Hst.
    cbn [Z.eqb Pos.eqb negb]. rewrite Hdec. by eexists. }
  unfold ResetDocument. rewrite H1.
  set (s1 := {| heap := <[l := doc]> (heap s); wire := _ |}).
  destruct (GetAllRevisions c docID s1) as [[revisions|e|m] s2] eqn:H2.
  2:{ right. exists "failed to get revisions: ", e, s2. split; [set_solver|done]. }
  2:{ exfalso. revert H2. unfold GetAllRevisions. repeat case_match; done. }
  destruct (DeleteAllRevisions c docID revisions s2) as [[[]|e|m] s3] eqn:H3.
  2:{ right. exists "failed to delete all revisions: ", e, s3.
      split; [set_solver|done]. }
  2:{ destruct (DeleteAllRevisions_no_panic c docID revisions s2 m).
      by rewrite H3. }
  destruct (DeleteDocument c docID s3) as [[[]|e|m] s4] eqn:H4.
  2:{ right. exists "failed to delete document: ", e, s4. split; [set_solver|done]. }
  2:{ destruct (DeleteDocument_no_panic c docID s3 m). by rewrite H4. }
  left. exists s4.
  apply GetAllRevisions_Ok in H2 as ->.
  pose proof (DeleteAllRevisions_state c docID revisions
                (sent s1 [get_revisions c docID])) as (pre & post & _ & Hs3 & _).
  rewrite H3 in Hs3. cbn [snd] in Hs3. subst s3.
  apply DeleteDocument_Ok in H4 as ->.
  assert (deref (sent (sent (sent s1 [get_revisions c docID])
                         (delete_calls c (map (pair docID) pre)))
                   [document_delete c docID]) l = doc) as Hderef.
  { unfold deref, s1. cbn [heap sent]. by rewrite lookup_insert_eq. }
  rewrite CreateDocument_panics by (rewrite Hderef; exact Hid).
  rewrite Hderef. split; [done|]. cbn [wire sent]. apply last_snoc.
Qed.

Lemma ResetDocument_recreate_failure_is_a_panic_witness :
  exists s',
    @ResetDocument example_world_no_id example_client "doc1" empty_state
    = (Panic "interface conversion: interface {} is nil, not string", s')
    /\ last (wire s') = Some (document_delete example_client "doc1")
    /\ length (wire s') = 6%nat.
Proof.
  destruct (@ResetDocument_recreate_failure_is_a_panic example_world_no_id
              example_client "doc1" empty_state
              {| StatusCode := 200; Body := "{ok:true}"; BodyErr := None |}
              example_doc_no_id)
    as [(s' & Hrun & Hlast)|(step & err & s' & _ & Hrun)];
    try (vm_compute; reflexivity).
  - intros id. vm_compute. discriminate.
  - exists s'. split; [exact Hrun|]. split; [exact Hlast|].
    assert (s' = (@ResetDocument example_world_no_id example_client "doc1"
                    empty_state).2) as -> by (by rewrite Hrun).
    vm_compute. reflexivity.
  - exfalso. vm_compute in Hrun. discriminate Hrun.
Defined.
